(** * AI Content Generator Pro: prompt builder, generation client, history store

    A shallow embedding of [app.py] (the functions between [generate_with_gemini]
    and [export_history_as_text], and the history actions of
    [show_history_page]), followed by the properties the specification states
    about them.

    Conventions of the embedding:
    - a Python [str] is a [string] (a sequence of 8-bit characters);
      [str.lower] and [str.strip] are modelled on the ASCII range, characters
      above 127 are neither letters nor whitespace;
    - a Python [int] is a [Z];
    - a history entry (a [dict] with the twelve keys the application writes)
      is the record [ContentRecord]; the defaults of [item.get(key, default)]
      are never taken for such an entry;
    - [content_history.json] is an [option] of its contents ([None]: the file
      does not exist); [json.load] and [json.dump] are parameters;
    - an exception is a value of [exn]; a call that may raise returns a
      [result]. *)

From Stdlib Require Import ZArith List String Ascii Bool Lia DecimalString.
From Stdlib Require Import Permutation Sorted.
From Stdlib Require OrderedTypeEx.
Import ListNotations.

#[local] Set Warnings "-notation-for-abbreviation".

Local Open Scope Z_scope.
Local Open Scope string_scope.

(* ===================================================================== *)
(** * Part I: the program                                                 *)
(* ===================================================================== *)

(** ** Python string primitives *)

Module Py.

(** A [str] is modelled by the bytes of its UTF-8 form.  The functions below
    are those of Python on ASCII text; on other text Python strips, folds and
    counts by code points and the Unicode tables, which are not modelled, and
    the properties that depend on it are stated for ASCII text. *)

(** [str.isspace] on one character, ASCII range: TAB, LF, VT, FF, CR,
    FS, GS, RS, US and the space. *)
Definition is_space (c : ascii) : bool :=
  let n := nat_of_ascii c in
  ((9 <=? n)%nat && (n <=? 13)%nat) || ((28 <=? n)%nat && (n <=? 32)%nat).

Definition is_upper (c : ascii) : bool :=
  let n := nat_of_ascii c in (65 <=? n)%nat && (n <=? 90)%nat.

Definition lower_char (c : ascii) : ascii :=
  if is_upper c then ascii_of_nat (nat_of_ascii c + 32) else c.

(** [s.lower()] *)
Fixpoint lower (s : string) : string :=
  match s with
  | EmptyString => EmptyString
  | String c t => String (lower_char c) (lower t)
  end.

(** [s.lstrip()] *)
Fixpoint lstrip (s : string) : string :=
  match s with
  | EmptyString => EmptyString
  | String c t => if is_space c then lstrip t else s
  end.

(** [s.rstrip()] *)
Fixpoint rstrip (s : string) : string :=
  match s with
  | EmptyString => EmptyString
  | String c t =>
      match rstrip t with
      | EmptyString => if is_space c then EmptyString else String c EmptyString
      | t' => String c t'
      end
  end.

(** [s.strip()] *)
Definition strip (s : string) : string := rstrip (lstrip s).

(** [needle in hay] on two strings: [needle] occurs at some position. *)
Fixpoint contains (needle hay : string) : bool :=
  prefix needle hay ||
  match hay with
  | EmptyString => false
  | String _ t => contains needle t
  end.

(** [str(n)] and [f"{n}"] for an [int]. *)
Definition str_of_int (n : Z) : string := NilZero.string_of_int (Z.to_int n).

(** The line feed character, as a string. *)
Definition nl : string := String (ascii_of_nat 10) EmptyString.

(** [s * n] *)
Fixpoint repeat_str (s : string) (n : nat) : string :=
  match n with
  | O => EmptyString
  | S k => s ++ repeat_str s k
  end.

(** Truth value of a [str]. *)
Definition truthy (s : string) : bool := negb (s =? EmptyString).

(** Truth value of an [Optional[str]]: [None] and the empty string are false. *)
Definition truthy_opt (o : option string) : bool :=
  match o with
  | None => false
  | Some s => truthy s
  end.

(** A [dict] literal with string keys, in source order, and [d.get(k, default)]. *)
Definition dict (V : Type) : Type := list (string * V).

Fixpoint get {V : Type} (d : dict V) (k : string) (default : V) : V :=
  match d with
  | [] => default
  | (k', v) :: rest => if k =? k' then v else get rest k default
  end.

End Py.

(** ** History store *)

Record ContentRecord : Type := mkContentRecord {
  id : Z;
  keyword : string;
  content_type : string;
  language : string;
  tone : string;
  audience : string;
  rhyme_scheme : string;
  length_words : Z;
  tags : string;
  output : string;
  timestamp : string;
  favorite : bool
}.

Definition history : Type := list ContentRecord.

(** [record["id"] = v] *)
Definition set_id (v : Z) (r : ContentRecord) : ContentRecord :=
  mkContentRecord v (keyword r) (content_type r) (language r) (tone r) (audience r)
    (rhyme_scheme r) (length_words r) (tags r) (output r) (timestamp r) (favorite r).

(** [record["timestamp"] = v] *)
Definition set_timestamp (v : string) (r : ContentRecord) : ContentRecord :=
  mkContentRecord (id r) (keyword r) (content_type r) (language r) (tone r) (audience r)
    (rhyme_scheme r) (length_words r) (tags r) (output r) v (favorite r).

(** [record["favorite"] = v] *)
Definition set_favorite (v : bool) (r : ContentRecord) : ContentRecord :=
  mkContentRecord (id r) (keyword r) (content_type r) (language r) (tone r) (audience r)
    (rhyme_scheme r) (length_words r) (tags r) (output r) (timestamp r) v.

(** [len(history)] *)
Definition len {A : Type} (l : list A) : Z := Z.of_nat (List.length l).

Section HistoryFile.

(** The contents of a file, and the two functions of the [json] module that
    touch them.  [json_load] is [None] when [open] or [json.load] raises. *)
Context {text : Type}.
Variable json_load : text -> option history.
Variable json_dump : history -> text.

(** [content_history.json]: [None] when [os.path.exists] is false. *)
Definition file : Type := option text.

Definition load_history (f : file) : history :=
  match f with
  | Some contents =>
      match json_load contents with
      | Some h => h
      | None => []                      (* except: return [] *)
      end
  | None => []
  end.

(** [now] is the value of [datetime.datetime.now().isoformat()].  The write
    is that of a [json.dump] that succeeds; [save_to_history_or_raise] below
    has the write with its failure. *)
Definition save_to_history (now : string) (record : ContentRecord) (f : file) : file :=
  let history := load_history f in
  let record := set_id (len history + 1) record in
  let record := set_timestamp now record in
  let record := set_favorite false record in
  let history := (history ++ [record])%list in
  Some (json_dump history).

(** The [for item in history: ... break] loop of [toggle_favorite]. *)
Fixpoint toggle_first (item_id : Z) (h : history) : history :=
  match h with
  | [] => []
  | item :: rest =>
      if (id item =? item_id)%Z
      then set_favorite (negb (favorite item)) item :: rest       (* break *)
      else item :: toggle_first item_id rest
  end.

Definition toggle_favorite (item_id : Z) (f : file) : file :=
  let history := load_history f in
  Some (json_dump (toggle_first item_id history)).

(** Returns the file written and the function's return value. *)
Definition delete_content (item_id : Z) (f : file) : file * bool :=
  let history := load_history f in
  let updated_history := filter (fun item => negb (id item =? item_id)%Z) history in
  (Some (json_dump updated_history),
   negb (len history =? len updated_history)%Z).

(** The test of the last [if] in the loop of [search_history]. *)
Definition query_matches (query : string) (item : ContentRecord) : bool :=
  Py.contains (Py.lower query) (Py.lower (keyword item)) ||
  Py.contains (Py.lower query) (Py.lower (output item)) ||
  Py.contains (Py.lower query) (Py.lower (tags item)).

(** The loop of [search_history]; each [continue] is a recursive call that
    drops the item. *)
Fixpoint search_loop (query : string) (filter_type : option string)
    (filter_favorite : bool) (h : history) : history :=
  match h with
  | [] => []
  | item :: rest =>
      if filter_favorite && negb (favorite item)
      then search_loop query filter_type filter_favorite rest
      else if Py.truthy_opt filter_type
              && negb (match filter_type with Some t => t =? "All" | None => false end)
              && negb (match filter_type with
                       | Some t => content_type item =? t
                       | None => false
                       end)
      then search_loop query filter_type filter_favorite rest
      else if query_matches query item
      then item :: search_loop query filter_type filter_favorite rest
      else search_loop query filter_type filter_favorite rest
  end.

Definition search_history (query : string) (filter_type : option string)
    (filter_favorite : bool) (f : file) : history :=
  search_loop query filter_type filter_favorite (load_history f).

(** The block appended to [content] for one item. *)
Definition export_item (content : string) (item : ContentRecord) : string :=
  let content := content ++ "ID: " ++ Py.str_of_int (id item) ++ Py.nl in
  let content := content ++ "Keyword: " ++ keyword item ++ Py.nl in
  let content := content ++ "Type: " ++ content_type item ++ Py.nl in
  let content := content ++ "Language: " ++ language item ++ Py.nl in
  let content := content ++ "Tone: " ++ tone item ++ Py.nl in
  let content := content ++ "Date: " ++ timestamp item ++ Py.nl in
  let content := content ++ "Favorite: " ++ (if favorite item then "Yes" else "No") ++ Py.nl in
  let content := content ++ "Tags: " ++ tags item ++ Py.nl in
  let content := content ++ "Content:" ++ Py.nl ++ output item ++ Py.nl in
  let content := content ++ Py.repeat_str "-" 30 ++ Py.nl ++ Py.nl in
  content.

Definition export_history_as_text (f : file) : string :=
  let history := load_history f in
  let content := "AI Quote & Poem Generator - Content History" ++ Py.nl in
  let content := content ++ Py.repeat_str "=" 50 ++ Py.nl ++ Py.nl in
  fold_left export_item history content.

(** *** The history actions of [show_history_page] *)

(** "Clear All History", confirmed. *)
Definition clear_all_history (f : file) : file := Some (json_dump []).

(** The items the page lists: the search result when a query or filter is
    set, the whole history otherwise. *)
Definition filtered_history (search_query : string) (filter_type : string)
    (filter_favorite : bool) (f : file) : history :=
  if Py.truthy search_query || negb (filter_type =? "All") || filter_favorite
  then search_history search_query (Some filter_type) filter_favorite f
  else load_history f.

(** "Delete All Filtered", confirmed: [filtered] is the list the page shows. *)
Definition delete_all_filtered (filtered : history) (f : file) : file :=
  let history := load_history f in
  let filtered_ids := map id filtered in
  let updated_history :=
    filter (fun item => negb (existsb (Z.eqb (id item)) filtered_ids)) history in
  Some (json_dump updated_history).

(** *** Sequences of store operations by one writer *)

(** One action of the user on the store.  The history page offers the
    deletions and the toggle only while the store is not empty and only for
    ids it lists; the functions accept any id, and so does [apply_op].  The
    clear all and the bulk delete are code of the page, which returns early
    on an empty history: there they write what is read back as the empty
    history again, and [history_step] has the early return itself. *)

Inductive store_op : Type :=
| Append (now : string) (record : ContentRecord)
| ToggleFavorite (item_id : Z)
| Delete (item_id : Z)
| BulkDelete (search_query : string) (filter_type : string) (filter_favorite : bool)
| ClearAll.

Definition apply_op (f : file) (op : store_op) : file :=
  match op with
  | Append now record => save_to_history now record f
  | ToggleFavorite item_id => toggle_favorite item_id f
  | Delete item_id => fst (delete_content item_id f)
  | BulkDelete q t fav => delete_all_filtered (filtered_history q t fav f) f
  | ClearAll => clear_all_history f
  end.

Definition run_ops (ops : list store_op) (f : file) : file :=
  fold_left apply_op ops f.

End HistoryFile.

(** ** Prompt builder *)

(** The [content_instructions] table; the entry for a poem embeds the
    requested length. *)
Definition content_instructions (length_words : Z) : Py.dict string :=
  [ ("Quote", "Write a memorable, inspiring quote");
    ("Poem", "Create a " ++ Py.str_of_int length_words ++ "-word poem (3-8 lines preferred)");
    ("Haiku", "Write a traditional 3-line Haiku (5-7-5 syllable pattern)");
    ("Motivational Saying", "Create an uplifting motivational saying");
    ("Social Media Caption", "Write a catchy social media caption (under 280 characters)");
    ("Song Lyrics", "Write song lyrics with rhythm and flow");
    ("Story Beginning", "Write an engaging story opening paragraph") ].

Definition language_map : Py.dict string :=
  [ ("English", EmptyString);
    ("Hindi", "Write in Hindi language");
    ("Marathi", "Write in Marathi language");
    ("Spanish", "Write in Spanish language");
    ("French", "Write in French language");
    ("German", "Write in German language") ].

Definition tone_map : Py.dict string :=
  [ ("Funny", "Make it humorous and witty");
    ("Serious", "Keep it thoughtful and profound");
    ("Romantic", "Make it romantic and heartfelt");
    ("Professional", "Keep it professional and polished");
    ("Inspirational", "Make it uplifting and motivating") ].

Definition audience_map : Py.dict string :=
  [ ("Kids", "Use simple, fun language suitable for children");
    ("Adults", "Use mature, sophisticated language");
    ("Professionals", "Use formal, business-appropriate language");
    ("General", EmptyString) ].

Definition rhyme_map : Py.dict string :=
  [ ("Free Verse", "Use free verse (no specific rhyme scheme)");
    ("ABAB", "Use ABAB rhyme scheme");
    ("AABB", "Use AABB rhyme scheme (couplets)");
    ("ABCB", "Use ABCB rhyme scheme") ].

Definition build_prompt (keyword content_type language tone audience rhyme_scheme : string)
    (length_words : Z) : string :=
  let prompt :=
    Py.get (content_instructions length_words) content_type "Write content"
    ++ " about '" ++ keyword ++ "'. " in
  let prompt :=
    if negb (language =? "English")
    then prompt ++ Py.get language_map language EmptyString ++ ". "
    else prompt in
  let prompt :=
    if negb (tone =? "Inspirational")
    then prompt ++ Py.get tone_map tone EmptyString ++ ". "
    else prompt in
  let prompt :=
    if negb (audience =? "General")
    then prompt ++ Py.get audience_map audience EmptyString ++ ". "
    else prompt in
  let prompt :=
    if (content_type =? "Poem") && negb (rhyme_scheme =? "Free Verse")
    then prompt ++ Py.get rhyme_map rhyme_scheme EmptyString ++ ". "
    else prompt in
  Py.strip prompt.

(** ** Generation client *)

(** *** Exceptions and results *)

Inductive exn_class : Type :=
| RuntimeError | ValueError | AttributeError | TypeError | KeyError | IndexError
| OtherError (name : string).

(** An exception: its class and [str(e)]. *)
Record exn : Type := mkExn { exn_class_of : exn_class; exn_str : string }.

Inductive result (A : Type) : Type :=
| Return (v : A)
| Raise (e : exn).
Arguments Return {A} v.
Arguments Raise {A} e.

Definition bind {A B : Type} (m : result A) (k : A -> result B) : result B :=
  match m with
  | Return v => k v
  | Raise e => Raise e
  end.

Notation "x <- m ;; k" := (bind m (fun x => k))
  (at level 61, m at next level, right associativity).

(** *** Values produced by [resp.json()] *)

(** A parsed JSON document.  Numbers are integers here; a [float] behaves
    like an [int] in every operation below. *)
#[local] Set Warnings "-register-all".
Inductive json : Type :=
| JNull
| JBool (b : bool)
| JInt (n : Z)
| JStr (s : string)
| JList (l : list json)
| JDict (d : list (string * json)).

Definition type_name (j : json) : string :=
  match j with
  | JNull => "NoneType"
  | JBool _ => "bool"
  | JInt _ => "int"
  | JStr _ => "str"
  | JList _ => "list"
  | JDict _ => "dict"
  end.

(** Truth value of a Python object. *)
Definition truthy (j : json) : bool :=
  match j with
  | JNull => false
  | JBool b => b
  | JInt n => negb (n =? 0)%Z
  | JStr s => Py.truthy s
  | JList l => match l with [] => false | _ => true end
  | JDict d => match d with [] => false | _ => true end
  end.

Definition no_attribute (j : json) (attr : string) : exn :=
  mkExn AttributeError ("'" ++ type_name j ++ "' object has no attribute '" ++ attr ++ "'").

(** [x.get(key, default)] *)
Definition dict_get (x : json) (key : string) (default : json) : result json :=
  match x with
  | JDict d => Return (Py.get d key default)
  | _ => Raise (no_attribute x "get")
  end.

(** [len(x)] *)
Definition py_len (x : json) : result Z :=
  match x with
  | JStr s => Return (Z.of_nat (String.length s))
  | JList l => Return (len l)
  | JDict d => Return (len d)
  | _ => Raise (mkExn TypeError ("object of type '" ++ type_name x ++ "' has no len()"))
  end.

(** [x[0]] *)
Definition item0 (x : json) : result json :=
  match x with
  | JList (v :: _) => Return v
  | JList [] => Raise (mkExn IndexError "list index out of range")
  | JStr (String c _) => Return (JStr (String c EmptyString))
  | JStr EmptyString => Raise (mkExn IndexError "string index out of range")
  | JDict _ => Raise (mkExn KeyError "0")
  | _ => Raise (mkExn TypeError ("'" ++ type_name x ++ "' object is not subscriptable"))
  end.

(** [x.strip()] *)
Definition str_strip (x : json) : result string :=
  match x with
  | JStr s => Return (Py.strip s)
  | _ => Raise (no_attribute x "strip")
  end.

(** [if x and len(x) > 0]: [and] does not evaluate [len(x)] when [x] is false. *)
Definition nonempty (x : json) : result bool :=
  if truthy x then n <- py_len x ;; Return (0 <? n)%Z else Return false.

Definition no_response : string := "No response generated".

(** The lines of [generate_with_gemini] from [data.get("candidates", [])] to
    [return "No response generated"]: the text of the first part of the
    first candidate. *)
Definition extract_text (data : json) : result string :=
  candidates <- dict_get data "candidates" (JList []) ;;
  has_candidates <- nonempty candidates ;;
  if has_candidates then
    first <- item0 candidates ;;
    content <- dict_get first "content" (JDict []) ;;
    parts <- dict_get content "parts" (JList []) ;;
    has_parts <- nonempty parts ;;
    if has_parts then
      part <- item0 parts ;;
      text <- dict_get part "text" (JStr EmptyString) ;;
      str_strip text
    else Return no_response
  else Return no_response.

(** *** The HTTP exchange *)

(** The settings read from the environment at import time, the keys after
    their quotes and blanks are stripped; a key is [None] when its variable
    is not set. *)
Record config : Type := mkConfig {
  MODEL_PROVIDER : string;
  GEMINI_API_KEY : option string;
  GEMINI_MODEL : string;
  OPENAI_API_KEY : option string;
  OPENAI_MODEL : string
}.

Section GenerationClient.

(** Python's [float], carried through untouched. *)
Context {float : Type}.
(** The literal [0.7]. *)
Variable float_0_7 : float.

(** What [requests.post] is called with. *)
Record request : Type := mkRequest {
  url : string;
  header_content_type : string;
  param_key : string;
  body_text : string;
  body_temperature : float;
  body_maxOutputTokens : Z;
  timeout : Z
}.

(** What [requests.post] returns: [resp.ok], [resp.status_code], the
    outcome of [resp.json()] and [resp.text]. *)
Record response : Type := mkResponse {
  ok : bool;
  status_code : Z;
  json_body : result json;
  text_body : string
}.

(** What [openai.ChatCompletion.create] is called with. *)
Record chat_request : Type := mkChatRequest {
  chat_api_key : option string;
  chat_model : string;
  chat_content : string;
  chat_max_tokens : Z;
  chat_temperature : float
}.

(** [requests.post]: a response, or an exception (timeout, connection). *)
Variable requests_post : request -> result response.
(** [str(x)] of a parsed JSON document. *)
Variable py_str : json -> string.
(** [import openai]: [Some e] when the import raises [e]. *)
Variable import_openai : option exn.
(** [openai.ChatCompletion.create]: the [message.content] of each choice
    ([None] for a null content), or an exception. *)
Variable chat_completion_create : chat_request -> result (list (option string)).

Variable cfg : config.

(** The request [generate_with_gemini] sends. *)
Definition gemini_request (prompt model api_key : string) (max_tokens : Z)
    (temperature : float) : request :=
  mkRequest
    ("https://generativelanguage.googleapis.com/v1beta/models/"
     ++ model ++ ":generateContent")
    "application/json" api_key prompt temperature max_tokens 30.

(** The body of the [try] block of [generate_with_gemini]. *)
Definition gemini_try (prompt model api_key : string) (max_tokens : Z)
    (temperature : float) : result string :=
  resp <- requests_post
            (gemini_request prompt model api_key max_tokens temperature) ;;
  if negb (ok resp) then
    let err_body :=
      match json_body resp with
      | Return body => py_str body
      | Raise _ => text_body resp
      end in
    Raise (mkExn RuntimeError
             ("Gemini API error (" ++ Py.str_of_int (status_code resp) ++ "): " ++ err_body))
  else
    data <- json_body resp ;;
    extract_text data.

Definition generate_with_gemini (prompt model : string) (api_key : option string)
    (max_tokens : Z) (temperature : float) : result string :=
  match api_key with
  | None => Raise (mkExn RuntimeError "GEMINI_API_KEY not set")
  | Some key =>
      match gemini_try prompt model key max_tokens temperature with
      | Return v => Return v
      | Raise e =>                                   (* except Exception as e *)
          Raise (mkExn RuntimeError ("Gemini generation failed: " ++ exn_str e))
      end
  end.

Definition generate_with_openai (prompt model : string) (api_key : option string)
    (max_tokens : Z) (temperature : float) : result string :=
  match import_openai with
  | Some e =>
      Raise (mkExn RuntimeError
               ("openai package not installed or unavailable: " ++ exn_str e))
  | None =>
      let key := if Py.truthy_opt api_key then api_key else None in
      choices <- chat_completion_create
                   (mkChatRequest key model prompt max_tokens temperature) ;;
      match choices with
      | [] => Raise (mkExn IndexError "list index out of range")
      | Some content :: _ => Return (Py.strip content)
      | None :: _ => Raise (no_attribute JNull "strip")
      end
  end.

(** The keyword arguments forwarded by [generate_text]; an omitted one
    takes the callee's default. *)
Record kwargs : Type := mkKwargs {
  kw_max_tokens : option Z;
  kw_temperature : option float
}.

Definition max_tokens_of (kw : kwargs) : Z :=
  match kw_max_tokens kw with Some n => n | None => 256 end.

Definition temperature_of (kw : kwargs) : float :=
  match kw_temperature kw with Some t => t | None => float_0_7 end.

(** [provider] is [None] when the caller leaves the parameter to its default,
    [MODEL_PROVIDER]. *)
Definition generate_text (prompt : string) (provider : option string) (kw : kwargs) :
    result string :=
  let provider := match provider with Some p => p | None => MODEL_PROVIDER cfg end in
  let provider := Py.lower provider in
  if provider =? "gemini" then
    if negb (Py.truthy_opt (GEMINI_API_KEY cfg)) then
      Raise (mkExn RuntimeError "GEMINI_API_KEY not found in environment. Set it in .env.")
    else
      generate_with_gemini prompt (GEMINI_MODEL cfg) (GEMINI_API_KEY cfg)
        (max_tokens_of kw) (temperature_of kw)
  else if provider =? "openai" then
    if negb (Py.truthy_opt (OPENAI_API_KEY cfg)) then
      Raise (mkExn RuntimeError "OPENAI_API_KEY not found in environment. Set it in .env.")
    else
      generate_with_openai prompt (OPENAI_MODEL cfg) (OPENAI_API_KEY cfg)
        (max_tokens_of kw) (temperature_of kw)
  else
    Raise (mkExn ValueError ("Unknown model provider: " ++ provider)).

End GenerationClient.

(** ** What the specification calls things *)

(** The place in the alphabet of an ASCII letter, capital or small: [0] for
    A and a, [25] for Z and z; nothing for any other character. *)
Definition letter_index (c : ascii) : option nat :=
  let n := nat_of_ascii c in
  if (65 <=? n)%nat && (n <=? 90)%nat then Some (n - 65)%nat
  else if (97 <=? n)%nat && (n <=? 122)%nat then Some (n - 97)%nat
  else None.

Definition same_letterb (a b : ascii) : bool :=
  Ascii.eqb a b
  || match letter_index a, letter_index b with
     | Some i, Some j => Nat.eqb i j
     | _, _ => false
     end.

(** Two characters are equal up to case: the same character, or the same
    letter of the alphabet, one a capital and the other small. *)
Definition same_letter (a b : ascii) : Prop := same_letterb a b = true.

(** Text of ASCII characters only.  On such text a byte is a character, and
    [str.lower] and [str.strip] are the functions of [Py]; on other text
    Python folds and strips by the Unicode tables, which [Py] does not
    hold. *)
Definition is_ascii (c : ascii) : bool := (nat_of_ascii c <? 128)%nat.

Fixpoint ascii_only (s : string) : bool :=
  match s with
  | EmptyString => true
  | String c t => is_ascii c && ascii_only t
  end.

(** The three fields [search_history] reads are ASCII text. *)
Definition ascii_record (r : ContentRecord) : bool :=
  ascii_only (keyword r) && ascii_only (output r) && ascii_only (tags r).

(** Equality of two strings up to case, as a test. *)
Fixpoint eqb_ignore_case (s t : string) : bool :=
  match s, t with
  | EmptyString, EmptyString => true
  | String a s', String b t' => same_letterb a b && eqb_ignore_case s' t'
  | _, _ => false
  end.

(** All 256 characters. *)
Definition all_chars : list ascii := map ascii_of_nat (seq 0 256).

(** Two strings are equal up to case: same length, letters pairwise
    equal up to case. *)
Inductive eq_ignore_case : string -> string -> Prop :=
| eic_empty : eq_ignore_case EmptyString EmptyString
| eic_char (a b : ascii) (s t : string) :
    same_letter a b -> eq_ignore_case s t -> eq_ignore_case (String a s) (String b t).

(** [field] case-insensitively contains [query] as a substring. *)
Definition contains_ignore_case (query field : string) : Prop :=
  exists before middle after,
    field = before ++ middle ++ after /\ eq_ignore_case middle query.

(** The search condition of the specification on one record. *)
Definition record_mentions (query : string) (r : ContentRecord) : Prop :=
  contains_ignore_case query (keyword r) \/
  contains_ignore_case query (output r) \/
  contains_ignore_case query (tags r).

(** [needle] occurs in [hay] as a literal substring. *)
Definition substring_of (needle hay : string) : Prop :=
  exists before after, hay = before ++ needle ++ after.

(** The ids of a store, in store order. *)
Definition ids (h : history) : list Z := map id h.

(** Every record of the store has an id no other record has. *)
Definition unique_ids (h : history) : Prop := NoDup (ids h).

(** The largest id of a store ([0] for the empty store). *)
Definition max_id (h : history) : Z := fold_right Z.max 0 (ids h).

(** The number of records of a store with a given id. *)
Definition count_id (item_id : Z) (h : history) : nat :=
  List.length (filter (fun item => (id item =? item_id)%Z) h).

(** An operation that takes single records out of the store. *)
Definition removes_records (op : store_op) : bool :=
  match op with
  | Delete _ | BulkDelete _ _ _ => true
  | Append _ _ | ToggleFavorite _ | ClearAll => false
  end.

(** The ids of a store are [1], [2], ... in store order. *)
Definition numbered (h : history) : Prop :=
  ids h = map Z.of_nat (seq 1 (List.length h)).

(** The export block of one record, on its own. *)
Definition export_section (item : ContentRecord) : string :=
  export_item EmptyString item.

(** The export blocks of a sequence of records, one after the other. *)
Definition export_sections (h : history) : string :=
  fold_right (fun item rest => export_section item ++ rest) EmptyString h.

(** The two header lines of the export. *)
Definition export_header : string :=
  "AI Quote & Poem Generator - Content History" ++ Py.nl
  ++ Py.repeat_str "=" 50 ++ Py.nl ++ Py.nl.

(** The phrases of [rhyme_map]. *)
Definition rhyme_clauses : list string := map snd rhyme_map.

(** The phrases [build_prompt] strings together, in order: the instruction
    with the quoted keyword, then the language, tone, audience and rhyme
    phrases that are not skipped. *)
Definition prompt_phrases (keyword content_type language tone audience rhyme_scheme : string)
    (length_words : Z) : list string :=
  ((Py.get (content_instructions length_words) content_type "Write content"
    ++ " about '" ++ keyword ++ "'")%string
   :: (if negb (language =? "English")
       then [Py.get language_map language EmptyString] else [])
   ++ (if negb (tone =? "Inspirational")
       then [Py.get tone_map tone EmptyString] else [])
   ++ (if negb (audience =? "General")
       then [Py.get audience_map audience EmptyString] else [])
   ++ (if (content_type =? "Poem") && negb (rhyme_scheme =? "Free Verse")
       then [Py.get rhyme_map rhyme_scheme EmptyString] else []))%list.

(** Each phrase followed by a full stop and a space. *)
Definition sentences (phrases : list string) : string :=
  fold_right (fun phrase rest => phrase ++ ". " ++ rest) EmptyString phrases.

(** The character [a] occurs in [s]. *)
Fixpoint has_char (a : ascii) (s : string) : bool :=
  match s with
  | EmptyString => false
  | String b t => Ascii.eqb a b || has_char a t
  end.

(** What the proofs need of a rhyme phrase: it starts with a character that
    is not whitespace and holds neither a full stop nor an apostrophe. *)
Definition plain_phrase (c : string) : Prop :=
  exists a rest,
    c = String a rest /\ Py.is_space a = false /\
    has_char "."%char c = false /\ has_char "'"%char c = false.

(** The provider [generate_text] selects: the argument, or [MODEL_PROVIDER]
    when it is left out, in lowercase. *)
Definition selected_provider (cfg : config) (provider : option string) : string :=
  Py.lower (match provider with Some p => p | None => MODEL_PROVIDER cfg end).

(** The first candidate's parts in a response of the documented shape:
    [data["candidates"][0]["content"]["parts"]], empty when a level is
    missing. *)
Definition first_parts (data : json) : list json :=
  match data with
  | JDict d =>
      match Py.get d "candidates" (JList []) with
      | JList (JDict c :: _) =>
          match Py.get c "content" (JDict []) with
          | JDict ct =>
              match Py.get ct "parts" (JList []) with
              | JList ps => ps
              | _ => []
              end
          | _ => []
          end
      | _ => []
      end
  | _ => []
  end.

(** The text of the first candidate, when the response carries one. *)
Definition candidate_text (data : json) : option string :=
  match first_parts data with
  | JDict p :: _ =>
      match Py.get p "text" JNull with
      | JStr s => Some s
      | _ => None
      end
  | _ => None
  end.

Definition is_part (j : json) : bool :=
  match j with
  | JDict p => forallb (fun kv => negb (fst kv =? "text")
                                 || match snd kv with JStr _ => true | _ => false end) p
  | _ => false
  end.

Definition is_content (j : json) : bool :=
  match j with
  | JDict c => forallb (fun kv => negb (fst kv =? "parts")
                                 || match snd kv with
                                    | JList ps => forallb is_part ps
                                    | _ => false
                                    end) c
  | _ => false
  end.

Definition is_candidate (j : json) : bool :=
  match j with
  | JDict c => forallb (fun kv => negb (fst kv =? "content") || is_content (snd kv)) c
  | _ => false
  end.

(** A response body of the documented shape: an object whose [candidates],
    when present, is a list of objects whose [content], when present, is an
    object whose [parts], when present, is a list of objects whose [text],
    when present, is a string. *)
Definition well_formed (data : json) : bool :=
  match data with
  | JDict d => forallb (fun kv => negb (fst kv =? "candidates")
                                 || match snd kv with
                                    | JList cs => forallb is_candidate cs
                                    | _ => false
                                    end) d
  | _ => false
  end.

(** ** A concrete environment, to run the client on explicit inputs *)

Definition sample_config : config :=
  mkConfig "gemini" (Some "k-123") "gemini-2.0-flash" (Some "sk-456") "gpt-4".

Definition sample_py_str (body : json) : string := "{'error': 'quota'}".

(** A response whose first part has no [text] field. *)
Definition body_without_text : json :=
  JDict [("candidates",
          JList [JDict [("content", JDict [("parts", JList [JDict []])])]])].

(** A response with no candidates. *)
Definition body_without_candidates : json := JDict [("candidates", JList [])].

(** [requests.post] answering every request with status 200 and [body]. *)
Definition post_ok (body : json) (r : @request unit) : result response :=
  Return (mkResponse true 200 (Return body) EmptyString).

(** [requests.post] answering every request with status 429. *)
Definition post_429 (r : @request unit) : result response :=
  Return (mkResponse false 429 (Return (JDict [])) EmptyString).

(** [openai.ChatCompletion.create] answering with no choice at all. *)
Definition chat_no_choice (r : @chat_request unit) : result (list (option string)) :=
  Return [].

Definition no_kwargs : @kwargs unit := mkKwargs None None.

(** ** A concrete file format, to run the store on explicit inputs *)

Inductive sample_text : Type :=
| Garbage (raw : string)
| Dumped (h : history).

Definition sample_load (t : sample_text) : option history :=
  match t with
  | Garbage _ => None
  | Dumped h => Some h
  end.

Definition sample_dump (h : history) : sample_text := Dumped h.

Definition sample_now : string := "2025-03-01T09:30:00.000123".

(** What the generator page hands to [save_to_history]. *)
Definition sample_record (kw out : string) : ContentRecord :=
  mkContentRecord 0 kw "Quote" "English" "Inspirational" "General" "Free Verse" 12
    "personal" out EmptyString false.

(** ** The rest of the program *)

(** *** Reading the configuration (module level) *)

(** [s.lstrip(chars)], [s.rstrip(chars)] and [s.strip(chars)]: the
    characters of [chars] are dropped from the ends. *)
Fixpoint lstrip_chars (chars s : string) : string :=
  match s with
  | EmptyString => EmptyString
  | String c t => if has_char c chars then lstrip_chars chars t else s
  end.

Fixpoint rstrip_chars (chars s : string) : string :=
  match s with
  | EmptyString => EmptyString
  | String c t =>
      match rstrip_chars chars t with
      | EmptyString => if has_char c chars then EmptyString else String c EmptyString
      | t' => String c t'
      end
  end.

Definition strip_chars (chars s : string) : string :=
  rstrip_chars chars (lstrip_chars chars s).

(** The string made of one double quote. *)
Definition double_quote : string := String (ascii_of_nat 34) EmptyString.

(** The normalisation of a key that is set and not empty: [strip()], then
    the double quotes stripped from both ends, then the single quotes. *)
Definition normalize_key (raw : option string) : option string :=
  match raw with
  | Some key =>
      if Py.truthy key
      then Some (strip_chars "'" (strip_chars double_quote (Py.strip key)))
      else Some key
  | None => None
  end.

(** [os.getenv(name, default)] over an environment [getenv]. *)
Definition getenv_default (getenv : string -> option string) (name default : string) :
    string :=
  match getenv name with
  | Some v => v
  | None => default
  end.

(** The five module-level settings, from the environment as it is after
    [load_dotenv]. *)
Definition read_config (getenv : string -> option string) : config :=
  mkConfig
    (Py.lower (getenv_default getenv "MODEL_PROVIDER" "gemini"))
    (normalize_key (getenv "GEMINI_API_KEY"))
    (getenv_default getenv "GEMINI_MODEL" "gemini-2.0-flash")
    (normalize_key (getenv "OPENAI_API_KEY"))
    (getenv_default getenv "OPENAI_MODEL" "gpt-4").

(** *** Writing the history file, with the failure of the dump *)

(** What [json.dump(history, f, ...)] does to a file just opened for
    writing: it writes the whole text of [history], or it raises after it has
    written a part of it.  It raises where a value cannot be encoded: a string
    that holds a lone surrogate, as [json] decodes from an escape such as
    \ud83d in the answer of a provider, has no UTF-8 form. *)
Inductive dumped (text : Type) : Type :=
| Written (contents : text)
| Broken (partial : text) (e : exn).
Arguments Written {text} contents.
Arguments Broken {text} partial e.

Section HistoryWrite.

Context {text : Type}.
Variable json_load : text -> option history.
Variable json_dump : history -> dumped text.

(** The [with open(file, mode w) as f: json.dump(history, f, ...)] block.
    Opening the file empties it, so it holds afterwards what [json.dump]
    wrote, whole or in part; an exception of [json.dump] leaves the block. *)
Definition write_history (h : history) : @file text * result unit :=
  match json_dump h with
  | Written contents => (Some contents, Return tt)
  | Broken partial e => (Some partial, Raise e)
  end.

(** [save_to_history] with this write: the file afterwards, and whether the
    call returned. *)
Definition save_to_history_or_raise (now : string) (record : ContentRecord) (f : file) :
    @file text * result unit :=
  let history := load_history json_load f in
  let record := set_id (len history + 1) record in
  let record := set_timestamp now record in
  let record := set_favorite false record in
  let history := (history ++ [record])%list in
  write_history history.

End HistoryWrite.

(** The bytes ED A0 BD: the lone surrogate U+D83D, which is not UTF-8. *)
Definition lone_surrogate : string :=
  String (ascii_of_nat 237) (String (ascii_of_nat 160) (String (ascii_of_nat 189)
    EmptyString)).

(** A dump for the concrete file format that fails, after the opening
    bracket, on a history with a lone surrogate in some output. *)
Definition sample_dump_or_raise (h : history) : dumped sample_text :=
  if existsb (fun r => Py.contains lone_surrogate (output r)) h
  then Broken (Garbage "[")
         (mkExn (OtherError "UnicodeEncodeError")
            "'utf-8' codec can't encode character '\ud83d': surrogates not allowed")
  else Written (Dumped h).

(** *** The generator page *)

(** The widgets of [show_generator_page]: [form_rhyme_scheme] is the value of
    the rhyme select box, which is shown for poems only, and [form_length]
    the value of the length slider. *)
Record form : Type := mkForm {
  form_keyword : string;
  form_content_type : string;
  form_language : string;
  form_tone : string;
  form_audience : string;
  form_rhyme_scheme : string;
  form_length : Z;
  form_tags : string
}.

(** [rhyme_scheme] as the page computes it. *)
Definition page_rhyme_scheme (fm : form) : string :=
  if form_content_type fm =? "Poem" then form_rhyme_scheme fm else "Free Verse".

(** [length_words] as the page computes it. *)
Definition page_length_words (fm : form) : Z :=
  if negb ((form_content_type fm =? "Haiku")
           || (form_content_type fm =? "Social Media Caption"))
  then form_length fm
  else if form_content_type fm =? "Haiku" then 17 else 25.

(** What the page shows after a click. *)
Inductive notice : Type :=
| WarnEnterKeyword
| ErrorGenerationFailed (e : string)
| InfoCheckApiKey
| SuccessSaved.

(** [content["output"] = v] *)
Definition set_output (v : string) (r : ContentRecord) : ContentRecord :=
  mkContentRecord (id r) (keyword r) (content_type r) (language r) (tone r) (audience r)
    (rhyme_scheme r) (length_words r) (tags r) v (timestamp r) (favorite r).

(** The dictionary the generate button stores in
    [st.session_state.current_content].  It has nine keys; the fields [id],
    [timestamp] and [favorite] stand for the three keys [save_to_history]
    adds, and are not read before. *)
Definition new_content (fm : form) (output : string) : ContentRecord :=
  mkContentRecord 0 (Py.strip (form_keyword fm)) (form_content_type fm)
    (form_language fm) (form_tone fm) (form_audience fm) (page_rhyme_scheme fm)
    (page_length_words fm) (Py.strip (form_tags fm)) output EmptyString false.

(** The prompt the generate button builds. *)
Definition form_prompt (fm : form) : string :=
  build_prompt (Py.strip (form_keyword fm)) (form_content_type fm) (form_language fm)
    (form_tone fm) (form_audience fm) (page_rhyme_scheme fm) (page_length_words fm).

(** The "Generate Content" button.  [generate] is
    [generate_text(prompt, temperature=0.7, max_tokens=300)]; the result is
    the new [current_content] and what the page shows. *)
Definition generate_button (generate : string -> result string) (fm : form)
    (current : option ContentRecord) : option ContentRecord * list notice :=
  if negb (Py.truthy (Py.strip (form_keyword fm))) then
    (current, [WarnEnterKeyword])
  else
    match generate (form_prompt fm) with
    | Return output =>
        if Py.truthy output
        then (Some (new_content fm output), [])
        else (current, [])
    | Raise e => (current, [ErrorGenerationFailed (exn_str e); InfoCheckApiKey])
    end.

(** The "Regenerate" button, shown when there is a current content. *)
Definition regenerate_button (generate : string -> result string)
    (current : option ContentRecord) : option ContentRecord * list notice :=
  match current with
  | None => (None, [])
  | Some content =>
      let prompt :=
        build_prompt (keyword content) (content_type content) (language content)
          (tone content) (audience content) (rhyme_scheme content)
          (length_words content) in
      match generate prompt with
      | Return output =>
          if Py.truthy output
          then (Some (set_output output content), [])
          else (current, [])
      | Raise e => (current, [ErrorGenerationFailed (exn_str e); InfoCheckApiKey])
      end
  end.

(** The name of the file the "Download" button offers. *)
Definition download_name (content : ContentRecord) : string :=
  keyword content ++ "_" ++ content_type content ++ ".txt".

Section Pages.

Context {text : Type}.
Variable json_load : text -> option history.
Variable json_dump : history -> text.

(** The "Save to History" button, shown when there is a current content.
    [save_to_history] writes [id], [timestamp] and [favorite] into the
    dictionary it is given, which is the one the session holds. *)
Definition save_button (now : string) (current : option ContentRecord) (f : file) :
    option ContentRecord * file * list notice :=
  match current with
  | None => (None, f, [])
  | Some content =>
      (Some (set_favorite false
               (set_timestamp now
                  (set_id (len (load_history json_load f) + 1) content))),
       save_to_history json_load json_dump now content f,
       [SuccessSaved])
  end.

(** One click on the generator page. *)
Inductive generator_click : Type :=
| ClickGenerate (generate : string -> result string) (fm : form)
| ClickRegenerate (generate : string -> result string)
| ClickSave (now : string).

Definition generator_step (state : option ContentRecord * file) (click : generator_click) :
    option ContentRecord * file :=
  let (current, f) := state in
  match click with
  | ClickGenerate generate fm => (fst (generate_button generate fm current), f)
  | ClickRegenerate generate => (fst (regenerate_button generate current), f)
  | ClickSave now =>
      let '(current', f', _) := save_button now current f in (current', f')
  end.

(** *** The history page *)

(** The confirmation flags [show_history_page] keeps in [st.session_state];
    [confirm_delete item_id] is [confirm_delete_{item_id}], false when the
    key is not set. *)
Record confirmations : Type := mkConfirmations {
  confirm_clear_all : bool;
  confirm_bulk_delete : bool;
  confirm_delete : Z -> bool
}.

Definition set_confirm_clear_all (v : bool) (s : confirmations) : confirmations :=
  mkConfirmations v (confirm_bulk_delete s) (confirm_delete s).

Definition set_confirm_bulk_delete (v : bool) (s : confirmations) : confirmations :=
  mkConfirmations (confirm_clear_all s) v (confirm_delete s).

Definition set_confirm_delete (item_id : Z) (v : bool) (s : confirmations) :
    confirmations :=
  mkConfirmations (confirm_clear_all s) (confirm_bulk_delete s)
    (fun i => if (i =? item_id)%Z then v else confirm_delete s i).

(** The search box, the type select box and the favorites check box. *)
Record filters : Type := mkFilters {
  search_query : string;
  filter_type : string;
  filter_favorite : bool
}.

(** The buttons of the page.  The item buttons exist for the listed items;
    the id of an item is the key of its widgets, so where two listed items
    share an id the page draws the buttons of the first one it reaches only,
    and the step function below allows more clicks than the page does. *)
Inductive history_click : Type :=
| ClickClearAll
| ClickCancelClearAll
| ClickDeleteAllFiltered
| ClickCancelBulkDelete
| ClickFavorite (item_id : Z)
| ClickDelete (item_id : Z)
| ClickCancelDelete (item_id : Z).

(** The items the page lists under the filters [flt]. *)
Definition listed (flt : filters) (f : file) : history :=
  filtered_history json_load (search_query flt) (filter_type flt) (filter_favorite flt) f.

(** [item_id] is the id of a listed item. *)
Definition is_listed (flt : filters) (f : file) (item_id : Z) : bool :=
  existsb (Z.eqb item_id) (map id (listed flt f)).

(** One run of [show_history_page] in which the button [click] is pressed:
    the flags and the file afterwards.  With an empty history the page stops
    before it draws any button. *)
Definition history_step (flt : filters) (click : history_click)
    (state : confirmations * file) : confirmations * file :=
  let (s, f) := state in
  match load_history json_load f with
  | [] => (s, f)
  | _ :: _ =>
      match click with
      | ClickClearAll =>
          if confirm_clear_all s
          then (set_confirm_clear_all false s, clear_all_history json_dump f)
          else (set_confirm_clear_all true s, f)
      | ClickCancelClearAll =>
          if confirm_clear_all s then (set_confirm_clear_all false s, f) else (s, f)
      | ClickDeleteAllFiltered =>
          match listed flt f with
          | [] => (s, f)
          | _ :: _ =>
              if confirm_bulk_delete s
              then (set_confirm_bulk_delete false s,
                    delete_all_filtered json_load json_dump (listed flt f) f)
              else (set_confirm_bulk_delete true s, f)
          end
      | ClickCancelBulkDelete =>
          match listed flt f with
          | [] => (s, f)
          | _ :: _ =>
              if confirm_bulk_delete s
              then (set_confirm_bulk_delete false s, f)
              else (s, f)
          end
      | ClickFavorite item_id =>
          if is_listed flt f item_id
          then (s, toggle_favorite json_load json_dump item_id f)
          else (s, f)
      | ClickDelete item_id =>
          if is_listed flt f item_id then
            if confirm_delete s item_id then
              let (f', deleted) := delete_content json_load json_dump item_id f in
              if deleted
              then (set_confirm_delete item_id false s, f')
              else (s, f')
            else (set_confirm_delete item_id true s, f)
          else (s, f)
      | ClickCancelDelete item_id =>
          if is_listed flt f item_id && confirm_delete s item_id
          then (set_confirm_delete item_id false s, f)
          else (s, f)
      end
  end.

(** *** The two pages together *)

(** What a session keeps between two runs of the script, and the file. *)
Record app_state : Type := mkAppState {
  current_content : option ContentRecord;
  confirms : confirmations;
  store : @file text
}.

(** A session starts with no content, no confirmation pending and, on a
    first use, no history file. *)
Definition initial_state : app_state :=
  mkAppState None (mkConfirmations false false (fun _ => false)) None.

(** A click on the generator page, or a click on the history page under the
    filters set there. *)
Inductive app_click : Type :=
| OnGenerator (click : generator_click)
| OnHistory (flt : filters) (click : history_click).

Definition app_step (s : app_state) (click : app_click) : app_state :=
  match click with
  | OnGenerator c =>
      let (current', f') := generator_step (current_content s, store s) c in
      mkAppState current' (confirms s) f'
  | OnHistory flt c =>
      let (confirms', f') := history_step flt c (confirms s, store s) in
      mkAppState (current_content s) confirms' f'
  end.

Definition app_run (clicks : list app_click) (s : app_state) : app_state :=
  fold_left app_step clicks s.

End Pages.

(** [s[:n]] *)
Fixpoint take (n : nat) (s : string) : string :=
  match n, s with
  | S k, String c t => String c (take k t)
  | _, _ => EmptyString
  end.

(** The content line of a listed item: the first 200 characters of the
    output, with an ellipsis when there are more.  [take] and
    [String.length] count bytes, which are the characters of ASCII text. *)
Definition preview (item : ContentRecord) : string :=
  take 200 (output item)
  ++ (if (200 <? Z.of_nat (String.length (output item)))%Z then "..." else EmptyString).

(** The date of a listed item: [timestamp[:10]]. *)
Definition listed_date (item : ContentRecord) : string := take 10 (timestamp item).

(** *** The analytics page *)

(** [d[k] = v] on a dictionary that keeps its keys in insertion order. *)
Fixpoint dict_set {V : Type} (d : Py.dict V) (k : string) (v : V) : Py.dict V :=
  match d with
  | [] => [(k, v)]
  | (k', v') :: rest =>
      if k =? k' then (k', v) :: rest else (k', v') :: dict_set rest k v
  end.

(** [counts[k] = counts.get(k, 0) + 1] *)
Definition count_one (counts : Py.dict Z) (k : string) : Py.dict Z :=
  dict_set counts k (Py.get counts k 0 + 1).

Definition type_counts (h : history) : Py.dict Z :=
  fold_left (fun counts item => count_one counts (content_type item)) h [].

Definition lang_counts (h : history) : Py.dict Z :=
  fold_left (fun counts item => count_one counts (language item)) h [].

(** The [keywords] dictionary: keywords in lowercase, empty ones left out. *)
Definition keyword_counts (h : history) : Py.dict Z :=
  fold_left
    (fun keywords item =>
       let keyword := Py.lower (keyword item) in
       if Py.truthy keyword then count_one keywords keyword else keywords)
    h [].

(** [len([h for h in history if h.get("favorite", False)])] *)
Definition favorites_metric (h : history) : Z := len (filter favorite h).

(** [sorted(l, key=..., reverse=True)], with [lt x y] for [key(x) < key(y)].
    The sort is stable: items with equal keys stay in their order. *)
Fixpoint insert_reverse {A : Type} (lt : A -> A -> bool) (x : A) (l : list A) : list A :=
  match l with
  | [] => [x]
  | y :: rest => if lt x y then y :: insert_reverse lt x rest else x :: y :: rest
  end.

Definition sorted_reverse {A : Type} (lt : A -> A -> bool) (l : list A) : list A :=
  fold_right (insert_reverse lt) [] l.

Definition older (x y : ContentRecord) : bool := String.ltb (timestamp x) (timestamp y).

(** [sorted(history, key=timestamp, reverse=True)[:5]] *)
Definition recent_items (h : history) : history := firstn 5 (sorted_reverse older h).

Definition fewer (x y : string * Z) : bool := (snd x <? snd y)%Z.

(** [sorted(keywords.items(), key=count, reverse=True)[:10]] *)
Definition sorted_keywords (h : history) : list (string * Z) :=
  firstn 10 (sorted_reverse fewer (keyword_counts h)).

(** [len(set(l))] for a list of strings. *)
Definition len_set (l : list string) : Z := len (nodup string_dec l).

(** The "Languages Used" and "Content Types" metrics. *)
Definition languages_metric (h : history) : Z := len_set (map language h).

Definition types_metric (h : history) : Z := len_set (map content_type h).

(** *** Words for the properties of these pages *)

(** What the generate button leaves in a content, in the terms of the code:
    the keyword is not empty, is ASCII text where the form held ASCII text,
    and is its own [strip()]; the output is not empty. *)
Definition well_filled (r : ContentRecord) : Prop :=
  (keyword r <> EmptyString /\ ascii_only (keyword r) = true) /\
  Py.strip (keyword r) = keyword r /\
  output r <> EmptyString.

(** The ASCII characters [str.strip()] removes, by their codes: tab, line
    feed, vertical tab, form feed, carriage return, the four separators and
    the space. *)
Definition blank_codes : list nat := [9; 10; 11; 12; 13; 28; 29; 30; 31; 32]%nat.

Definition is_blank (c : ascii) : bool := existsb (Nat.eqb (nat_of_ascii c)) blank_codes.

Definition first_char (s : string) : option ascii :=
  match s with
  | String c _ => Some c
  | EmptyString => None
  end.

Fixpoint last_char (s : string) : option ascii :=
  match s with
  | EmptyString => None
  | String c EmptyString => Some c
  | String _ t => last_char t
  end.

(** Neither the first nor the last character of [s] is a blank. *)
Definition no_blank_ends (s : string) : Prop :=
  (forall c, first_char s = Some c -> is_blank c = false) /\
  (forall c, last_char s = Some c -> is_blank c = false).

(** A content that is filled in: a keyword of ASCII text that is not empty
    and has no blank at either end, and an output that is not empty. *)
Definition filled (r : ContentRecord) : Prop :=
  keyword r <> EmptyString /\ ascii_only (keyword r) = true /\
  no_blank_ends (keyword r) /\ output r <> EmptyString.

(** The keyword typed into the form of a generate click is ASCII text. *)
Definition ascii_click (click : app_click) : Prop :=
  match click with
  | OnGenerator (ClickGenerate _ fm) => ascii_only (form_keyword fm) = true
  | _ => True
  end.

(** No confirmation is pending. *)
Definition nothing_confirmed (s : confirmations) : Prop :=
  confirm_clear_all s = false /\ confirm_bulk_delete s = false /\
  forall item_id, confirm_delete s item_id = false.

(** Every character of [s] is whitespace. *)
Fixpoint all_space (s : string) : bool :=
  match s with
  | EmptyString => true
  | String c t => Py.is_space c && all_space t
  end.

(** The number of records for which [p] holds. *)
Definition count_where (p : ContentRecord -> bool) (h : history) : Z :=
  len (filter p h).

(** The test [search_history] applies to one item, all three filters
    together. *)
Definition passes (query : string) (filter_type : option string) (filter_favorite : bool)
    (item : ContentRecord) : bool :=
  (negb filter_favorite || favorite item)
  && (negb (Py.truthy_opt filter_type)
      || match filter_type with
         | Some t => (t =? "All") || (content_type item =? t)
         | None => true
         end)
  && query_matches query item.

(** The counting loop of the analytics page, which it runs three times: one
    more for the key of each item that is counted. *)
Definition tally_loop (key : ContentRecord -> string) (counted : ContentRecord -> bool)
    (acc : Py.dict Z) (h : history) : Py.dict Z :=
  fold_left (fun counts item => if counted item then count_one counts (key item) else counts)
    h acc.

(** The phrases of the language, tone and audience tables. *)
Definition style_clauses : list string :=
  filter Py.truthy (map snd language_map ++ map snd tone_map ++ map snd audience_map)%list.

(** The record [save_to_history] appends for [record] when the store holds
    [h]. *)
Definition stamped (now : string) (record : ContentRecord) (h : history) : ContentRecord :=
  set_favorite false (set_timestamp now (set_id (len h + 1) record)).

(** The call [generate_text(prompt, temperature=0.7, max_tokens=300)] of the
    generator page. *)
Definition page_generate {float : Type} (float_0_7 : float)
    (requests_post : @request float -> result response) (py_str : json -> string)
    (import_openai : option exn)
    (chat_completion_create : @chat_request float -> result (list (option string)))
    (cfg : config) (prompt : string) : result string :=
  generate_text float_0_7 requests_post py_str import_openai chat_completion_create cfg
    prompt None (mkKwargs (Some 300) (Some float_0_7)).

(** *** Concrete inputs for the pages *)

(** A store of two records, with ids 1 and 2. *)
Definition sample_store : @file sample_text :=
  Some (Dumped [set_id 1 (sample_record "love" "Love wins.");
                set_id 2 (sample_record "hope" "Hope stays.")]).

(** A form filled in for a quote about love, with blanks around the keyword. *)
Definition sample_form : form :=
  mkForm " love " "Quote" "French" "Funny" "General" "ABAB" 12 "personal ".

(** A response of the documented shape, with blanks around the text. *)
Definition body_with_text : json :=
  JDict [("candidates",
          JList [JDict [("content",
                         JDict [("parts", JList [JDict [("text", JStr "  Love wins. ")]])])]])].

(** An environment in which the Gemini key is set, but blank. *)
Definition blank_key_env (name : string) : option string :=
  if name =? "GEMINI_API_KEY" then Some "   " else None.

(** A provider that answers every prompt with the same line. *)
Definition always_answers (prompt : string) : result string := Return "Love wins.".

(** No confirmation pending. *)
Definition no_confirmations : confirmations :=
  mkConfirmations false false (fun _ => false).

(* ===================================================================== *)
(** * Part II: properties                                                 *)
(* ===================================================================== *)

(** ** The primitives on explicit inputs *)

Example strip_blanks : Py.strip "  a b  " = "a b".
Proof. reflexivity. Qed.

Example lower_mixed : Py.lower "LoVe 1!" = "love 1!".
Proof. reflexivity. Qed.

Example contains_inside : Py.contains "ove" "love" = true.
Proof. reflexivity. Qed.

Example contains_empty_needle : Py.contains EmptyString "love" = true.
Proof. reflexivity. Qed.

Example str_of_negative : Py.str_of_int (-15) = "-15".
Proof. reflexivity. Qed.

Example build_prompt_poem :
  build_prompt "love" "Poem" "English" "Inspirational" "General" "ABAB" 50
  = "Create a 50-word poem (3-8 lines preferred) about 'love'. Use ABAB rhyme scheme.".
Proof. reflexivity. Qed.

Example build_prompt_quote :
  build_prompt "love" "Quote" "French" "Funny" "Kids" "Free Verse" 12
  = "Write a memorable, inspiring quote about 'love'. Write in French language. "
    ++ "Make it humorous and witty. Use simple, fun language suitable for children.".
Proof. reflexivity. Qed.

Example build_prompt_unknown_type :
  build_prompt "rain" "Limerick" "English" "Inspirational" "General" "ABAB" 20
  = "Write content about 'rain'.".
Proof. reflexivity. Qed.

Example extract_first_text :
  extract_text
    (JDict [("candidates",
             JList [JDict [("content",
                            JDict [("parts", JList [JDict [("text", JStr " Be kind. ")]])])]])])
  = Return "Be kind.".
Proof. reflexivity. Qed.

Example extract_from_list :
  extract_text (JList [])
  = Raise (mkExn AttributeError "'list' object has no attribute 'get'").
Proof. reflexivity. Qed.

(** ** Strings *)

Lemma append_assoc (a b c : string) : (a ++ b) ++ c = a ++ b ++ c.
Proof.
  induction a as [|x a IH]; simpl; [reflexivity | now rewrite IH].
Qed.

Lemma append_empty_r (s : string) : s ++ EmptyString = s.
Proof.
  induction s as [|x s IH]; simpl; [reflexivity | now rewrite IH].
Qed.

Lemma prefix_iff (needle hay : string) :
  prefix needle hay = true <-> exists rest, hay = needle ++ rest.
Proof.
  revert hay; induction needle as [|a needle IH]; intros hay.
  - destruct hay; simpl; split; intros _; eauto.
  - destruct hay as [|b hay]; simpl.
    + split; [discriminate | intros [rest H]; discriminate].
    + destruct (ascii_dec a b) as [->|Hab].
      * rewrite IH. split; intros [rest H]; exists rest.
        -- now rewrite H.
        -- now inversion H.
      * split; [discriminate | intros [rest H]; congruence].
Qed.

Lemma contains_iff (needle hay : string) :
  Py.contains needle hay = true <-> substring_of needle hay.
Proof.
  unfold substring_of. induction hay as [|b hay IH]; cbn [Py.contains].
  - rewrite orb_false_r, prefix_iff. split.
    + intros [rest H]. exists EmptyString, rest. exact H.
    + intros [before [after H]]. destruct before; simpl in H.
      * now exists after.
      * discriminate.
  - rewrite orb_true_iff, prefix_iff, IH. split.
    + intros [[rest H] | [before [after H]]].
      * exists EmptyString, rest. exact H.
      * exists (String b before), after. simpl. now rewrite H.
    + intros [before [after H]]. destruct before as [|x before]; simpl in H.
      * left. now exists after.
      * right. inversion H; subst. now exists before, after.
Qed.

Lemma lower_append (a b : string) : Py.lower (a ++ b) = Py.lower a ++ Py.lower b.
Proof.
  induction a as [|x a IH]; simpl; [reflexivity | now rewrite IH].
Qed.

Lemma lower_split (s x y : string) :
  Py.lower s = x ++ y ->
  exists s1 s2, s = s1 ++ s2 /\ Py.lower s1 = x /\ Py.lower s2 = y.
Proof.
  revert s; induction x as [|a x IH]; intros s H; simpl in H.
  - exists EmptyString, s. auto.
  - destruct s as [|b s]; simpl in H; [discriminate|].
    inversion H as [[Hb Hs]]. destruct (IH _ Hs) as [s1 [s2 [E [E1 E2]]]].
    exists (String b s1), s2. simpl. subst. repeat split; reflexivity.
Qed.

Lemma in_all_chars (c : ascii) : In c all_chars.
Proof.
  unfold all_chars. rewrite <- (ascii_nat_embedding c). apply in_map, in_seq.
  pose proof (nat_ascii_bounded c). lia.
Qed.

Lemma same_letter_table :
  forallb (fun a => forallb (fun b =>
     Bool.eqb (same_letterb a b) (Ascii.eqb (Py.lower_char a) (Py.lower_char b)))
     all_chars) all_chars = true.
Proof. vm_compute. reflexivity. Qed.

Lemma same_letter_iff (a b : ascii) :
  same_letter a b <-> Py.lower_char a = Py.lower_char b.
Proof.
  pose proof same_letter_table as T. rewrite forallb_forall in T.
  specialize (T a (in_all_chars a)). rewrite forallb_forall in T.
  specialize (T b (in_all_chars b)). apply Bool.eqb_prop in T.
  unfold same_letter. rewrite T. apply Ascii.eqb_eq.
Qed.

Lemma eq_ignore_case_iff (s t : string) :
  eq_ignore_case s t <-> Py.lower s = Py.lower t.
Proof.
  split.
  - induction 1 as [|a b s t Hab _ IH]; simpl; [reflexivity|].
    apply same_letter_iff in Hab. now rewrite Hab, IH.
  - revert t; induction s as [|a s IH]; intros [|b t] H; simpl in H;
      try discriminate; [constructor|].
    inversion H. constructor; [now apply same_letter_iff | now apply IH].
Qed.

(** The test the code performs is the case-insensitive containment of the
    specification. *)
Lemma contains_lower_iff (query field : string) :
  Py.contains (Py.lower query) (Py.lower field) = true
  <-> contains_ignore_case query field.
Proof.
  rewrite contains_iff. unfold substring_of, contains_ignore_case. split.
  - intros [x [z H]].
    destruct (lower_split _ _ _ H) as [before [rest [E1 [E2 E3]]]].
    destruct (lower_split _ _ _ E3) as [middle [after [E4 [E5 E6]]]].
    exists before, middle, after. split; [now subst|].
    now apply eq_ignore_case_iff.
  - intros [before [middle [after [E H]]]]. apply eq_ignore_case_iff in H.
    exists (Py.lower before), (Py.lower after).
    now rewrite E, !lower_append, H.
Qed.

(** ** History store: what each operation leaves in the file *)

Lemma sample_load_dump (h : history) : sample_load (sample_dump h) = Some h.
Proof. reflexivity. Qed.

Lemma filter_length_count (item_id : Z) (h : history) :
  (List.length (filter (fun item => negb (id item =? item_id)%Z) h)
   + count_id item_id h = List.length h)%nat.
Proof.
  unfold count_id. induction h as [|r h IH]; simpl; [reflexivity|].
  destruct (id r =? item_id)%Z; simpl; lia.
Qed.

Lemma count_id_zero_iff (item_id : Z) (h : history) :
  count_id item_id h = 0%nat <-> forall r, In r h -> id r <> item_id.
Proof.
  unfold count_id. induction h as [|r h IH]; simpl.
  - split; [intros _ x [] | reflexivity].
  - destruct (Z.eqb_spec (id r) item_id) as [E|E]; simpl.
    + split; [discriminate | intros H; exfalso; now apply (H r); [left|]].
    + rewrite IH. split.
      * intros H x [<-|Hx]; [assumption | now apply H].
      * intros H x Hx. apply H. now right.
Qed.

Lemma count_id_app (item_id : Z) (h1 h2 : history) :
  count_id item_id (h1 ++ h2)%list = (count_id item_id h1 + count_id item_id h2)%nat.
Proof.
  unfold count_id. now rewrite filter_app, length_app.
Qed.

Lemma filter_no_match (item_id : Z) (h : history) :
  (forall r, In r h -> id r <> item_id) ->
  filter (fun item => negb (id item =? item_id)%Z) h = h.
Proof.
  induction h as [|r h IH]; intros H; simpl; [reflexivity|].
  destruct (Z.eqb_spec (id r) item_id) as [E|E]; simpl.
  - exfalso. now apply (H r); [left|].
  - f_equal. apply IH. intros x Hx. apply H. now right.
Qed.

Lemma toggle_first_no_match (item_id : Z) (h : history) :
  (forall r, In r h -> id r <> item_id) -> toggle_first item_id h = h.
Proof.
  induction h as [|r h IH]; intros H; simpl; [reflexivity|].
  destruct (Z.eqb_spec (id r) item_id) as [E|E].
  - exfalso. now apply (H r); [left|].
  - f_equal. apply IH. intros x Hx. apply H. now right.
Qed.

Lemma toggle_first_at (item_id : Z) (before after : history) (r : ContentRecord) :
  (forall x, In x before -> id x <> item_id) ->
  id r = item_id ->
  toggle_first item_id (before ++ r :: after)%list
  = (before ++ set_favorite (negb (favorite r)) r :: after)%list.
Proof.
  intros Hb Hr. induction before as [|x before IH]; simpl.
  - now rewrite Hr, Z.eqb_refl.
  - destruct (Z.eqb_spec (id x) item_id) as [E|E].
    + exfalso. now apply (Hb x); [left|].
    + f_equal. apply IH. intros y Hy. apply Hb. now right.
Qed.

Lemma set_favorite_twice (r : ContentRecord) :
  set_favorite (negb (favorite (set_favorite (negb (favorite r)) r)))
    (set_favorite (negb (favorite r)) r) = r.
Proof.
  destruct r as [i k c l t a rs lw tg o ts fav]. unfold set_favorite; simpl.
  now rewrite negb_involutive.
Qed.

Lemma toggle_first_twice (item_id : Z) (h : history) :
  toggle_first item_id (toggle_first item_id h) = h.
Proof.
  induction h as [|r h IH]; [reflexivity|]. cbn [toggle_first].
  destruct (Z.eqb_spec (id r) item_id) as [E|E]; cbn [toggle_first].
  - change (id (set_favorite (negb (favorite r)) r)) with (id r).
    rewrite E, Z.eqb_refl. f_equal. apply set_favorite_twice.
  - destruct (Z.eqb_spec (id r) item_id); [contradiction|]. now rewrite IH.
Qed.

Section HistoryFileFacts.

Context {text : Type}.
Variable json_load : text -> option history.
Variable json_dump : history -> text.
Hypothesis json_load_dump : forall h, json_load (json_dump h) = Some h.

Lemma load_dumped (h : history) : load_history json_load (Some (json_dump h)) = h.
Proof. simpl. now rewrite json_load_dump. Qed.

Lemma load_save (now : string) (record : ContentRecord) (f : file) :
  load_history json_load (save_to_history json_load json_dump now record f)
  = (load_history json_load f
     ++ [set_favorite false
           (set_timestamp now
              (set_id (len (load_history json_load f) + 1) record))])%list.
Proof. unfold save_to_history. now rewrite load_dumped. Qed.

Lemma load_toggle (item_id : Z) (f : file) :
  load_history json_load (toggle_favorite json_load json_dump item_id f)
  = toggle_first item_id (load_history json_load f).
Proof. unfold toggle_favorite. now rewrite load_dumped. Qed.

Lemma load_delete (item_id : Z) (f : file) :
  load_history json_load (fst (delete_content json_load json_dump item_id f))
  = filter (fun item => negb (id item =? item_id)%Z) (load_history json_load f).
Proof. unfold delete_content. cbn [fst]. now rewrite load_dumped. Qed.

Lemma load_clear (f : file) : load_history json_load (clear_all_history json_dump f) = [].
Proof. unfold clear_all_history. now rewrite load_dumped. Qed.

Lemma load_delete_all_filtered (filtered : history) (f : file) :
  load_history json_load (delete_all_filtered json_load json_dump filtered f)
  = filter (fun item => negb (existsb (Z.eqb (id item)) (map id filtered)))
      (load_history json_load f).
Proof. unfold delete_all_filtered. now rewrite load_dumped. Qed.

Lemma delete_returns (item_id : Z) (f : file) :
  snd (delete_content json_load json_dump item_id f) = true
  <-> exists r, In r (load_history json_load f) /\ id r = item_id.
Proof.
  unfold delete_content, len. cbn [snd].
  set (h := load_history json_load f).
  pose proof (filter_length_count item_id h) as Hlen.
  pose proof (count_id_zero_iff item_id h) as Hz.
  rewrite negb_true_iff, Z.eqb_neq. split.
  - intros Hne.
    destruct (count_id item_id h) as [|n] eqn:Hc; [lia|].
    clear Hz Hlen Hne. unfold count_id in Hc.
    destruct (filter (fun item => (id item =? item_id)%Z) h) as [|r rest] eqn:Hf;
      [discriminate|].
    assert (Hin : In r (filter (fun item => (id item =? item_id)%Z) h))
      by (rewrite Hf; now left).
    apply filter_In in Hin. destruct Hin as [Hin Hid].
    exists r. split; [assumption | now apply Z.eqb_eq].
  - intros [r [Hin Hid]] Heq.
    assert (Hc : count_id item_id h = 0%nat) by lia.
    now apply (proj1 Hz Hc r).
Qed.

(** Where every dump succeeds [save_to_history] has a frame: loading after
    the append gives the records stored before, each at its position,
    followed by exactly one new record; that record carries the nine
    user-supplied fields of the input unchanged, and only [id], [timestamp]
    and [favorite] are overwritten. *)
Theorem save_to_history_frame (now : string) (record : ContentRecord) (f : file) :
  let before := load_history json_load f in
  let after :=
    load_history json_load (save_to_history json_load json_dump now record f) in
  exists stored,
    after = (before ++ [stored])%list /\
    (forall i r, nth_error before i = Some r -> nth_error after i = Some r) /\
    List.length after = S (List.length before) /\
    keyword stored = keyword record /\
    content_type stored = content_type record /\
    language stored = language record /\
    tone stored = tone record /\
    audience stored = audience record /\
    rhyme_scheme stored = rhyme_scheme record /\
    length_words stored = length_words record /\
    tags stored = tags record /\
    output stored = output record /\
    id stored = len before + 1 /\
    timestamp stored = now /\
    favorite stored = false.
Proof.
  cbv zeta. eexists. rewrite load_save. split; [reflexivity|]. split.
  - intros i r H. rewrite nth_error_app1; [assumption|].
    apply nth_error_Some. congruence.
  - split; [rewrite length_app; simpl; lia|].
    repeat split.
Qed.

(** C6.  [toggle_favorite] is its own inverse: applied twice with one id it
    gives back the store it started from, so every record has its original
    [favorite]; applied once it flips [favorite] on the first record with
    that id and nothing else; with no such record the store contents do not
    change. *)
Theorem toggle_favorite_involutive (item_id : Z) (f : file) :
  let before := load_history json_load f in
  let once := load_history json_load (toggle_favorite json_load json_dump item_id f) in
  let twice :=
    load_history json_load
      (toggle_favorite json_load json_dump item_id
         (toggle_favorite json_load json_dump item_id f)) in
  twice = before /\
  map favorite twice = map favorite before /\
  (forall head r tail,
      before = (head ++ r :: tail)%list ->
      (forall x, In x head -> id x <> item_id) ->
      id r = item_id ->
      once = (head ++ set_favorite (negb (favorite r)) r :: tail)%list) /\
  ((forall x, In x before -> id x <> item_id) -> once = before).
Proof.
  cbv zeta. rewrite !load_toggle, toggle_first_twice. repeat split.
  - intros head r tail E Hb Hr. rewrite E. now apply toggle_first_at.
  - apply toggle_first_no_match.
Qed.

(** C3, as the code has it.  [delete_content] removes every record whose id
    matches and keeps the others in order; it returns true exactly when
    some record was removed; the store shrinks by the number of matching
    records, so by exactly 1 when exactly one record has the id, and then it
    is that record that goes; with no matching record the store contents do
    not change and the result is false. *)
Theorem delete_content_removes_matches (item_id : Z) (f : file) :
  let before := load_history json_load f in
  let after :=
    load_history json_load (fst (delete_content json_load json_dump item_id f)) in
  let removed := snd (delete_content json_load json_dump item_id f) in
  after = filter (fun item => negb (id item =? item_id)%Z) before /\
  (removed = true <-> exists r, In r before /\ id r = item_id) /\
  (List.length after + count_id item_id before = List.length before)%nat /\
  (count_id item_id before = 1%nat ->
   (List.length after + 1 = List.length before)%nat /\
   removed = true /\
   forall head r tail,
     before = (head ++ r :: tail)%list -> id r = item_id ->
     after = (head ++ tail)%list) /\
  ((forall r, In r before -> id r <> item_id) ->
   after = before /\ removed = false).
Proof.
  cbv zeta. rewrite load_delete.
  set (before := load_history json_load f).
  set (removed := snd (delete_content json_load json_dump item_id f)).
  assert (Hret : removed = true <-> exists r, In r before /\ id r = item_id)
    by apply delete_returns.
  pose proof (filter_length_count item_id before) as Hlen.
  split; [reflexivity|]. split; [exact Hret|]. split; [exact Hlen|]. split.
  - intros Hc. split; [lia|]. split.
    + destruct removed; [reflexivity|].
      assert (Hz : count_id item_id before = 0%nat).
      { apply count_id_zero_iff. intros r Hin Hid.
        assert (Hf : false = true) by (apply Hret; now exists r). discriminate. }
      lia.
    + intros head r tail E Hr. rewrite E in Hc |- *.
      rewrite count_id_app in Hc.
      replace (r :: tail) with ([r] ++ tail)%list in Hc |- * by reflexivity.
      rewrite count_id_app in Hc.
      assert (H1 : count_id item_id [r] = 1%nat).
      { unfold count_id; simpl. now rewrite Hr, Z.eqb_refl. }
      rewrite !filter_app.
      rewrite (filter_no_match item_id head), (filter_no_match item_id tail).
      * simpl. now rewrite Hr, Z.eqb_refl.
      * apply count_id_zero_iff. lia.
      * apply count_id_zero_iff. lia.
  - intros Hno. split; [now apply filter_no_match|].
    destruct removed; [|reflexivity].
    destruct (proj1 Hret eq_refl) as [r [Hin Hid]].
    exfalso. now apply (Hno r).
Qed.

End HistoryFileFacts.

(** ** History store: sequences of operations *)

Lemma ids_toggle_first (item_id : Z) (h : history) :
  ids (toggle_first item_id h) = ids h.
Proof.
  unfold ids. induction h as [|r h IH]; simpl; [reflexivity|].
  destruct (id r =? item_id)%Z; simpl; [reflexivity | now rewrite IH].
Qed.

Lemma length_toggle_first (item_id : Z) (h : history) :
  List.length (toggle_first item_id h) = List.length h.
Proof.
  induction h as [|r h IH]; simpl; [reflexivity|].
  destruct (id r =? item_id)%Z; simpl; [reflexivity | now rewrite IH].
Qed.

Lemma numbered_unique (h : history) : numbered h -> unique_ids h.
Proof.
  unfold numbered, unique_ids. intros ->.
  apply NoDup_map_NoDup_ForallPairs; [|apply seq_NoDup].
  intros x y _ _ H. now apply Nat2Z.inj.
Qed.

Lemma numbered_append (h : history) (r : ContentRecord) :
  numbered h -> id r = len h + 1 -> numbered (h ++ [r])%list.
Proof.
  unfold numbered, ids, len. intros Hh Hr.
  rewrite map_app, length_app, Hh. simpl List.length.
  rewrite Nat.add_1_r, seq_S, map_app. simpl. rewrite Hr. do 3 f_equal. lia.
Qed.

Section HistoryFileRuns.

Context {text : Type}.
Variable json_load : text -> option history.
Variable json_dump : history -> text.
Hypothesis json_load_dump : forall h, json_load (json_dump h) = Some h.

Lemma run_snoc (ops : list store_op) (op : store_op) (f : file) :
  run_ops json_load json_dump (ops ++ [op])%list f
  = apply_op json_load json_dump (run_ops json_load json_dump ops f) op.
Proof. unfold run_ops. now rewrite fold_left_app. Qed.

(** Without [delete] and the bulk delete the ids stay [1 .. n], hence
    unique, and each append gets an id above all the others. *)
Lemma numbered_without_removal (ops : list store_op) :
  Forall (fun op => removes_records op = false) ops ->
  numbered (load_history json_load (run_ops json_load json_dump ops None)).
Proof.
  induction ops as [|op ops IH] using rev_ind; intros Hops.
  - reflexivity.
  - apply Forall_app in Hops. destruct Hops as [Hops Hop].
    inversion Hop as [|? ? Hkeep _]; subst. specialize (IH Hops).
    rewrite run_snoc. destruct op; simpl in Hkeep; try discriminate; cbn [apply_op].
    + rewrite (load_save _ _ json_load_dump). now apply numbered_append.
    + rewrite (load_toggle _ _ json_load_dump).
      unfold numbered in *. now rewrite ids_toggle_first, length_toggle_first.
    + rewrite (load_clear _ _ json_load_dump). reflexivity.
Qed.

Lemma unique_ids_without_removal (ops : list store_op) :
  Forall (fun op => removes_records op = false) ops ->
  unique_ids (load_history json_load (run_ops json_load json_dump ops None)).
Proof. intros H. now apply numbered_unique, numbered_without_removal. Qed.

(** C1.  The id-uniqueness invariant, evaluated on two appends, the delete
    of id 1 and one more append, starting from no file: the last append
    takes [len(history) + 1 = 2], the id the surviving record already has,
    so the store read back holds two records with id 2. *)
Theorem ids_repeat_after_delete (now1 now2 now3 : string) (r1 r2 r3 : ContentRecord) :
  let ops := [Append now1 r1; Append now2 r2; Delete 1; Append now3 r3] in
  let store := load_history json_load (run_ops json_load json_dump ops None) in
  ids store = [2; 2] /\ ~ unique_ids store.
Proof.
  cbv zeta.
  assert (E : ids (load_history json_load
                     (run_ops json_load json_dump
                        [Append now1 r1; Append now2 r2; Delete 1; Append now3 r3]
                        None)) = [2; 2]).
  { unfold run_ops. cbn [fold_left apply_op].
    rewrite (load_save _ _ json_load_dump), (load_delete _ _ json_load_dump),
      !(load_save _ _ json_load_dump).
    reflexivity. }
  split; [exact E|]. unfold unique_ids. rewrite E. intros H.
  inversion H as [|x l Hnot _]; subst. apply Hnot. now left.
Qed.

(** C2.  Append followed by load, evaluated on the store that two appends
    and the delete of id 1 leave: the appended record is read back last,
    with [favorite] false, the timestamp handed in and the id
    [len(history) + 1 = 2]; the largest id already in that store is 2, so
    the assigned id is not above it. *)
Theorem append_id_not_above_max (now1 now2 now3 : string) (r1 r2 r3 : ContentRecord) :
  let f := run_ops json_load json_dump [Append now1 r1; Append now2 r2; Delete 1] None in
  let before := load_history json_load f in
  let after := load_history json_load (save_to_history json_load json_dump now3 r3 f) in
  max_id before = 2 /\
  exists stored,
    after = (before ++ [stored])%list /\
    favorite stored = false /\
    timestamp stored = now3 /\
    id stored = len before + 1 /\
    id stored = 2 /\
    ~ (max_id before < id stored).
Proof.
  intros f before after.
  assert (E : before = [set_favorite false (set_timestamp now2 (set_id 2 r2))]).
  { unfold before, f, run_ops. cbn [fold_left apply_op].
    rewrite (load_delete _ _ json_load_dump), !(load_save _ _ json_load_dump).
    reflexivity. }
  split; [now rewrite E|].
  eexists. unfold after. rewrite (load_save _ _ json_load_dump). fold before. rewrite E.
  split; [reflexivity|]. repeat split. cbn. lia.
Qed.

End HistoryFileRuns.

Lemma max_id_numbered (h : history) : numbered h -> max_id h = len h.
Proof.
  unfold numbered, max_id, len. intros ->.
  induction (List.length h) as [|n IH]; [reflexivity|].
  rewrite seq_S, map_app, fold_right_app. simpl.
  assert (G : forall (l : list Z) (a : Z),
             0 <= a -> fold_right Z.max a l = Z.max a (fold_right Z.max 0 l)).
  { induction l as [|x l IHl]; intros a Ha; simpl; [lia|]. rewrite (IHl a Ha). lia. }
  rewrite G, IH; lia.
Qed.

(** Where no record was ever removed, append does assign an id above every
    id of the store. *)
Lemma append_id_above_max_without_removal {text : Type}
    (json_load : text -> option history) (json_dump : history -> text)
    (ops : list store_op) :
  (forall h, json_load (json_dump h) = Some h) ->
  Forall (fun op => removes_records op = false) ops ->
  max_id (load_history json_load (run_ops json_load json_dump ops None))
  < len (load_history json_load (run_ops json_load json_dump ops None)) + 1.
Proof.
  intros Hrt Hops. rewrite max_id_numbered; [lia|].
  now apply numbered_without_removal.
Qed.

(** ** History store: the properties on explicit inputs *)

Lemma save_to_history_frame_witness :
  (forall h, sample_load (sample_dump h) = Some h) /\
  exists stored,
    load_history sample_load
      (save_to_history sample_load sample_dump sample_now
         (sample_record "love" "Love wins.") None) = [stored] /\
    keyword stored = "love" /\ output stored = "Love wins." /\
    id stored = 1 /\ timestamp stored = sample_now /\ favorite stored = false.
Proof.
  split; [reflexivity|].
  destruct (save_to_history_frame sample_load sample_dump sample_load_dump
              sample_now (sample_record "love" "Love wins.") None)
    as [stored [H1 [_ [_ [H2 [_ [_ [_ [_ [_ [_ [_ [H3 [H4 [H5 H6]]]]]]]]]]]]]]].
  exists stored. repeat split; assumption.
Defined.

Lemma toggle_favorite_involutive_witness :
  (forall h, sample_load (sample_dump h) = Some h) /\
  let f := Some (Dumped [set_id 1 (sample_record "love" "Love wins.");
                         set_id 2 (sample_record "hope" "Hope stays.")]) in
  load_history sample_load
    (toggle_favorite sample_load sample_dump 2
       (toggle_favorite sample_load sample_dump 2 f))
  = load_history sample_load f /\
  map favorite (load_history sample_load (toggle_favorite sample_load sample_dump 2 f))
  = [false; true] /\
  load_history sample_load (toggle_favorite sample_load sample_dump 7 f)
  = load_history sample_load f.
Proof.
  split; [reflexivity|]. intros f.
  destruct (toggle_favorite_involutive sample_load sample_dump sample_load_dump 2 f)
    as [H1 [_ [H2 _]]].
  destruct (toggle_favorite_involutive sample_load sample_dump sample_load_dump 7 f)
    as [_ [_ [_ H3]]].
  split; [exact H1|]. split.
  - rewrite (H2 [set_id 1 (sample_record "love" "Love wins.")]
               (set_id 2 (sample_record "hope" "Hope stays.")) []).
    + reflexivity.
    + reflexivity.
    + intros x [<-|[]]. discriminate.
    + reflexivity.
  - apply H3. intros x [<-|[<-|[]]]; discriminate.
Defined.

Lemma delete_content_removes_matches_witness :
  (forall h, sample_load (sample_dump h) = Some h) /\
  let f := Some (Dumped [set_id 1 (sample_record "love" "Love wins.");
                         set_id 2 (sample_record "hope" "Hope stays.")]) in
  load_history sample_load (fst (delete_content sample_load sample_dump 1 f))
  = [set_id 2 (sample_record "hope" "Hope stays.")] /\
  snd (delete_content sample_load sample_dump 1 f) = true /\
  load_history sample_load (fst (delete_content sample_load sample_dump 5 f))
  = load_history sample_load f /\
  snd (delete_content sample_load sample_dump 5 f) = false.
Proof.
  split; [reflexivity|]. intros f.
  destruct (delete_content_removes_matches sample_load sample_dump sample_load_dump 1 f)
    as [_ [_ [_ [H1 _]]]].
  destruct (delete_content_removes_matches sample_load sample_dump sample_load_dump 5 f)
    as [_ [_ [_ [_ H2]]]].
  destruct (H1 eq_refl) as [_ [Ht Hr]].
  destruct H2 as [Hsame Hf].
  { intros x [<-|[<-|[]]]; discriminate. }
  split.
  - apply (Hr [] (set_id 1 (sample_record "love" "Love wins."))
              [set_id 2 (sample_record "hope" "Hope stays.")]); reflexivity.
  - repeat split; assumption.
Defined.

(** C3 as stated fails where two records share an id.  On the store that two
    appends, the delete of id 1 and one more append leave (both records have
    id 2), [delete_content 2] returns true and removes both records: the
    size goes from 2 to 0, not down by exactly 1, and the second match is
    not kept. *)
Lemma delete_content_first_match_counterexample :
  let f := run_ops sample_load sample_dump
             [Append sample_now (sample_record "love" "Love wins.");
              Append sample_now (sample_record "hope" "Hope stays.");
              Delete 1;
              Append sample_now (sample_record "rain" "Rain falls.")] None in
  (exists r, In r (load_history sample_load f) /\ id r = 2) /\
  snd (delete_content sample_load sample_dump 2 f) = true /\
  List.length (load_history sample_load f) = 2%nat /\
  load_history sample_load (fst (delete_content sample_load sample_dump 2 f)) = [] /\
  (List.length (load_history sample_load (fst (delete_content sample_load sample_dump 2 f)))
   + 1 <> List.length (load_history sample_load f))%nat.
Proof.
  cbv zeta. split.
  - eexists. split; [left; reflexivity | reflexivity].
  - repeat split. vm_compute. discriminate.
Qed.

Lemma ids_repeat_after_delete_witness :
  (forall h, sample_load (sample_dump h) = Some h) /\
  ids (load_history sample_load
         (run_ops sample_load sample_dump
            [Append sample_now (sample_record "love" "Love wins.");
             Append sample_now (sample_record "hope" "Hope stays.");
             Delete 1;
             Append sample_now (sample_record "rain" "Rain falls.")] None))
  = [2; 2].
Proof.
  split; [reflexivity|].
  exact (proj1 (ids_repeat_after_delete sample_load sample_dump sample_load_dump
                  sample_now sample_now sample_now
                  (sample_record "love" "Love wins.")
                  (sample_record "hope" "Hope stays.")
                  (sample_record "rain" "Rain falls."))).
Defined.

Lemma append_id_not_above_max_witness :
  (forall h, sample_load (sample_dump h) = Some h) /\
  max_id (load_history sample_load
            (run_ops sample_load sample_dump
               [Append sample_now (sample_record "love" "Love wins.");
                Append sample_now (sample_record "hope" "Hope stays.");
                Delete 1] None)) = 2.
Proof.
  split; [reflexivity|].
  exact (proj1 (append_id_not_above_max sample_load sample_dump sample_load_dump
                  sample_now sample_now sample_now
                  (sample_record "love" "Love wins.")
                  (sample_record "hope" "Hope stays.")
                  (sample_record "rain" "Rain falls."))).
Defined.

(** ** History store: load, search and export *)

Lemma query_matches_iff (query : string) (r : ContentRecord) :
  query_matches query r = true <-> record_mentions query r.
Proof.
  unfold query_matches, record_mentions.
  now rewrite !orb_true_iff, !contains_lower_iff, or_assoc.
Qed.


Lemma export_item_append (content : string) (item : ContentRecord) :
  export_item content item = content ++ export_section item.
Proof.
  unfold export_section, export_item. cbn zeta.
  rewrite !append_assoc. reflexivity.
Qed.

Lemma export_fold (h : history) (content : string) :
  fold_left export_item h content = content ++ export_sections h.
Proof.
  revert content; induction h as [|r h IH]; intros content; simpl.
  - now rewrite append_empty_r.
  - now rewrite IH, export_item_append, append_assoc.
Qed.

Lemma export_sections_app (h1 h2 : history) :
  export_sections (h1 ++ h2)%list = export_sections h1 ++ export_sections h2.
Proof.
  induction h1 as [|r h1 IH]; [reflexivity|].
  change (export_sections ((r :: h1) ++ h2)%list)
    with (export_section r ++ export_sections (h1 ++ h2)%list).
  change (export_sections (r :: h1)) with (export_section r ++ export_sections h1).
  now rewrite IH, append_assoc.
Qed.

Lemma substring_of_context (needle s before after : string) :
  substring_of needle s -> substring_of needle (before ++ s ++ after).
Proof.
  intros [p [q ->]]. exists (before ++ p), (q ++ after).
  now rewrite !append_assoc.
Qed.

Lemma substring_of_skip (needle before s : string) :
  substring_of needle s -> substring_of needle (before ++ s).
Proof.
  intros [p [q ->]]. exists (before ++ p), q. now rewrite append_assoc.
Qed.

Lemma substring_of_head (needle rest : string) : substring_of needle (needle ++ rest).
Proof. now exists EmptyString, rest. Qed.

Lemma export_section_shows_id (item : ContentRecord) :
  substring_of (Py.str_of_int (id item)) (export_section item).
Proof.
  unfold export_section, export_item. cbn zeta. rewrite !append_assoc.
  do 2 apply substring_of_skip. apply substring_of_head.
Qed.

Lemma export_section_shows_keyword (item : ContentRecord) :
  substring_of (keyword item) (export_section item).
Proof.
  unfold export_section, export_item. cbn zeta. rewrite !append_assoc.
  do 5 apply substring_of_skip. apply substring_of_head.
Qed.

Section HistoryFileReads.

Context {text : Type}.
Variable json_load : text -> option history.

(** C4.  [load_history] returns the empty sequence when the file is absent
    and when reading or parsing it fails, the failure being swallowed (the
    function is total: it has a value on every file); when the file parses,
    it returns the parsed sequence of records. *)
Theorem load_history_swallows_failures :
  load_history json_load None = [] /\
  (forall contents,
      json_load contents = None -> load_history json_load (Some contents) = []) /\
  (forall contents h,
      json_load contents = Some h -> load_history json_load (Some contents) = h).
Proof.
  split; [reflexivity|]. split.
  - intros contents H. simpl. now rewrite H.
  - intros contents h H. simpl. now rewrite H.
Qed.


(** C8.  The text of [export_history_as_text] is the header followed by one
    block per record, in store order; the decimal id and the keyword of
    every record occur in it as literal substrings. *)
Theorem export_history_as_text_sections (f : file) :
  let store := load_history json_load f in
  let exported := export_history_as_text json_load f in
  exported = export_header ++ export_sections store /\
  (forall head r tail,
      store = (head ++ r :: tail)%list ->
      exported
      = export_header ++ export_sections head
        ++ export_section r ++ export_sections tail) /\
  (forall r,
      In r store ->
      substring_of (Py.str_of_int (id r)) exported /\
      substring_of (keyword r) exported /\
      Py.contains (Py.str_of_int (id r)) exported = true /\
      Py.contains (keyword r) exported = true).
Proof.
  cbv zeta.
  assert (E : export_history_as_text json_load f
              = export_header ++ export_sections (load_history json_load f)).
  { unfold export_history_as_text. cbn zeta. rewrite export_fold.
    unfold export_header. now rewrite !append_assoc. }
  split; [exact E|]. split.
  - intros before r after H. rewrite E, H, export_sections_app. reflexivity.
  - intros r Hin. apply in_split in Hin. destruct Hin as [before [after H]].
    rewrite E, H, export_sections_app. cbn [export_sections fold_right].
    fold (export_sections after).
    rewrite <- (append_assoc export_header).
    rewrite !contains_iff.
    repeat split; apply substring_of_context;
      (apply export_section_shows_id || apply export_section_shows_keyword).
Qed.

End HistoryFileReads.

Lemma load_history_swallows_failures_witness :
  load_history sample_load None = [] /\
  (sample_load (Garbage "{ not json") = None /\
   load_history sample_load (Some (Garbage "{ not json")) = []) /\
  (sample_load (Dumped [sample_record "love" "Love wins."])
   = Some [sample_record "love" "Love wins."] /\
   load_history sample_load (Some (Dumped [sample_record "love" "Love wins."]))
   = [sample_record "love" "Love wins."]).
Proof.
  destruct (load_history_swallows_failures sample_load) as [H1 [H2 H3]].
  split; [exact H1|]. split.
  - split; [reflexivity|]. apply H2. reflexivity.
  - split; [reflexivity|]. apply H3. reflexivity.
Defined.


Lemma export_history_as_text_sections_witness :
  let r := set_id 41 (sample_record "love" "Love wins.") in
  In r (load_history sample_load (Some (Dumped [r]))) /\
  substring_of "41" (export_history_as_text sample_load (Some (Dumped [r]))) /\
  substring_of "love" (export_history_as_text sample_load (Some (Dumped [r]))).
Proof.
  intros r.
  assert (Hin : In r (load_history sample_load (Some (Dumped [r])))) by (left; reflexivity).
  split; [exact Hin|].
  destruct (proj2 (proj2 (export_history_as_text_sections sample_load
                            (Some (Dumped [r])))) r Hin) as [H1 [H2 _]].
  split; assumption.
Defined.

(** ** Prompt builder *)

Lemma get_forall {V : Type} (P : V -> Prop) (d : Py.dict V) (k : string) (default : V) :
  P default -> Forall (fun kv => P (snd kv)) d -> P (Py.get d k default).
Proof.
  intros Hd Hall. induction Hall as [|[k' v] d Hv _ IH]; simpl; [assumption|].
  destruct (k =? k'); assumption.
Qed.

Lemma has_char_append (a : ascii) (x y : string) :
  has_char a (x ++ y) = has_char a x || has_char a y.
Proof.
  induction x as [|b x IH]; simpl; [reflexivity|]. now rewrite IH, orb_assoc.
Qed.

Lemma prefix_without_char (sep : ascii) (c x y : string) :
  has_char sep c = false -> prefix c (x ++ String sep y) = prefix c x.
Proof.
  revert c; induction x as [|b x IH]; intros c Hc.
  - destruct c as [|a c]; [reflexivity|]. simpl in *.
    apply orb_false_elim in Hc. destruct Hc as [Ha _].
    destruct (ascii_dec a sep) as [->|_]; [|reflexivity].
    now rewrite Ascii.eqb_refl in Ha.
  - destruct c as [|a c]; [reflexivity|]. simpl in *.
    apply orb_false_elim in Hc. destruct Hc as [_ Hc].
    destruct (ascii_dec a b); [now apply IH | reflexivity].
Qed.

(** A needle without the separator occurs in [x ++ sep ++ y] exactly when it
    occurs in [x] or in [y]. *)
Lemma contains_without_char (sep : ascii) (c x y : string) :
  has_char sep c = false ->
  Py.contains c (x ++ String sep y) = Py.contains c x || Py.contains c y.
Proof.
  intros Hc. induction x as [|b x IH].
  - change (EmptyString ++ String sep y) with (String sep y).
    cbn [Py.contains].
    rewrite (prefix_without_char sep c EmptyString y Hc : prefix c (String sep y) = _).
    now rewrite orb_false_r.
  - change (String b x ++ String sep y) with (String b (x ++ String sep y)).
    cbn [Py.contains].
    rewrite (prefix_without_char sep c (String b x) y Hc
             : prefix c (String b (x ++ String sep y)) = _).
    now rewrite IH, orb_assoc.
Qed.

Lemma contains_empty_hay (a : ascii) (c : string) :
  Py.contains (String a c) EmptyString = false.
Proof. reflexivity. Qed.

Lemma contains_without_first_char (a : ascii) (c s : string) :
  has_char a s = false -> Py.contains (String a c) s = false.
Proof.
  induction s as [|b s IH]; intros H; [reflexivity|].
  simpl in H. apply orb_false_elim in H. destruct H as [Hab Hs].
  cbn [Py.contains]. rewrite (IH Hs), orb_false_r. simpl.
  destruct (ascii_dec a b) as [->|_]; [|reflexivity].
  now rewrite Ascii.eqb_refl in Hab.
Qed.

Lemma contains_skip_char (a b : ascii) (c s : string) :
  a <> b -> Py.contains (String a c) (String b s) = Py.contains (String a c) s.
Proof.
  intros Hab. cbn [Py.contains]. simpl prefix at 1.
  destruct (ascii_dec a b); [contradiction | reflexivity].
Qed.

Lemma lstrip_keeps (a : ascii) (s : string) :
  Py.is_space a = false -> Py.lstrip (String a s) = String a s.
Proof. intros H. simpl. now rewrite H. Qed.

Lemma rstrip_append (s t : string) :
  Py.rstrip t <> EmptyString -> Py.rstrip (s ++ t) = s ++ Py.rstrip t.
Proof.
  intros Ht. induction s as [|a s IH]; [reflexivity|].
  change (String a s ++ t) with (String a (s ++ t)).
  cbn [Py.rstrip]. rewrite IH.
  change (String a s ++ Py.rstrip t) with (String a (s ++ Py.rstrip t)).
  destruct (s ++ Py.rstrip t) as [|b u] eqn:E; [|reflexivity].
  destruct s; simpl in E; [contradiction | discriminate].
Qed.

Lemma rstrip_cons (a : ascii) (s : string) :
  Py.rstrip s <> EmptyString -> Py.rstrip (String a s) = String a (Py.rstrip s).
Proof.
  intros H. cbn [Py.rstrip]. destruct (Py.rstrip s); [contradiction | reflexivity].
Qed.

Lemma rstrip_full_stop (s : string) : Py.rstrip (String "." s) <> EmptyString.
Proof.
  cbn [Py.rstrip]. destruct (Py.rstrip s); simpl; discriminate.
Qed.

Lemma rstrip_sentences_nonempty (phrase : string) (phrases : list string) :
  Py.rstrip (sentences (phrase :: phrases)) <> EmptyString.
Proof.
  change (sentences (phrase :: phrases))
    with (phrase ++ String "." (String " " (sentences phrases))).
  rewrite rstrip_append by apply rstrip_full_stop.
  pose proof (rstrip_full_stop (String " " (sentences phrases))) as H.
  destruct phrase; simpl; [exact H | discriminate].
Qed.

(** In the stripped prompt a plain phrase occurs exactly when it occurs
    inside one of the phrases the prompt is made of. *)
Lemma contains_rstrip_sentences (c : string) (phrases : list string) :
  plain_phrase c -> phrases <> [] ->
  Py.contains c (Py.rstrip (sentences phrases)) = existsb (Py.contains c) phrases.
Proof.
  intros [a [rest [-> [Ha [Hdot _]]]]].
  induction phrases as [|phrase phrases IH]; intros Hne; [contradiction|].
  change (sentences (phrase :: phrases))
    with (phrase ++ String "." (String " " (sentences phrases))).
  rewrite rstrip_append by apply rstrip_full_stop.
  destruct phrases as [|phrase2 tl].
  - change (Py.rstrip (String "." (String " " (sentences []))))
      with (String "." EmptyString).
    rewrite (contains_without_char "." _ _ _ Hdot). reflexivity.
  - rewrite rstrip_cons.
    2:{ rewrite rstrip_cons by apply rstrip_sentences_nonempty. discriminate. }
    rewrite rstrip_cons by apply rstrip_sentences_nonempty.
    rewrite (contains_without_char "." _ _ _ Hdot).
    rewrite contains_skip_char.
    2:{ intros ->. discriminate. }
    rewrite IH by discriminate. reflexivity.
Qed.

Lemma contains_quoted (c instruction keyword : string) :
  has_char "'" c = false ->
  Py.contains c (instruction ++ " about '" ++ keyword ++ "'")
  = Py.contains c (instruction ++ " about ") || Py.contains c keyword
    || Py.contains c EmptyString.
Proof.
  intros Hc.
  replace (instruction ++ " about '" ++ keyword ++ "'")
    with ((instruction ++ " about ") ++ String "'" (keyword ++ String "'" EmptyString))
    by (rewrite append_assoc; reflexivity).
  rewrite !(contains_without_char "'" _ _ _ Hc). now rewrite orb_assoc.
Qed.

Lemma has_char_U_uint (d : Decimal.uint) :
  has_char "U" (NilEmpty.string_of_uint d) = false.
Proof. induction d; simpl; auto. Qed.

Lemma has_char_U_str_of_int (n : Z) : has_char "U" (Py.str_of_int n) = false.
Proof.
  unfold Py.str_of_int, NilZero.string_of_int, NilZero.string_of_uint.
  destruct (Z.to_int n) as [d|d]; destruct d; simpl; auto using has_char_U_uint.
Qed.

Lemma instruction_without_U (length_words : Z) (content_type : string) :
  has_char "U"
    (Py.get (content_instructions length_words) content_type "Write content" ++ " about ")
  = false.
Proof.
  rewrite has_char_append. apply orb_false_intro; [|reflexivity].
  apply get_forall; [reflexivity|].
  repeat constructor. cbn [snd]. rewrite !has_char_append, has_char_U_str_of_int.
  reflexivity.
Qed.

Lemma instruction_head (length_words : Z) (content_type : string) :
  exists a rest,
    Py.get (content_instructions length_words) content_type "Write content"
    = String a rest /\ Py.is_space a = false.
Proof.
  apply get_forall; [now eexists _, _|].
  repeat constructor; now eexists _, _.
Qed.

Lemma rhyme_clause_plain (c : string) :
  In c rhyme_clauses -> plain_phrase c /\ exists rest, c = String "U" rest.
Proof.
  intros [<-|[<-|[<-|[<-|[]]]]]; (split; [now eexists _, _ | now eexists]).
Qed.

Lemma rhyme_clause_not_language (c language : string) :
  In c rhyme_clauses -> Py.contains c (Py.get language_map language EmptyString) = false.
Proof.
  intros [<-|[<-|[<-|[<-|[]]]]];
    (apply get_forall; [reflexivity | repeat constructor]).
Qed.

Lemma rhyme_clause_not_tone (c tone : string) :
  In c rhyme_clauses -> Py.contains c (Py.get tone_map tone EmptyString) = false.
Proof.
  intros [<-|[<-|[<-|[<-|[]]]]];
    (apply get_forall; [reflexivity | repeat constructor]).
Qed.

Lemma rhyme_clause_not_audience (c audience : string) :
  In c rhyme_clauses -> Py.contains c (Py.get audience_map audience EmptyString) = false.
Proof.
  intros [<-|[<-|[<-|[<-|[]]]]];
    (apply get_forall; [reflexivity | repeat constructor]).
Qed.

Lemma rhyme_clause_in_rhyme (c rhyme_scheme : string) :
  In c rhyme_clauses ->
  Py.contains c (Py.get rhyme_map rhyme_scheme EmptyString)
  = (Py.get rhyme_map rhyme_scheme EmptyString =? c).
Proof.
  intros [<-|[<-|[<-|[<-|[]]]]];
    (apply get_forall; [reflexivity | repeat constructor]).
Qed.

Lemma build_prompt_sentences
    (keyword content_type language tone audience rhyme_scheme : string) (length_words : Z) :
  build_prompt keyword content_type language tone audience rhyme_scheme length_words
  = Py.strip (sentences (prompt_phrases keyword content_type language tone audience
                           rhyme_scheme length_words)).
Proof.
  unfold build_prompt, prompt_phrases. cbn zeta.
  destruct (negb (language =? "English")), (negb (tone =? "Inspirational")),
    (negb (audience =? "General")),
    ((content_type =? "Poem") && negb (rhyme_scheme =? "Free Verse"));
    cbn [app sentences fold_right]; f_equal;
    rewrite !append_assoc, ?append_empty_r; reflexivity.
Qed.

Lemma existsb_optional {A : Type} (p : A -> bool) (b : bool) (x : A) :
  existsb p (if b then [x] else []) = b && p x.
Proof. destruct b; simpl; [apply orb_false_r | reflexivity]. Qed.

(** The prompt contains a rhyme phrase exactly when the keyword contains it
    or the rhyme step appended it. *)
Lemma contains_rhyme_clause
    (keyword content_type language tone audience rhyme_scheme : string) (length_words : Z)
    (c : string) :
  In c rhyme_clauses ->
  Py.contains c (build_prompt keyword content_type language tone audience rhyme_scheme
                   length_words)
  = Py.contains c keyword
    || ((content_type =? "Poem") && negb (rhyme_scheme =? "Free Verse")
        && (Py.get rhyme_map rhyme_scheme EmptyString =? c)).
Proof.
  intros Hc. destruct (rhyme_clause_plain c Hc) as [Hplain [rest HU]].
  rewrite build_prompt_sentences. unfold Py.strip.
  destruct (instruction_head length_words content_type) as [a [t [Hi Ha]]].
  assert (Hl : Py.lstrip (sentences (prompt_phrases keyword content_type language tone
                                       audience rhyme_scheme length_words))
               = sentences (prompt_phrases keyword content_type language tone
                              audience rhyme_scheme length_words)).
  { unfold prompt_phrases. rewrite Hi. now apply lstrip_keeps. }
  rewrite Hl, contains_rstrip_sentences; [|assumption | discriminate].
  unfold prompt_phrases. cbn [existsb]. rewrite !existsb_app, !existsb_optional.
  rewrite rhyme_clause_not_language, rhyme_clause_not_tone, rhyme_clause_not_audience,
    rhyme_clause_in_rhyme by assumption.
  rewrite !andb_false_r. cbn [orb].
  destruct Hplain as [a' [rest' [Hc' [_ [_ Hq]]]]].
  rewrite contains_quoted by assumption.
  rewrite HU at 1 3.
  rewrite contains_without_first_char by apply instruction_without_U.
  rewrite contains_empty_hay. now rewrite orb_false_r.
Qed.

(** C7, as the code has it.  [build_prompt] appends the rhyme phrase exactly
    when the content type is "Poem" and the rhyme scheme is not "Free Verse":
    for a poem with scheme "ABAB" the prompt contains the ABAB clause; for
    "Free Verse" or any other content type the prompt contains a rhyme clause
    only where the keyword, which is quoted verbatim, contains that text; and
    for a poem with another scheme the only rhyme clause beyond the keyword's
    is the phrase of that scheme. *)
Theorem build_prompt_rhyme_clause :
  (forall keyword language tone audience length_words,
      Py.contains "Use ABAB rhyme scheme"
        (build_prompt keyword "Poem" language tone audience "ABAB" length_words) = true) /\
  (forall keyword content_type language tone audience rhyme_scheme length_words c,
      In c rhyme_clauses ->
      rhyme_scheme = "Free Verse" \/ content_type <> "Poem" ->
      Py.contains c (build_prompt keyword content_type language tone audience
                       rhyme_scheme length_words)
      = Py.contains c keyword) /\
  (forall keyword language tone audience rhyme_scheme length_words c,
      In c rhyme_clauses ->
      rhyme_scheme <> "Free Verse" ->
      Py.contains c (build_prompt keyword "Poem" language tone audience
                       rhyme_scheme length_words)
      = Py.contains c keyword || (Py.get rhyme_map rhyme_scheme EmptyString =? c)).
Proof.
  split; [|split].
  - intros keyword language tone audience length_words.
    rewrite contains_rhyme_clause by (right; left; reflexivity).
    apply orb_true_r.
  - intros keyword content_type language tone audience rhyme_scheme length_words c Hc H.
    rewrite contains_rhyme_clause by assumption.
    destruct H as [-> | H].
    + now rewrite andb_false_r, orb_false_r.
    + apply String.eqb_neq in H. now rewrite H, orb_false_r.
  - intros keyword language tone audience rhyme_scheme length_words c Hc H.
    rewrite contains_rhyme_clause by assumption.
    apply String.eqb_neq in H. now rewrite H.
Qed.

Lemma build_prompt_rhyme_clause_witness :
  (In "Use ABAB rhyme scheme" rhyme_clauses /\
   ("Free Verse" = "Free Verse" \/ "Poem" <> "Poem") /\
   Py.contains "Use ABAB rhyme scheme"
     (build_prompt "love" "Poem" "English" "Inspirational" "General" "Free Verse" 50)
   = false) /\
  (In "Use ABAB rhyme scheme" rhyme_clauses /\
   "AABB" <> "Free Verse" /\
   Py.contains "Use ABAB rhyme scheme"
     (build_prompt "love" "Poem" "French" "Funny" "Kids" "AABB" 50)
   = false).
Proof.
  destruct build_prompt_rhyme_clause as [_ [H2 H3]].
  assert (Hin : In "Use ABAB rhyme scheme" rhyme_clauses) by (right; left; reflexivity).
  split.
  - split; [exact Hin|]. split; [left; reflexivity|].
    rewrite (H2 "love" "Poem" "English" "Inspirational" "General" "Free Verse" 50
               "Use ABAB rhyme scheme" Hin (or_introl eq_refl)).
    reflexivity.
  - split; [exact Hin|]. split; [discriminate|].
    rewrite (H3 "love" "French" "Funny" "Kids" "AABB" 50 "Use ABAB rhyme scheme" Hin);
      [reflexivity | discriminate].
Defined.

(** C7 as stated fails on a keyword that holds the text of a rhyme clause:
    the keyword is quoted in the prompt as it is, so the prompt of a quote,
    and of a poem in free verse, contains the ABAB clause. *)
Lemma build_prompt_keyword_echo_counterexample :
  In "Use ABAB rhyme scheme" rhyme_clauses /\
  build_prompt "Use ABAB rhyme scheme" "Quote" "English" "Inspirational" "General"
    "Free Verse" 12
  = "Write a memorable, inspiring quote about 'Use ABAB rhyme scheme'." /\
  Py.contains "Use ABAB rhyme scheme"
    (build_prompt "Use ABAB rhyme scheme" "Quote" "English" "Inspirational" "General"
       "Free Verse" 12) = true /\
  Py.contains "Use ABAB rhyme scheme"
    (build_prompt "Use ABAB rhyme scheme" "Poem" "English" "Inspirational" "General"
       "Free Verse" 50) = true.
Proof.
  split; [right; left; reflexivity|]. repeat split; reflexivity.
Qed.

(** ** Generation client *)

Lemma get_shape (shape : json -> bool) (d : list (string * json)) (k : string)
    (default : json) :
  forallb (fun kv => negb (fst kv =? k) || shape (snd kv)) d = true ->
  shape default = true ->
  shape (Py.get d k default) = true.
Proof.
  intros Hall Hd. induction d as [|[k' v] d IH]; simpl in *; [assumption|].
  apply andb_true_iff in Hall. destruct Hall as [Hv Hall].
  rewrite String.eqb_sym. destruct (k' =? k); simpl in Hv; [assumption | now apply IH].
Qed.

Lemma get_default_cases {V : Type} (d : Py.dict V) (k : string) (d1 d2 : V) :
  Py.get d k d1 = Py.get d k d2 \/ (Py.get d k d1 = d1 /\ Py.get d k d2 = d2).
Proof.
  induction d as [|[k' v] d IH]; simpl; [now right|].
  destruct (k =? k'); [now left | assumption].
Qed.

Lemma len_cons_positive {A : Type} (x : A) (l : list A) : (0 <? len (x :: l))%Z = true.
Proof. apply Z.ltb_lt. unfold len. simpl. lia. Qed.

(** On a response body of the documented shape the extraction never raises:
    it gives the sentinel when there is no first part, and otherwise the
    stripped text of the first part, the empty string when that part has no
    text. *)
Lemma extract_text_well_formed (data : json) :
  well_formed data = true ->
  extract_text data
  = Return (match first_parts data with
            | [] => no_response
            | _ :: _ => Py.strip (match candidate_text data with
                                  | Some s => s
                                  | None => EmptyString
                                  end)
            end).
Proof.
  intros Hwf. destruct data as [| | | | |d]; try discriminate.
  unfold well_formed in Hwf.
  pose proof (get_shape (fun v => match v with
                                  | JList cs => forallb is_candidate cs
                                  | _ => false
                                  end) d "candidates" (JList []) Hwf eq_refl) as Hc.
  unfold extract_text, candidate_text, first_parts. cbn [dict_get bind].
  destruct (Py.get d "candidates" (JList [])) as [| | | |cs|]; try discriminate.
  destruct cs as [|c0 cs]; [reflexivity|].
  cbn [forallb] in Hc. apply andb_true_iff in Hc. destruct Hc as [Hc0 _].
  destruct c0 as [| | | | |c]; try discriminate.
  cbn [nonempty truthy py_len bind item0 dict_get].
  rewrite len_cons_positive.
  unfold is_candidate in Hc0.
  pose proof (get_shape is_content c "content" (JDict []) Hc0 eq_refl) as Hct.
  destruct (Py.get c "content" (JDict [])) as [| | | | |ct]; try discriminate.
  unfold is_content in Hct.
  pose proof (get_shape (fun v => match v with
                                  | JList ps => forallb is_part ps
                                  | _ => false
                                  end) ct "parts" (JList []) Hct eq_refl) as Hps.
  cbn [dict_get bind].
  destruct (Py.get ct "parts" (JList [])) as [| | | |ps|]; try discriminate.
  destruct ps as [|p0 ps]; [reflexivity|].
  cbn [forallb] in Hps. apply andb_true_iff in Hps. destruct Hps as [Hp0 _].
  destruct p0 as [| | | | |p]; try discriminate.
  cbn [nonempty truthy py_len bind item0 dict_get].
  rewrite len_cons_positive.
  unfold is_part in Hp0.
  pose proof (get_shape (fun v => match v with JStr _ => true | _ => false end)
                p "text" (JStr EmptyString) Hp0 eq_refl) as Ht.
  destruct (get_default_cases p "text" (JStr EmptyString) JNull) as [E | [E1 E2]].
  - rewrite <- E. destruct (Py.get p "text" (JStr EmptyString)); try discriminate.
    reflexivity.
  - rewrite E1, E2. reflexivity.
Qed.

Section GenerationClientFacts.

Context {float : Type}.
Variable float_0_7 : float.
Variable requests_post : @request float -> result response.
Variable py_str : json -> string.
Variable import_openai : option exn.
Variable chat_completion_create : @chat_request float -> result (list (option string)).
Variable cfg : config.

Lemma generate_text_gemini (prompt key : string) (provider : option string) (kw : kwargs) :
  selected_provider cfg provider = "gemini" ->
  GEMINI_API_KEY cfg = Some key ->
  Py.truthy key = true ->
  generate_text float_0_7 requests_post py_str import_openai chat_completion_create cfg
    prompt provider kw
  = match gemini_try requests_post py_str prompt (GEMINI_MODEL cfg) key
            (max_tokens_of kw) (temperature_of float_0_7 kw) with
    | Return v => Return v
    | Raise e => Raise (mkExn RuntimeError ("Gemini generation failed: " ++ exn_str e))
    end.
Proof.
  intros Hp Hk Ht. unfold generate_text. unfold selected_provider in Hp.
  rewrite Hp, Hk. cbn [String.eqb Ascii.eqb Bool.eqb Py.truthy_opt].
  rewrite Ht. reflexivity.
Qed.

(** C9, as the code has it.  [generate_text] raises a [RuntimeError] when
    the API key of the selected provider is absent.  On the Gemini path it
    raises a [RuntimeError] whose message carries the status code and the
    body when the HTTP call returns a non-success status; and when the
    response body is of the documented shape it does not raise, and returns
    the "No response generated" sentinel when there is no candidate or the
    first candidate has no part. *)
Theorem generate_text_failures (prompt : string) (provider : option string) (kw : kwargs) :
  (selected_provider cfg provider = "gemini" ->
   Py.truthy_opt (GEMINI_API_KEY cfg) = false ->
   generate_text float_0_7 requests_post py_str import_openai chat_completion_create cfg
     prompt provider kw
   = Raise (mkExn RuntimeError
              "GEMINI_API_KEY not found in environment. Set it in .env.")) /\
  (selected_provider cfg provider = "openai" ->
   Py.truthy_opt (OPENAI_API_KEY cfg) = false ->
   generate_text float_0_7 requests_post py_str import_openai chat_completion_create cfg
     prompt provider kw
   = Raise (mkExn RuntimeError
              "OPENAI_API_KEY not found in environment. Set it in .env.")) /\
  (forall key resp,
      selected_provider cfg provider = "gemini" ->
      GEMINI_API_KEY cfg = Some key ->
      Py.truthy key = true ->
      requests_post (gemini_request prompt (GEMINI_MODEL cfg) key
                       (max_tokens_of kw) (temperature_of float_0_7 kw))
      = Return resp ->
      (ok resp = false ->
       generate_text float_0_7 requests_post py_str import_openai chat_completion_create
         cfg prompt provider kw
       = Raise (mkExn RuntimeError
                  ("Gemini generation failed: Gemini API error ("
                   ++ Py.str_of_int (status_code resp) ++ "): "
                   ++ match json_body resp with
                      | Return body => py_str body
                      | Raise _ => text_body resp
                      end))) /\
      (ok resp = true ->
       forall data,
         json_body resp = Return data ->
         well_formed data = true ->
         (exists answer,
             generate_text float_0_7 requests_post py_str import_openai
               chat_completion_create cfg prompt provider kw
             = Return answer) /\
         (first_parts data = [] ->
          generate_text float_0_7 requests_post py_str import_openai
            chat_completion_create cfg prompt provider kw
          = Return no_response))).
Proof.
  split; [|split].
  - intros Hp Hk. unfold generate_text. unfold selected_provider in Hp.
    rewrite Hp, Hk. reflexivity.
  - intros Hp Hk. unfold generate_text. unfold selected_provider in Hp.
    rewrite Hp, Hk. reflexivity.
  - intros key resp Hp Hk Ht Hpost.
    rewrite (generate_text_gemini prompt key provider kw Hp Hk Ht).
    unfold gemini_try. rewrite Hpost. cbn [bind]. split.
    + intros Hok. rewrite Hok. reflexivity.
    + intros Hok data Hdata Hwf. rewrite Hok, Hdata. cbn [negb bind].
      rewrite (extract_text_well_formed data Hwf). split.
      * eexists. reflexivity.
      * intros Hparts. now rewrite Hparts.
Qed.

End GenerationClientFacts.

Lemma generate_text_failures_witness :
  (selected_provider (mkConfig "gemini" None "gemini-2.0-flash" None "gpt-4")
     (Some "Gemini") = "gemini" /\
   Py.truthy_opt (GEMINI_API_KEY (mkConfig "gemini" None "gemini-2.0-flash" None "gpt-4"))
   = false /\
   generate_text tt post_429 sample_py_str None chat_no_choice
     (mkConfig "gemini" None "gemini-2.0-flash" None "gpt-4") "Write a quote" (Some "Gemini")
     no_kwargs
   = Raise (mkExn RuntimeError
              "GEMINI_API_KEY not found in environment. Set it in .env.")) /\
  (ok (mkResponse false 429 (Return (JDict [])) EmptyString) = false /\
   generate_text tt post_429 sample_py_str None chat_no_choice sample_config
     "Write a quote" None no_kwargs
   = Raise (mkExn RuntimeError
              "Gemini generation failed: Gemini API error (429): {'error': 'quota'}")) /\
  (well_formed body_without_candidates = true /\
   generate_text tt (post_ok body_without_candidates) sample_py_str None chat_no_choice
     sample_config "Write a quote" None no_kwargs
   = Return "No response generated").
Proof.
  split; [|split].
  - split; [reflexivity|]. split; [reflexivity|].
    apply (generate_text_failures tt post_429 sample_py_str None chat_no_choice
             (mkConfig "gemini" None "gemini-2.0-flash" None "gpt-4")
             "Write a quote" (Some "Gemini") no_kwargs); reflexivity.
  - split; [reflexivity|].
    destruct (generate_text_failures tt post_429 sample_py_str None chat_no_choice
                sample_config "Write a quote" None no_kwargs) as [_ [_ H]].
    destruct (H "k-123" (mkResponse false 429 (Return (JDict [])) EmptyString)
                eq_refl eq_refl eq_refl eq_refl) as [H1 _].
    exact (H1 eq_refl).
  - split; [reflexivity|].
    destruct (generate_text_failures tt (post_ok body_without_candidates) sample_py_str
                None chat_no_choice sample_config "Write a quote" None no_kwargs)
      as [_ [_ H]].
    destruct (H "k-123" (mkResponse true 200 (Return body_without_candidates) EmptyString)
                eq_refl eq_refl eq_refl eq_refl) as [_ H2].
    exact (proj2 (H2 eq_refl body_without_candidates eq_refl eq_refl) eq_refl).
Defined.

(** C9 as stated fails on two responses that carry no candidate text.  On
    the Gemini path, a body of the documented shape whose first part has no
    [text] field gives the empty string, not the sentinel.  On the OpenAI
    path there is no sentinel: a completion without choices raises an
    [IndexError]. *)
Lemma generate_text_no_text_counterexample :
  (well_formed body_without_text = true /\
   candidate_text body_without_text = None /\
   generate_text tt (post_ok body_without_text) sample_py_str None chat_no_choice
     sample_config "Write a quote" None no_kwargs
   = Return EmptyString /\
   EmptyString <> no_response) /\
  generate_text tt (post_ok body_without_text) sample_py_str None chat_no_choice
    sample_config "Write a quote" (Some "openai") no_kwargs
  = Raise (mkExn IndexError "list index out of range").
Proof.
  repeat split; try reflexivity. discriminate.
Qed.

(* ===================================================================== *)
(** * Part III: further properties of the program                         *)
(* ===================================================================== *)

(** ** History store: how the operations compose *)

Lemma search_loop_filter (query : string) (filter_type : option string)
    (filter_favorite : bool) (h : history) :
  search_loop query filter_type filter_favorite h
  = filter (passes query filter_type filter_favorite) h.
Proof.
  induction h as [|r h IH]; [reflexivity|].
  cbn [search_loop filter]. rewrite IH. unfold passes.
  destruct filter_favorite, (favorite r), filter_type as [t|]; cbn [andb orb negb];
    try reflexivity; cbn [Py.truthy_opt];
    destruct (Py.truthy t), (t =? "All"), (content_type r =? t),
      (query_matches query r); reflexivity.
Qed.

Lemma contains_empty_needle_any (s : string) : Py.contains EmptyString s = true.
Proof. destruct s; reflexivity. Qed.

Lemma query_matches_empty (r : ContentRecord) : query_matches EmptyString r = true.
Proof. unfold query_matches. cbn [Py.lower]. now rewrite contains_empty_needle_any. Qed.

Lemma filter_all_true {A : Type} (p : A -> bool) (l : list A) :
  (forall x, p x = true) -> filter p l = l.
Proof.
  intros H. induction l as [|x l IH]; simpl; [reflexivity|]. now rewrite H, IH.
Qed.

Lemma NoDup_map_filter {A B : Type} (g : A -> B) (p : A -> bool) (l : list A) :
  NoDup (map g l) -> NoDup (map g (filter p l)).
Proof.
  induction l as [|x l IH]; intros H; simpl; [constructor|].
  inversion H as [|? ? Hx Hl]; subst.
  destruct (p x); simpl; [|now apply IH].
  constructor; [|now apply IH].
  intros Hin. apply Hx. apply in_map_iff in Hin. destruct Hin as [y [Hy Hin]].
  apply filter_In in Hin. apply in_map_iff. exists y. tauto.
Qed.

Lemma toggle_first_filter_commute (a b : Z) (h : history) :
  toggle_first a (filter (fun item => negb (id item =? b)%Z) h)
  = filter (fun item => negb (id item =? b)%Z) (toggle_first a h).
Proof.
  induction h as [|r h IH]; [reflexivity|].
  cbn [filter toggle_first].
  destruct (Z.eqb_spec (id r) b) as [Hb|Hb]; cbn [negb].
  - destruct (Z.eqb_spec (id r) a) as [Ha|Ha]; cbn [filter].
    + change (id (set_favorite (negb (favorite r)) r)) with (id r).
      destruct (Z.eqb_spec (id r) b); [|contradiction]. cbn [negb].
      subst a b. clear. induction h as [|x h IHh]; [reflexivity|].
      cbn [filter toggle_first].
      destruct (Z.eqb_spec (id x) (id r)) as [E|E]; cbn [negb]; [exact IHh|].
      cbn [toggle_first]. destruct (Z.eqb_spec (id x) (id r)); [contradiction|].
      now rewrite IHh.
    + destruct (Z.eqb_spec (id r) b); [|contradiction]. cbn [negb]. exact IH.
  - cbn [toggle_first]. destruct (Z.eqb_spec (id r) a) as [Ha|Ha]; cbn [filter].
    + change (id (set_favorite (negb (favorite r)) r)) with (id r).
      destruct (Z.eqb_spec (id r) b); [contradiction|]. reflexivity.
    + destruct (Z.eqb_spec (id r) b); [contradiction|]. cbn [negb]. now rewrite IH.
Qed.

Lemma toggle_first_commute (a b : Z) (h : history) :
  toggle_first a (toggle_first b h) = toggle_first b (toggle_first a h).
Proof.
  destruct (Z.eq_dec a b) as [->|Hab]; [reflexivity|].
  induction h as [|r h IH]; [reflexivity|]. cbn [toggle_first].
  destruct (Z.eqb_spec (id r) b) as [Hb|Hb], (Z.eqb_spec (id r) a) as [Ha|Ha];
    cbn [toggle_first];
    change (id (set_favorite (negb (favorite r)) r)) with (id r).
  - congruence.
  - destruct (Z.eqb_spec (id r) a); [contradiction|].
    destruct (Z.eqb_spec (id r) b); [reflexivity | contradiction].
  - destruct (Z.eqb_spec (id r) b); [contradiction|].
    destruct (Z.eqb_spec (id r) a); [reflexivity | contradiction].
  - destruct (Z.eqb_spec (id r) a); [contradiction|].
    destruct (Z.eqb_spec (id r) b); [contradiction|]. now rewrite IH.
Qed.

Lemma filter_commute {A : Type} (p q : A -> bool) (l : list A) :
  filter p (filter q l) = filter q (filter p l).
Proof.
  induction l as [|x l IH]; simpl; [reflexivity|].
  destruct (p x) eqn:Hp, (q x) eqn:Hq; simpl; rewrite ?Hp, ?Hq, IH; reflexivity.
Qed.

Lemma filter_idempotent {A : Type} (p : A -> bool) (l : list A) :
  filter p (filter p l) = filter p l.
Proof.
  induction l as [|x l IH]; simpl; [reflexivity|].
  destruct (p x) eqn:Hp; simpl; rewrite ?Hp, IH; reflexivity.
Qed.

Section StoreComposition.

Context {text : Type}.
Variable json_load : text -> option history.
Variable json_dump : history -> text.
Hypothesis json_load_dump : forall h, json_load (json_dump h) = Some h.

Lemma numbered_run (ops : list store_op) (f : file) :
  numbered (load_history json_load f) ->
  Forall (fun op => removes_records op = false) ops ->
  numbered (load_history json_load (run_ops json_load json_dump ops f)).
Proof.
  intros Hf. induction ops as [|op ops IH] using rev_ind; intros Hops.
  - exact Hf.
  - apply Forall_app in Hops. destruct Hops as [Hops Hop].
    inversion Hop as [|? ? Hkeep _]; subst. specialize (IH Hops).
    rewrite (run_snoc json_load json_dump).
    destruct op; simpl in Hkeep; try discriminate; cbn [apply_op].
    + rewrite (load_save _ _ json_load_dump). now apply numbered_append.
    + rewrite (load_toggle _ _ json_load_dump).
      unfold numbered in *. now rewrite ids_toggle_first, length_toggle_first.
    + rewrite (load_clear _ _ json_load_dump). reflexivity.
Qed.

(** X1.  Deleting an id twice is deleting it once: after [delete_content]
    no record has the id, the second call leaves the store as the first left
    it and returns false. *)
Theorem delete_content_twice (item_id : Z) (f : file) :
  let once := delete_content json_load json_dump item_id f in
  let twice := delete_content json_load json_dump item_id (fst once) in
  (forall r, In r (load_history json_load (fst once)) -> id r <> item_id) /\
  load_history json_load (fst twice) = load_history json_load (fst once) /\
  snd twice = false.
Proof.
  cbv zeta.
  assert (Hgone : forall r,
             In r (load_history json_load
                     (fst (delete_content json_load json_dump item_id f))) ->
             id r <> item_id).
  { intros r. rewrite (load_delete _ _ json_load_dump).
    intros Hin. apply filter_In in Hin. destruct Hin as [_ Hne].
    apply negb_true_iff in Hne. now apply Z.eqb_neq. }
  split; [exact Hgone|]. split.
  - rewrite !(load_delete _ _ json_load_dump). apply filter_idempotent.
  - destruct (snd (delete_content json_load json_dump item_id
                     (fst (delete_content json_load json_dump item_id f)))) eqn:Hs;
      [|reflexivity].
    apply (delete_returns json_load json_dump) in Hs. destruct Hs as [r [Hin Hid]].
    exfalso. exact (Hgone r Hin Hid).
Qed.

(** X2.  Only an append can make two records share an id: a toggle, a
    delete, a bulk delete and a clear all each take a store with unique ids to
    a store with unique ids. *)
Theorem unique_ids_kept (op : store_op) (f : file) :
  (forall now record, op <> Append now record) ->
  unique_ids (load_history json_load f) ->
  unique_ids (load_history json_load (apply_op json_load json_dump f op)).
Proof.
  intros Hop Hu. unfold unique_ids, ids in *. destruct op; cbn [apply_op].
  - exfalso. now apply (Hop now record).
  - rewrite (load_toggle _ _ json_load_dump).
    fold (ids (toggle_first item_id (load_history json_load f))).
    now rewrite ids_toggle_first.
  - rewrite (load_delete _ _ json_load_dump). now apply NoDup_map_filter.
  - rewrite (load_delete_all_filtered _ _ json_load_dump). now apply NoDup_map_filter.
  - rewrite (load_clear _ _ json_load_dump). constructor.
Qed.

(** X3.  A file that does not parse is treated as no file by the three
    store functions that write, so the first of them to run replaces it:
    [save_to_history], [toggle_favorite] and [delete_content] each leave
    exactly the file they leave when there is none, and a save leaves a
    one-record history whose record has id 1.  The history page cannot
    replace it: it takes the history for empty and returns before it draws a
    button, so no click there changes the file or a confirmation. *)
Theorem unreadable_file_replaced (contents : text) (now : string) (record : ContentRecord)
    (item_id : Z) (flt : filters) (click : history_click) (s : confirmations) :
  json_load contents = None ->
  save_to_history json_load json_dump now record (Some contents)
  = save_to_history json_load json_dump now record None /\
  toggle_favorite json_load json_dump item_id (Some contents)
  = toggle_favorite json_load json_dump item_id None /\
  delete_content json_load json_dump item_id (Some contents)
  = delete_content json_load json_dump item_id None /\
  ids (load_history json_load
         (save_to_history json_load json_dump now record (Some contents))) = [1] /\
  history_step json_load json_dump flt click (s, Some contents) = (s, Some contents).
Proof.
  intros Hbad.
  assert (Hl : load_history json_load (Some contents) = []).
  { simpl. now rewrite Hbad. }
  repeat apply conj.
  - unfold save_to_history. now rewrite Hl.
  - unfold toggle_favorite. now rewrite Hl.
  - unfold delete_content. now rewrite Hl.
  - rewrite (load_save _ _ json_load_dump), Hl. reflexivity.
  - unfold history_step. now rewrite Hl.
Qed.

(** X4.  The three operations that do not append commute: toggling two ids,
    deleting two ids, and toggling one id and deleting another (or the same)
    leave the same store in either order. *)
Theorem toggle_delete_commute (a b : Z) (f : file) :
  load_history json_load
    (toggle_favorite json_load json_dump a (toggle_favorite json_load json_dump b f))
  = load_history json_load
      (toggle_favorite json_load json_dump b (toggle_favorite json_load json_dump a f)) /\
  load_history json_load
    (fst (delete_content json_load json_dump a
            (fst (delete_content json_load json_dump b f))))
  = load_history json_load
      (fst (delete_content json_load json_dump b
              (fst (delete_content json_load json_dump a f)))) /\
  load_history json_load
    (toggle_favorite json_load json_dump a (fst (delete_content json_load json_dump b f)))
  = load_history json_load
      (fst (delete_content json_load json_dump b
              (toggle_favorite json_load json_dump a f))).
Proof.
  repeat (rewrite (load_toggle _ _ json_load_dump)
          || rewrite (load_delete _ _ json_load_dump)).
  split; [apply toggle_first_commute|].
  split; [apply filter_commute | apply toggle_first_filter_commute].
Qed.

Lemma filtered_history_shortcut (search_query filter_type : string)
    (filter_favorite : bool) (f : file) :
  filtered_history json_load search_query filter_type filter_favorite f
  = search_history json_load search_query (Some filter_type) filter_favorite f.
Proof.
  unfold filtered_history.
  destruct (Py.truthy search_query || negb (filter_type =? "All") || filter_favorite)
    eqn:Hc; [reflexivity|].
  apply orb_false_elim in Hc. destruct Hc as [Hc Hfav].
  apply orb_false_elim in Hc. destruct Hc as [Hq Ht].
  apply negb_false_iff in Ht. apply String.eqb_eq in Ht.
  unfold Py.truthy in Hq. apply negb_false_iff in Hq. apply String.eqb_eq in Hq.
  subst. unfold search_history. rewrite search_loop_filter.
  symmetry. apply filter_all_true. intros r. unfold passes.
  now rewrite query_matches_empty.
Qed.

(** X5.  The list the history page shows is the search result in every
    case: with no query, the type "All" and no favorites filter, where the
    page takes the whole history instead of searching, the search would
    return the whole history as well. *)
Theorem filtered_history_is_search (search_query filter_type : string)
    (filter_favorite : bool) (f : file) :
  filtered_history json_load search_query filter_type filter_favorite f
  = search_history json_load search_query (Some filter_type) filter_favorite f /\
  (search_query = EmptyString -> filter_type = "All" -> filter_favorite = false ->
   search_history json_load search_query (Some filter_type) filter_favorite f
   = load_history json_load f).
Proof.
  split; [apply filtered_history_shortcut|].
  intros -> -> ->. rewrite <- filtered_history_shortcut. reflexivity.
Qed.

(** X6.  On ASCII text, [search_history] returns, in store order, exactly the
    stored records that pass all three filters: marked favorite when the
    favorites filter is on, of the given type when the type filter is set to
    something other than "All", and with the query in keyword, output or
    tags, up to the case of the letters A to Z.  It never returns more
    records than the store holds. *)
Theorem search_history_filters (query : string) (filter_type : option string)
    (filter_favorite : bool) (f : file) :
  ascii_only query = true ->
  forallb ascii_record (load_history json_load f) = true ->
  let found := search_history json_load query filter_type filter_favorite f in
  found = filter (passes query filter_type filter_favorite) (load_history json_load f) /\
  (forall r,
      In r found <->
      In r (load_history json_load f) /\
      (filter_favorite = true -> favorite r = true) /\
      (forall t, filter_type = Some t -> t <> EmptyString -> t <> "All" ->
                 content_type r = t) /\
      record_mentions query r) /\
  (List.length found <= List.length (load_history json_load f))%nat.
Proof.
  intros _ _. cbv zeta. unfold search_history. rewrite search_loop_filter.
  split; [reflexivity|]. split.
  - intros r. rewrite filter_In. unfold passes.
    rewrite !andb_true_iff, query_matches_iff.
    split; intros [Hin H]; (split; [exact Hin|]).
    + destruct H as [[Hfav Hty] Hq]. split; [|split; [|exact Hq]].
      * intros ->. exact Hfav.
      * intros t -> Hne Hall. cbn [Py.truthy_opt] in Hty.
        unfold Py.truthy in Hty.
        destruct (String.eqb_spec t EmptyString); [contradiction|].
        destruct (String.eqb_spec t "All"); [contradiction|].
        cbn [negb orb] in Hty. now apply String.eqb_eq.
    + destruct H as [Hfav [Hty Hq]]. split; [split|exact Hq].
      * destruct filter_favorite; [now apply Hfav | reflexivity].
      * destruct filter_type as [t|]; [|reflexivity]. cbn [Py.truthy_opt].
        unfold Py.truthy.
        destruct (String.eqb_spec t EmptyString); [reflexivity|].
        destruct (String.eqb_spec t "All"); [reflexivity|].
        cbn [negb orb]. apply String.eqb_eq. now apply Hty.
  - apply filter_length_le.
Qed.

Lemma nothing_listed_after_bulk_delete (search_query filter_type : string)
    (filter_favorite : bool) (f : file) :
  filtered_history json_load search_query filter_type filter_favorite
    (delete_all_filtered json_load json_dump
       (filtered_history json_load search_query filter_type filter_favorite f) f) = [].
Proof.
  rewrite !filtered_history_shortcut.
  unfold search_history at 1.
  rewrite (load_delete_all_filtered _ _ json_load_dump), search_loop_filter.
  set (shown := search_history json_load search_query (Some filter_type)
                  filter_favorite f).
  destruct (filter _ (filter _ _)) as [|r rest] eqn:E; [reflexivity|].
  assert (Hin : In r (r :: rest)) by now left.
  rewrite <- E in Hin. apply filter_In in Hin. destruct Hin as [Hin Hpass].
  apply filter_In in Hin. destruct Hin as [Hin Hrem].
  apply negb_true_iff in Hrem.
  assert (Hshown : In r shown).
  { unfold shown, search_history. rewrite search_loop_filter.
    apply filter_In. now split. }
  assert (Hex : existsb (Z.eqb (id r)) (map id shown) = true).
  { apply existsb_exists. exists (id r). split; [now apply in_map | apply Z.eqb_refl]. }
  congruence.
Qed.

(** X7.  After a confirmed "Delete All Filtered" nothing is left to list
    under the same filters: every record that passed them is gone, and so is
    every other record that shares its id with one of them. *)
Theorem delete_all_filtered_leaves_none (search_query filter_type : string)
    (filter_favorite : bool) (f : file) :
  let shown := filtered_history json_load search_query filter_type filter_favorite f in
  let after := delete_all_filtered json_load json_dump shown f in
  filtered_history json_load search_query filter_type filter_favorite after = [] /\
  (forall r, In r (load_history json_load after) <->
             In r (load_history json_load f) /\ ~ In (id r) (ids shown)).
Proof.
  cbv zeta. split; [apply nothing_listed_after_bulk_delete|].
  intros r. rewrite (load_delete_all_filtered _ _ json_load_dump), filter_In.
  rewrite negb_true_iff. unfold ids.
  split; intros [Hin H]; (split; [exact Hin|]).
  - intros Hid. assert (Hex : existsb (Z.eqb (id r)) (map id
        (filtered_history json_load search_query filter_type filter_favorite f)) = true).
    { apply existsb_exists. exists (id r). split; [exact Hid | apply Z.eqb_refl]. }
    congruence.
  - destruct (existsb _ _) eqn:Hex; [|reflexivity]. exfalso. apply H.
    apply existsb_exists in Hex. destruct Hex as [i [Hi Heq]].
    apply Z.eqb_eq in Heq. now subst i.
Qed.

(** X8.  "Clear All" repairs the numbering: whatever the file held, after a
    clear all followed by appends, toggles and further clears the ids are
    [1 .. n] in store order, hence unique. *)
Theorem clear_all_restarts_ids (ops : list store_op) (f : file) :
  Forall (fun op => removes_records op = false) ops ->
  numbered (load_history json_load (run_ops json_load json_dump (ClearAll :: ops) f)) /\
  unique_ids (load_history json_load (run_ops json_load json_dump (ClearAll :: ops) f)).
Proof.
  intros Hops.
  assert (Hn : numbered (load_history json_load
                           (run_ops json_load json_dump (ClearAll :: ops) f))).
  { unfold run_ops. cbn [fold_left apply_op].
    apply numbered_run; [|exact Hops].
    rewrite (load_clear _ _ json_load_dump). reflexivity. }
  split; [exact Hn | now apply numbered_unique].
Qed.

End StoreComposition.

(** ** Export: how it follows the store *)

Lemma export_is_header_and_sections {text : Type} (json_load : text -> option history)
    (f : file) :
  export_history_as_text json_load f
  = export_header ++ export_sections (load_history json_load f).
Proof.
  unfold export_history_as_text. cbn zeta. rewrite export_fold.
  unfold export_header. now rewrite !append_assoc.
Qed.

(** ** Prompt builder: the other clauses and the shape of the prompt *)

Lemma rstrip_keeps_head (a : ascii) (s : string) :
  Py.is_space a = false -> Py.rstrip (String a s) = String a (Py.rstrip s).
Proof.
  intros Ha. cbn [Py.rstrip]. rewrite Ha. now destruct (Py.rstrip s).
Qed.

Lemma rstrip_idempotent (s : string) : Py.rstrip (Py.rstrip s) = Py.rstrip s.
Proof.
  induction s as [|c s IH]; [reflexivity|]. cbn [Py.rstrip].
  destruct (Py.rstrip s) as [|b u] eqn:E.
  - destruct (Py.is_space c) eqn:Hc; [reflexivity|].
    cbn [Py.rstrip]. now rewrite Hc.
  - cbn [Py.rstrip] in *. now rewrite IH.
Qed.

Lemma lstrip_head (s : string) :
  Py.lstrip s = EmptyString
  \/ exists a rest, Py.lstrip s = String a rest /\ Py.is_space a = false.
Proof.
  induction s as [|c s IH]; [now left|]. simpl.
  destruct (Py.is_space c) eqn:Hc; [exact IH|]. right. now exists c, s.
Qed.

Lemma strip_idempotent (s : string) : Py.strip (Py.strip s) = Py.strip s.
Proof.
  unfold Py.strip. destruct (lstrip_head s) as [E | [a [rest [E Ha]]]]; rewrite E.
  - reflexivity.
  - rewrite (rstrip_keeps_head a rest Ha), (lstrip_keeps a _ Ha).
    rewrite <- (rstrip_keeps_head a rest Ha). apply rstrip_idempotent.
Qed.

Lemma strip_head (s : string) :
  Py.strip s = EmptyString
  \/ exists a rest, Py.strip s = String a rest /\ Py.is_space a = false.
Proof.
  unfold Py.strip. destruct (lstrip_head s) as [E | [a [rest [E Ha]]]]; rewrite E.
  - now left.
  - right. rewrite (rstrip_keeps_head a rest Ha). now eexists _, _.
Qed.

Lemma has_char_decimal_uint (a : ascii) (d : Decimal.uint) :
  has_char a "0123456789-" = false ->
  has_char a (NilEmpty.string_of_uint d) = false.
Proof.
  intros H. simpl in H. repeat (apply orb_false_elim in H; destruct H as [? H]).
  induction d; simpl; auto using orb_false_intro.
Qed.

Lemma has_char_str_of_int (a : ascii) (n : Z) :
  has_char a "0123456789-" = false -> has_char a (Py.str_of_int n) = false.
Proof.
  intros H. pose proof (has_char_decimal_uint a) as Hd.
  unfold Py.str_of_int, NilZero.string_of_int, NilZero.string_of_uint.
  simpl in H. repeat (apply orb_false_elim in H; destruct H as [? H]).
  destruct (Z.to_int n) as [d|d]; destruct d; simpl;
    repeat (apply orb_false_intro; [assumption|]);
    try reflexivity; try (apply Hd; simpl; repeat (apply orb_false_intro; [assumption|]);
                          assumption).
Qed.

Ltac each_clause H :=
  cbv in H; repeat (destruct H as [<- | H]); [.. | destruct H].

Lemma style_clause_plain (c : string) : In c style_clauses -> plain_phrase c.
Proof. intros H. each_clause H; now eexists _, _. Qed.

Lemma style_clause_not_instruction (c : string) (length_words : Z) (content_type : string) :
  In c style_clauses ->
  Py.contains c
    (Py.get (content_instructions length_words) content_type "Write content" ++ " about ")
  = false.
Proof.
  intros H.
  apply (get_forall (fun v => Py.contains c (v ++ " about ") = false));
    [each_clause H; reflexivity|].
  repeat constructor; cbn [snd];
    try (each_clause H; reflexivity).
  each_clause H;
    (apply contains_without_first_char;
     rewrite !has_char_append, has_char_str_of_int by reflexivity; reflexivity).
Qed.

Lemma style_clause_in_language (c language : string) :
  In c style_clauses ->
  Py.contains c (Py.get language_map language EmptyString)
  = (Py.get language_map language EmptyString =? c).
Proof.
  intros H. each_clause H; (apply get_forall; [reflexivity | repeat constructor]).
Qed.

Lemma style_clause_in_tone (c tone : string) :
  In c style_clauses ->
  Py.contains c (Py.get tone_map tone EmptyString)
  = (Py.get tone_map tone EmptyString =? c).
Proof.
  intros H. each_clause H; (apply get_forall; [reflexivity | repeat constructor]).
Qed.

Lemma style_clause_in_audience (c audience : string) :
  In c style_clauses ->
  Py.contains c (Py.get audience_map audience EmptyString)
  = (Py.get audience_map audience EmptyString =? c).
Proof.
  intros H. each_clause H; (apply get_forall; [reflexivity | repeat constructor]).
Qed.

Lemma style_clause_not_rhyme (c rhyme_scheme : string) :
  In c style_clauses ->
  Py.contains c (Py.get rhyme_map rhyme_scheme EmptyString) = false.
Proof.
  intros H. each_clause H; (apply get_forall; [reflexivity | repeat constructor]).
Qed.

(** X10.  The language, tone and audience clauses: the prompt contains a
    phrase of these tables exactly when the keyword contains it or the phrase
    is the one of the chosen language (other than "English"), tone (other
    than "Inspirational") or audience (other than "General").  So a prompt in
    French contains the French clause, and a prompt in English contains a
    language clause only where the keyword does. *)
Theorem build_prompt_style_clauses
    (keyword content_type language tone audience rhyme_scheme : string) (length_words : Z)
    (c : string) :
  In c style_clauses ->
  Py.contains c (build_prompt keyword content_type language tone audience rhyme_scheme
                   length_words)
  = Py.contains c keyword
    || (negb (language =? "English") && (Py.get language_map language EmptyString =? c))
    || (negb (tone =? "Inspirational") && (Py.get tone_map tone EmptyString =? c))
    || (negb (audience =? "General") && (Py.get audience_map audience EmptyString =? c)).
Proof.
  intros Hc. pose proof (style_clause_plain c Hc) as Hplain.
  rewrite build_prompt_sentences. unfold Py.strip.
  destruct (instruction_head length_words content_type) as [a [t [Hi Ha]]].
  assert (Hl : Py.lstrip (sentences (prompt_phrases keyword content_type language tone
                                       audience rhyme_scheme length_words))
               = sentences (prompt_phrases keyword content_type language tone
                              audience rhyme_scheme length_words)).
  { unfold prompt_phrases. rewrite Hi. now apply lstrip_keeps. }
  rewrite Hl, contains_rstrip_sentences; [|assumption | discriminate].
  unfold prompt_phrases. cbn [existsb]. rewrite !existsb_app, !existsb_optional.
  rewrite style_clause_in_language, style_clause_in_tone, style_clause_in_audience,
    style_clause_not_rhyme by assumption.
  rewrite andb_false_r, orb_false_r.
  destruct Hplain as [a' [rest' [Hc' [_ [_ Hq]]]]].
  rewrite contains_quoted by assumption.
  rewrite style_clause_not_instruction by assumption.
  rewrite Hc' at 2. rewrite contains_empty_hay.
  cbn [orb]. now rewrite orb_false_r, !orb_assoc.
Qed.

Lemma strip_append_tail (p x : string) (a : ascii) (t : string) :
  p = String a t -> Py.is_space a = false -> Py.rstrip x <> EmptyString ->
  Py.strip (p ++ x) = p ++ Py.rstrip x.
Proof.
  intros -> Ha Hx. unfold Py.strip. cbn [String.append]. rewrite (lstrip_keeps a _ Ha).
  change (String a (t ++ x)) with (String a t ++ x). now apply rstrip_append.
Qed.

(** X11.  The shape of the prompt: it starts with the instruction of the
    content type, followed by the keyword between apostrophes and a full
    stop, and it has no whitespace at either end. *)
Theorem build_prompt_shape
    (keyword content_type language tone audience rhyme_scheme : string) (length_words : Z) :
  (exists rest,
      build_prompt keyword content_type language tone audience rhyme_scheme length_words
      = Py.get (content_instructions length_words) content_type "Write content"
        ++ " about '" ++ keyword ++ "'." ++ rest) /\
  Py.strip (build_prompt keyword content_type language tone audience rhyme_scheme
              length_words)
  = build_prompt keyword content_type language tone audience rhyme_scheme length_words.
Proof.
  split.
  - rewrite build_prompt_sentences. unfold prompt_phrases.
    destruct (instruction_head length_words content_type) as [a [t [Hi Ha]]].
    set (others := (_ ++ _ ++ _ ++ _)%list).
    set (base := Py.get (content_instructions length_words) content_type "Write content"
                 ++ " about '" ++ keyword ++ "'").
    change (sentences (base :: others))
      with (base ++ String "." (String " " (sentences others))).
    rewrite (strip_append_tail base _ a (t ++ " about '" ++ keyword ++ "'")).
    + rewrite (rstrip_keeps_head "." _ eq_refl).
      exists (Py.rstrip (String " " (sentences others))).
      unfold base. now rewrite !append_assoc.
    + unfold base. now rewrite Hi.
    + exact Ha.
    + apply rstrip_full_stop.
  - unfold build_prompt. cbn zeta. apply strip_idempotent.
Qed.

(** X12.  For a content type other than "Poem" the prompt does not depend on
    the rhyme scheme nor on the length: any two values give the same
    prompt. *)
Theorem build_prompt_ignores_poem_options
    (keyword content_type language tone audience : string)
    (rhyme_scheme rhyme_scheme' : string) (length_words length_words' : Z) :
  content_type <> "Poem" ->
  build_prompt keyword content_type language tone audience rhyme_scheme length_words
  = build_prompt keyword content_type language tone audience rhyme_scheme' length_words'.
Proof.
  intros Hct. apply String.eqb_neq in Hct. unfold build_prompt. cbn zeta.
  rewrite Hct. cbn [andb].
  replace (Py.get (content_instructions length_words') content_type "Write content")
    with (Py.get (content_instructions length_words) content_type "Write content");
    [reflexivity|].
  unfold content_instructions. cbn [Py.get]. rewrite Hct. reflexivity.
Qed.

(** ** Generation client: what comes back *)

Lemma str_strip_stripped (x : json) (s : string) :
  str_strip x = Return s -> Py.strip s = s.
Proof.
  destruct x; simpl; try discriminate. intros H. inversion H. apply strip_idempotent.
Qed.

Lemma extract_text_stripped (data : json) (s : string) :
  extract_text data = Return s -> Py.strip s = s.
Proof.
  unfold extract_text.
  destruct (dict_get data "candidates" (JList [])) as [candidates|]; [|discriminate].
  cbn [bind].
  destruct (nonempty candidates) as [[|]|]; cbn [bind]; try discriminate.
  2:{ intros H. inversion H. reflexivity. }
  destruct (item0 candidates) as [first|]; [|discriminate]. cbn [bind].
  destruct (dict_get first "content" (JDict [])) as [content|]; [|discriminate].
  cbn [bind].
  destruct (dict_get content "parts" (JList [])) as [parts|]; [|discriminate].
  cbn [bind].
  destruct (nonempty parts) as [[|]|]; cbn [bind]; try discriminate.
  2:{ intros H. inversion H. reflexivity. }
  destruct (item0 parts) as [part|]; [|discriminate]. cbn [bind].
  destruct (dict_get part "text" (JStr EmptyString)) as [t|]; [|discriminate].
  cbn [bind]. apply str_strip_stripped.
Qed.

Section GenerationClientMore.

Context {float : Type}.
Variable float_0_7 : float.
Variable requests_post : @request float -> result response.
Variable py_str : json -> string.
Variable import_openai : option exn.
Variable chat_completion_create : @chat_request float -> result (list (option string)).
Variable cfg : config.

(** In the terms of the code: whatever [generate_text] returns is its own
    [strip()]. *)
Lemma generate_text_strip_fixed (prompt : string) (provider : option string) (kw : kwargs)
    (answer : string) :
  generate_text float_0_7 requests_post py_str import_openai chat_completion_create cfg
    prompt provider kw = Return answer ->
  Py.strip answer = answer.
Proof.
  unfold generate_text. cbn zeta.
  destruct (_ =? "gemini").
  - destruct (negb (Py.truthy_opt (GEMINI_API_KEY cfg))); [discriminate|].
    unfold generate_with_gemini.
    destruct (GEMINI_API_KEY cfg) as [key|]; [|discriminate].
    destruct (gemini_try _ _ _ _ _ _ _) as [v|e] eqn:Ht; [|discriminate].
    intros H. inversion H; subst. clear H. revert Ht. unfold gemini_try.
    destruct (requests_post _) as [resp|]; [|discriminate]. cbn [bind].
    destruct (negb (ok resp)); [discriminate|].
    destruct (json_body resp) as [data|]; [|discriminate]. cbn [bind].
    apply extract_text_stripped.
  - destruct (_ =? "openai"); [|discriminate].
    destruct (negb (Py.truthy_opt (OPENAI_API_KEY cfg))); [discriminate|].
    unfold generate_with_openai. destruct import_openai; [discriminate|].
    destruct (chat_completion_create _) as [choices|]; [|discriminate]. cbn [bind].
    destruct choices as [|[content|] rest]; try discriminate.
    intros H. inversion H. apply strip_idempotent.
Qed.

(** X14.  On the Gemini path every failure comes out as a [RuntimeError]:
    a missing key, an exception of the HTTP call, a non-success status, a
    body that is not JSON and a body of an unexpected shape alike.  The
    message is the missing-key text or starts with "Gemini generation
    failed: ". *)
Theorem gemini_failures_are_runtime_errors (prompt : string) (provider : option string)
    (kw : kwargs) (e : exn) :
  selected_provider cfg provider = "gemini" ->
  generate_text float_0_7 requests_post py_str import_openai chat_completion_create cfg
    prompt provider kw = Raise e ->
  exn_class_of e = RuntimeError /\
  (exn_str e = "GEMINI_API_KEY not found in environment. Set it in .env."
   \/ prefix "Gemini generation failed: " (exn_str e) = true).
Proof.
  intros Hp. unfold generate_text, selected_provider in *. cbn zeta. rewrite Hp.
  cbn [String.eqb Ascii.eqb Bool.eqb].
  destruct (negb (Py.truthy_opt (GEMINI_API_KEY cfg))) eqn:Hk.
  - intros H. inversion H. split; [reflexivity | now left].
  - unfold generate_with_gemini.
    destruct (GEMINI_API_KEY cfg) as [key|]; [|discriminate].
    destruct (gemini_try _ _ _ _ _ _ _) as [v|e']; [discriminate|].
    intros H. inversion H. split; [reflexivity|]. right.
    apply prefix_iff. now eexists.
Qed.

End GenerationClientMore.

(** ** Configuration *)

Lemma lstrip_all_space (s : string) : all_space s = true -> Py.lstrip s = EmptyString.
Proof.
  induction s as [|c s IH]; [reflexivity|]. simpl. intros H.
  apply andb_true_iff in H. destruct H as [Hc Hs]. rewrite Hc. now apply IH.
Qed.

Lemma strip_all_space (s : string) : all_space s = true -> Py.strip s = EmptyString.
Proof. intros H. unfold Py.strip. now rewrite lstrip_all_space. Qed.

(** X15.  A key that is set but blank counts as missing: when the variable
    of the selected provider holds only whitespace (or nothing), the
    configuration read from it makes [generate_text] raise the missing-key
    error, whatever the HTTP call would answer. *)
Theorem blank_key_is_missing {float : Type} (float_0_7 : float)
    (requests_post : @request float -> result response) (py_str : json -> string)
    (import_openai : option exn)
    (chat_completion_create : @chat_request float -> result (list (option string)))
    (getenv : string -> option string) (raw prompt : string) (kw : kwargs) :
  getenv "MODEL_PROVIDER" = None ->
  getenv "GEMINI_API_KEY" = Some raw ->
  all_space raw = true ->
  generate_text float_0_7 requests_post py_str import_openai chat_completion_create
    (read_config getenv) prompt None kw
  = Raise (mkExn RuntimeError "GEMINI_API_KEY not found in environment. Set it in .env.").
Proof.
  intros Hp Hk Hs. unfold generate_text, read_config, getenv_default. cbn zeta.
  cbn [MODEL_PROVIDER GEMINI_API_KEY]. rewrite Hp, Hk.
  cbn [Py.lower Py.lower_char String.eqb Ascii.eqb Bool.eqb].
  replace (Py.truthy_opt (normalize_key (Some raw))) with false; [reflexivity|].
  unfold normalize_key. destruct (Py.truthy raw) eqn:Ht; cbn [Py.truthy_opt].
  - now rewrite (strip_all_space raw Hs).
  - now rewrite Ht.
Qed.

Lemma lstrip_chars_length (chars s : string) :
  (String.length (lstrip_chars chars s) <= String.length s)%nat.
Proof.
  induction s as [|c s IH]; simpl; [lia|]. destruct (has_char c chars); simpl; lia.
Qed.

Lemma lstrip_chars_fixed (chars : string) (a : ascii) (t : string) :
  lstrip_chars chars (String a t) = String a t -> has_char a chars = false.
Proof.
  simpl. destruct (has_char a chars); [|reflexivity]. intros H.
  pose proof (lstrip_chars_length chars t) as Hl. rewrite H in Hl. simpl in Hl. lia.
Qed.

Lemma rstrip_chars_fixed (chars : string) (a : ascii) (t : string) :
  rstrip_chars chars (String a t) = String a t ->
  rstrip_chars chars t = t /\ (t = EmptyString -> has_char a chars = false).
Proof.
  cbn [rstrip_chars]. destruct (rstrip_chars chars t) as [|b u] eqn:E.
  - destruct (has_char a chars); [discriminate|]. intros H. inversion H. subst.
    split; [reflexivity | reflexivity].
  - intros H. inversion H. subst. split; [reflexivity | discriminate].
Qed.

Lemma lstrip_chars_weaker (chars chars' s : string) :
  (forall c, has_char c chars' = true -> has_char c chars = true) ->
  lstrip_chars chars s = s -> lstrip_chars chars' s = s.
Proof.
  intros Hsub H. destruct s as [|a t]; [reflexivity|].
  apply lstrip_chars_fixed in H. simpl.
  destruct (has_char a chars') eqn:E; [|reflexivity].
  apply Hsub in E. congruence.
Qed.

Lemma rstrip_chars_weaker (chars chars' s : string) :
  (forall c, has_char c chars' = true -> has_char c chars = true) ->
  rstrip_chars chars s = s -> rstrip_chars chars' s = s.
Proof.
  intros Hsub. induction s as [|a t IH]; [reflexivity|]. intros H.
  apply rstrip_chars_fixed in H. destruct H as [Ht Ha].
  cbn [rstrip_chars]. rewrite (IH Ht). destruct t as [|b u]; [|reflexivity].
  destruct (has_char a chars') eqn:E; [|reflexivity].
  apply Hsub in E. rewrite (Ha eq_refl) in E. discriminate.
Qed.

Lemma rstrip_chars_drops_last (chars s : string) (x : ascii) :
  has_char x chars = true -> rstrip_chars chars s = s ->
  rstrip_chars chars (s ++ String x EmptyString) = s.
Proof.
  intros Hx. induction s as [|a t IH]; intros H.
  - simpl. now rewrite Hx.
  - apply rstrip_chars_fixed in H. destruct H as [Ht Ha].
    change (String a t ++ String x EmptyString) with (String a (t ++ String x EmptyString)).
    cbn [rstrip_chars]. rewrite (IH Ht). destruct t as [|b u]; [|reflexivity].
    now rewrite (Ha eq_refl).
Qed.

Lemma rstrip_chars_keeps_last (chars s : string) (x : ascii) :
  has_char x chars = false ->
  rstrip_chars chars (s ++ String x EmptyString) = s ++ String x EmptyString.
Proof.
  intros Hx. induction s as [|a t IH].
  - simpl. now rewrite Hx.
  - change (String a t ++ String x EmptyString) with (String a (t ++ String x EmptyString)).
    cbn [rstrip_chars]. rewrite IH. now destruct t.
Qed.

Lemma rstrip_keeps_last (s : string) (x : ascii) :
  Py.is_space x = false ->
  Py.rstrip (s ++ String x EmptyString) = s ++ String x EmptyString.
Proof.
  intros Hx. rewrite rstrip_append; simpl; rewrite Hx; [reflexivity | discriminate].
Qed.

(** X16.  Quotes around a key are taken off: when the variable holds the key
    between double quotes, or between single quotes, and the key itself has
    no quote at either end, the configuration holds the bare key. *)
Theorem quoted_key_unwrapped (key : string) :
  lstrip_chars (double_quote ++ "'") key = key ->
  rstrip_chars (double_quote ++ "'") key = key ->
  normalize_key (Some (double_quote ++ key ++ double_quote)) = Some key /\
  normalize_key (Some ("'" ++ key ++ "'")) = Some key.
Proof.
  intros Hl Hr.
  assert (Hld : lstrip_chars double_quote key = key).
  { apply (lstrip_chars_weaker (double_quote ++ "'")); [|exact Hl].
    intros c. simpl. rewrite !orb_false_r. intros ->. reflexivity. }
  assert (Hls : lstrip_chars "'" key = key).
  { apply (lstrip_chars_weaker (double_quote ++ "'")); [|exact Hl].
    intros c. simpl. rewrite !orb_false_r. intros ->. apply orb_true_r. }
  assert (Hrd : rstrip_chars double_quote key = key).
  { apply (rstrip_chars_weaker (double_quote ++ "'")); [|exact Hr].
    intros c. simpl. rewrite !orb_false_r. intros ->. reflexivity. }
  assert (Hrs : rstrip_chars "'" key = key).
  { apply (rstrip_chars_weaker (double_quote ++ "'")); [|exact Hr].
    intros c. simpl. rewrite !orb_false_r. intros ->. apply orb_true_r. }
  assert (Hstrip : forall q : ascii,
             Py.is_space q = false ->
             Py.strip (String q (key ++ String q EmptyString))
             = String q (key ++ String q EmptyString)).
  { intros q Hq. unfold Py.strip. rewrite (lstrip_keeps q _ Hq).
    change (String q (key ++ String q EmptyString))
      with (String q key ++ String q EmptyString).
    now apply rstrip_keeps_last. }
  assert (Hunwrap : forall q : ascii,
             lstrip_chars (String q EmptyString) key = key ->
             rstrip_chars (String q EmptyString) key = key ->
             strip_chars (String q EmptyString) (String q (key ++ String q EmptyString))
             = key).
  { intros q Hlq Hrq. unfold strip_chars. cbn [lstrip_chars has_char].
    rewrite Ascii.eqb_refl. cbn [orb].
    destruct key as [|a t].
    - simpl. now rewrite Ascii.eqb_refl.
    - pose proof (lstrip_chars_fixed _ _ _ Hlq) as Ha.
      change (String a t ++ String q EmptyString)
        with (String a (t ++ String q EmptyString)).
      cbn [lstrip_chars]. rewrite Ha.
      change (String a (t ++ String q EmptyString))
        with (String a t ++ String q EmptyString).
      apply rstrip_chars_drops_last; [|exact Hrq].
      simpl. now rewrite Ascii.eqb_refl. }
  split.
  - unfold normalize_key, double_quote. cbn [String.append Py.truthy String.eqb negb].
    rewrite (Hstrip (ascii_of_nat 34) eq_refl), (Hunwrap (ascii_of_nat 34) Hld Hrd).
    unfold strip_chars. now rewrite Hls, Hrs.
  - unfold normalize_key. cbn [String.append Py.truthy String.eqb negb].
    rewrite (Hstrip "'"%char eq_refl).
    assert (Hsame : strip_chars double_quote (String "'" (key ++ "'"))
                    = String "'" (key ++ "'")).
    { unfold strip_chars, double_quote. cbn [lstrip_chars has_char Ascii.eqb Bool.eqb orb].
      change (String "'" (key ++ "'")) with (String "'" key ++ String "'" EmptyString).
      now apply rstrip_chars_keeps_last. }
    rewrite Hsame. f_equal. exact (Hunwrap "'"%char Hls Hrs).
Qed.

(** ** The generator page *)

Lemma truthy_nonempty (s : string) : Py.truthy s = true <-> s <> EmptyString.
Proof.
  unfold Py.truthy. rewrite negb_true_iff. apply String.eqb_neq.
Qed.

Lemma ascii_only_lstrip (s : string) :
  ascii_only s = true -> ascii_only (Py.lstrip s) = true.
Proof.
  induction s as [|c s IH]; [reflexivity|]. intros H. cbn [Py.lstrip].
  destruct (Py.is_space c); [|exact H].
  cbn [ascii_only] in H. apply andb_true_iff in H. now apply IH.
Qed.

Lemma ascii_only_rstrip (s : string) :
  ascii_only s = true -> ascii_only (Py.rstrip s) = true.
Proof.
  induction s as [|c s IH]; [reflexivity|]. intros H.
  cbn [ascii_only] in H. apply andb_true_iff in H. destruct H as [Hc Hs].
  specialize (IH Hs). cbn [Py.rstrip].
  destruct (Py.rstrip s) as [|a t].
  - destruct (Py.is_space c); [reflexivity|]. cbn [ascii_only]. now rewrite Hc.
  - cbn [ascii_only] in *. now rewrite Hc.
Qed.

Lemma ascii_only_strip (s : string) :
  ascii_only s = true -> ascii_only (Py.strip s) = true.
Proof. intros H. unfold Py.strip. now apply ascii_only_rstrip, ascii_only_lstrip. Qed.

Lemma is_blank_table :
  forallb (fun c => Bool.eqb (is_blank c) (Py.is_space c)) all_chars = true.
Proof. vm_compute. reflexivity. Qed.

Lemma is_blank_is_space (c : ascii) : is_blank c = Py.is_space c.
Proof.
  pose proof is_blank_table as T. rewrite forallb_forall in T.
  apply Bool.eqb_prop. apply T, in_all_chars.
Qed.

Lemma rstrip_fixed_last (s : string) (c : ascii) :
  Py.rstrip s = s -> last_char s = Some c -> Py.is_space c = false.
Proof.
  induction s as [|a t IH]; [discriminate|]. cbn [Py.rstrip last_char].
  destruct t as [|b t'].
  - cbn [Py.rstrip]. destruct (Py.is_space a) eqn:Ha; [discriminate|].
    intros _ H. injection H as <-. exact Ha.
  - destruct (Py.rstrip (String b t')) as [|x y] eqn:E.
    + destruct (Py.is_space a); discriminate.
    + intros H. apply IH. injection H as Hx Hy. now rewrite Hx, Hy.
Qed.

Lemma strip_fixed_no_blank_ends (s : string) : Py.strip s = s -> no_blank_ends s.
Proof.
  intros H. destruct (strip_head s) as [E|[a [rest [E Ha]]]]; rewrite H in E.
  - subst s. split; discriminate.
  - split; intros c Hc; rewrite is_blank_is_space.
    + subst s. injection Hc as <-. exact Ha.
    + apply (rstrip_fixed_last s c); [|exact Hc].
      unfold Py.strip in H. subst s. now rewrite (lstrip_keeps a rest Ha) in H.
Qed.

Lemma well_filled_filled (r : ContentRecord) : well_filled r -> filled r.
Proof.
  intros [[H1 H2] [H3 H4]]. repeat apply conj; try assumption;
    now apply strip_fixed_no_blank_ends.
Qed.

Lemma well_filled_new_content (fm : form) (output : string) :
  ascii_only (form_keyword fm) = true ->
  Py.truthy (Py.strip (form_keyword fm)) = true -> Py.truthy output = true ->
  well_filled (new_content fm output).
Proof.
  intros Ha Hk Ho. unfold well_filled, new_content. simpl.
  apply truthy_nonempty in Hk. apply truthy_nonempty in Ho.
  split; [split; [exact Hk | now apply ascii_only_strip]|].
  split; [apply strip_idempotent | exact Ho].
Qed.

Lemma well_filled_stamped (now : string) (r : ContentRecord) (h : history) :
  well_filled r -> well_filled (stamped now r h).
Proof. intros H. exact H. Qed.

Lemma well_filled_set_favorite (v : bool) (r : ContentRecord) :
  well_filled r -> well_filled (set_favorite v r).
Proof. intros H. exact H. Qed.

Lemma Forall_toggle_first (P : ContentRecord -> Prop) (item_id : Z) (h : history) :
  (forall v r, P r -> P (set_favorite v r)) ->
  Forall P h -> Forall P (toggle_first item_id h).
Proof.
  intros HP. induction 1 as [|r h Hr Hh IH]; [constructor|]. cbn [toggle_first].
  destruct (id r =? item_id)%Z; constructor; auto.
Qed.

Lemma Forall_filter {A : Type} (P : A -> Prop) (p : A -> bool) (l : list A) :
  Forall P l -> Forall P (filter p l).
Proof.
  induction 1 as [|x l Hx Hl IH]; simpl; [constructor|].
  destruct (p x); [constructor|]; assumption.
Qed.

Section PagesFacts.

Context {text : Type}.
Variable json_load : text -> option history.
Variable json_dump : history -> text.
Hypothesis json_load_dump : forall h, json_load (json_dump h) = Some h.

Lemma history_step_keeps (P : ContentRecord -> Prop) (flt : filters)
    (click : history_click) (s : confirmations) (f : file) :
  (forall v r, P r -> P (set_favorite v r)) ->
  Forall P (load_history json_load f) ->
  Forall P (load_history json_load
              (snd (history_step json_load json_dump flt click (s, f)))).
Proof.
  intros HP Hf. unfold history_step.
  destruct (load_history json_load f) as [|r0 h0] eqn:Eh; [cbn [snd]; now rewrite Eh|].
  rewrite <- Eh in Hf.
  assert (Hdel : forall item_id,
             Forall P (load_history json_load
                         (fst (delete_content json_load json_dump item_id f)))).
  { intros i. rewrite (load_delete _ _ json_load_dump). now apply Forall_filter. }
  destruct click.
  - destruct (confirm_clear_all s); cbn [snd]; [|exact Hf].
    rewrite (load_clear _ _ json_load_dump). constructor.
  - destruct (confirm_clear_all s); exact Hf.
  - destruct (listed json_load flt f); [exact Hf|].
    destruct (confirm_bulk_delete s); cbn [snd]; [|exact Hf].
    rewrite (load_delete_all_filtered _ _ json_load_dump). now apply Forall_filter.
  - destruct (listed json_load flt f); [exact Hf|].
    destruct (confirm_bulk_delete s); exact Hf.
  - destruct (is_listed json_load flt f item_id); cbn [snd]; [|exact Hf].
    rewrite (load_toggle _ _ json_load_dump). now apply Forall_toggle_first.
  - destruct (is_listed json_load flt f item_id); [|exact Hf].
    destruct (confirm_delete s item_id); [|exact Hf].
    specialize (Hdel item_id).
    destruct (delete_content json_load json_dump item_id f) as [f' deleted].
    destruct deleted; exact Hdel.
  - destruct (is_listed json_load flt f item_id && confirm_delete s item_id); exact Hf.
Qed.

Lemma contents_stay_well_filled (clicks : list app_click) :
  Forall ascii_click clicks ->
  let s := app_run json_load json_dump clicks initial_state in
  Forall well_filled (load_history json_load (store s)) /\
  (forall content, current_content s = Some content -> well_filled content).
Proof.
  cbv zeta. induction clicks as [|click clicks IH] using rev_ind; intros Hascii.
  - split; [constructor | discriminate].
  - apply Forall_app in Hascii. destruct Hascii as [Hclicks Hclick].
    inversion Hclick as [|? ? Hthis _]; subst. specialize (IH Hclicks).
    unfold app_run in *. rewrite fold_left_app. cbn [fold_left].
    set (s := fold_left (app_step json_load json_dump) clicks initial_state) in *.
    destruct IH as [Hstore Hcur]. destruct click as [c | flt c]; cbn [app_step].
    + destruct c as [generate fm | generate | now]; cbn [generator_step].
      * cbn [store current_content]. split; [exact Hstore|].
        unfold generate_button.
        destruct (Py.truthy (Py.strip (form_keyword fm))) eqn:Hk; cbn [negb fst];
          [|exact Hcur].
        destruct (generate (form_prompt fm)) as [output|e]; [|exact Hcur].
        destruct (Py.truthy output) eqn:Ho; cbn [fst]; [|exact Hcur].
        intros content H. inversion H. now apply well_filled_new_content.
      * cbn [store current_content]. split; [exact Hstore|].
        unfold regenerate_button.
        destruct (current_content s) as [content|] eqn:Ec; [|discriminate].
        destruct (generate _) as [output|e]; cbn [fst];
          [|intros c H; injection H as <-;
            first [exact (Hcur content Ec) | exact (Hcur content eq_refl)]].
        destruct (Py.truthy output) eqn:Ho; cbn [fst];
          [|intros c H; injection H as <-;
            first [exact (Hcur content Ec) | exact (Hcur content eq_refl)]].
        intros c H. injection H as <-.
        assert (Hc : well_filled content)
          by first [exact (Hcur content Ec) | exact (Hcur content eq_refl)].
        destruct Hc as [Hk1 [Hk2 _]].
        split; [exact Hk1|]. split; [exact Hk2|]. now apply truthy_nonempty.
      * unfold save_button.
        destruct (current_content s) as [content|] eqn:Ec; cbn [store current_content].
        -- rewrite (load_save _ _ json_load_dump). split.
           ++ apply Forall_app. split; [exact Hstore|].
              constructor; [|constructor].
              first [exact (Hcur content Ec) | exact (Hcur content eq_refl)].
           ++ intros c H. injection H as <-.
              first [exact (Hcur content Ec) | exact (Hcur content eq_refl)].
        -- split; [exact Hstore | discriminate].
    + destruct (history_step json_load json_dump flt c (confirms s, store s))
        as [confirms' f'] eqn:Es.
      cbn [store current_content]. split; [|exact Hcur].
      change f' with (snd (confirms', f')). rewrite <- Es.
      apply history_step_keeps; [intros v r H; exact H | exact Hstore].
Qed.

(** X17.  Every record the application stores is filled in: starting with no
    file, after any sequence of clicks on the generator page (generate,
    regenerate, save) and on the history page (favorite, delete, bulk delete,
    clear all and their confirmations), with any provider behaviour and the
    keywords typed being ASCII text, each stored record, and the current
    content when there is one, has a keyword that is not empty and has no
    blank at its first nor at its last place, and an output that is not
    empty. *)
Theorem stored_records_are_filled (clicks : list app_click) :
  Forall ascii_click clicks ->
  let s := app_run json_load json_dump clicks initial_state in
  Forall filled (load_history json_load (store s)) /\
  (forall content, current_content s = Some content -> filled content).
Proof.
  intros Hascii. destruct (contents_stay_well_filled clicks Hascii) as [H1 H2].
  cbv zeta. split.
  - eapply Forall_impl; [|exact H1]. intros r. apply well_filled_filled.
  - intros content Hc. now apply well_filled_filled, H2.
Qed.

End PagesFacts.

(** X19.  An empty answer is silent.  When the keyword is ASCII text with
    something other than blanks in it, and the Gemini response has the
    documented shape and a first part, but that part has no text or only
    ASCII whitespace, [generate_text] returns the empty string and the
    generate button shows nothing: no content, no warning and no error, and
    the current content stays as it was. *)
Theorem empty_answer_is_silent {float : Type} (float_0_7 : float)
    (requests_post : @request float -> result response) (py_str : json -> string)
    (import_openai : option exn)
    (chat_completion_create : @chat_request float -> result (list (option string)))
    (cfg : config) (fm : form) (current : option ContentRecord)
    (key : string) (resp : response) (data : json) :
  ascii_only (form_keyword fm) = true ->
  Py.strip (form_keyword fm) <> EmptyString ->
  selected_provider cfg None = "gemini" ->
  GEMINI_API_KEY cfg = Some key ->
  Py.truthy key = true ->
  requests_post (gemini_request (form_prompt fm) (GEMINI_MODEL cfg) key 300 float_0_7)
  = Return resp ->
  ok resp = true ->
  json_body resp = Return data ->
  well_formed data = true ->
  first_parts data <> [] ->
  match candidate_text data with
  | Some s => all_space s = true
  | None => True
  end ->
  generate_button
    (page_generate float_0_7 requests_post py_str import_openai chat_completion_create cfg)
    fm current
  = (current, []).
Proof.
  intros _ Hk Hp Hkey Ht Hpost Hok Hdata Hwf Hparts Hblank.
  apply truthy_nonempty in Hk.
  unfold generate_button. rewrite Hk. cbn [negb]. unfold page_generate.
  rewrite (generate_text_gemini float_0_7 requests_post py_str import_openai
             chat_completion_create cfg (form_prompt fm) key None _ Hp Hkey Ht).
  unfold gemini_try. cbn [max_tokens_of temperature_of kw_max_tokens kw_temperature].
  rewrite Hpost. cbn [bind]. rewrite Hok, Hdata. cbn [negb bind].
  rewrite (extract_text_well_formed data Hwf).
  destruct (first_parts data) as [|p ps]; [contradiction|].
  destruct (candidate_text data) as [s|].
  - now rewrite (strip_all_space s Hblank).
  - reflexivity.
Qed.

(** ** The history page *)

Lemma take_length (n : nat) (s : string) :
  String.length (take n s) = Nat.min n (String.length s).
Proof.
  revert s; induction n as [|n IH]; intros [|c s]; simpl; try reflexivity.
  now rewrite IH.
Qed.

Lemma take_all (n : nat) (s : string) :
  (String.length s <= n)%nat -> take n s = s.
Proof.
  revert s; induction n as [|n IH]; intros [|c s]; simpl; intros H;
    try reflexivity; try lia.
  rewrite IH; [reflexivity | lia].
Qed.

Lemma take_prefix (n : nat) (s : string) : prefix (take n s) s = true.
Proof.
  revert s; induction n as [|n IH]; intros [|c s]; simpl; try reflexivity.
  destruct (ascii_dec c c); [apply IH | contradiction].
Qed.

Lemma string_length_append (a b : string) :
  String.length (a ++ b) = (String.length a + String.length b)%nat.
Proof. induction a as [|c a IH]; simpl; [reflexivity | now rewrite IH]. Qed.

(** X20.  For an output of ASCII text, where a byte is a character, the
    content line of a listed item never has more than 203 characters: it is
    the whole output when that has at most 200 characters, and otherwise its
    first 200 characters followed by three dots. *)
Theorem preview_bounded (item : ContentRecord) :
  ascii_only (output item) = true ->
  (String.length (preview item) <= 203)%nat /\
  prefix (take 200 (output item)) (output item) = true /\
  ((String.length (output item) <= 200)%nat -> preview item = output item) /\
  ((200 < String.length (output item))%nat ->
   preview item = take 200 (output item) ++ "..." /\
   String.length (preview item) = 203%nat).
Proof.
  intros _. unfold preview.
  pose proof (take_length 200 (output item)) as Hlen.
  pose proof (string_length_append (take 200 (output item)) "...") as Hdots.
  pose proof (string_length_append (take 200 (output item)) EmptyString) as Hnone.
  change (String.length "...") with 3%nat in Hdots.
  change (String.length EmptyString) with 0%nat in Hnone.
  destruct (Z.ltb_spec 200 (Z.of_nat (String.length (output item)))) as [Hlong|Hshort].
  - split; [lia|]. split; [apply take_prefix|]. split; [lia|]. intros _.
    split; [reflexivity | lia].
  - split; [lia|]. split; [apply take_prefix|]. split; [|lia]. intros _.
    rewrite append_empty_r. apply take_all. lia.
Qed.

Section HistoryPageFacts.

Context {text : Type}.
Variable json_load : text -> option history.
Variable json_dump : history -> text.
Hypothesis json_load_dump : forall h, json_load (json_dump h) = Some h.

Lemma listed_in_store (flt : filters) (f : file) (r : ContentRecord) :
  In r (listed json_load flt f) -> In r (load_history json_load f).
Proof.
  unfold listed. rewrite filtered_history_shortcut. unfold search_history.
  rewrite search_loop_filter. intros H. now apply filter_In in H.
Qed.

Lemma is_listed_in_store (flt : filters) (f : file) (item_id : Z) :
  is_listed json_load flt f item_id = true ->
  exists r, In r (load_history json_load f) /\ id r = item_id.
Proof.
  unfold is_listed. intros H. apply existsb_exists in H.
  destruct H as [i [Hin Hi]]. apply Z.eqb_eq in Hi. subst i.
  apply in_map_iff in Hin. destruct Hin as [r [Hid Hin]].
  exists r. split; [now apply (listed_in_store flt) | exact Hid].
Qed.

(** X21.  No single click removes a record: when no confirmation is
    pending, whatever button of the history page is pressed, under whatever
    filters, the store afterwards holds records with the same ids in the same
    order. *)
Theorem single_click_never_deletes (flt : filters) (click : history_click)
    (s : confirmations) (f : file) :
  nothing_confirmed s ->
  ids (load_history json_load (snd (history_step json_load json_dump flt click (s, f))))
  = ids (load_history json_load f).
Proof.
  intros [Hclear [Hbulk Hdel]]. unfold history_step.
  destruct (load_history json_load f) as [|r0 h0] eqn:Eh; [cbn [snd]; now rewrite Eh|].
  rewrite <- Eh. destruct click; rewrite ?Hclear, ?Hbulk, ?Hdel, ?andb_false_r;
    try reflexivity.
  - destruct (listed json_load flt f); reflexivity.
  - destruct (listed json_load flt f); reflexivity.
  - destruct (is_listed json_load flt f item_id); cbn [snd]; [|reflexivity].
    rewrite (load_toggle _ _ json_load_dump). apply ids_toggle_first.
  - destruct (is_listed json_load flt f item_id); reflexivity.
Qed.

(** X22.  Deleting a listed item takes two clicks: the first click on its
    delete button leaves the file as it is and raises the confirmation of
    that id; the second removes every record with the id and lowers the
    confirmation again. *)
Theorem delete_takes_two_clicks (flt : filters) (item_id : Z) (s : confirmations)
    (f : file) :
  is_listed json_load flt f item_id = true ->
  confirm_delete s item_id = false ->
  let first := history_step json_load json_dump flt (ClickDelete item_id) (s, f) in
  let second := history_step json_load json_dump flt (ClickDelete item_id) first in
  snd first = f /\
  confirm_delete (fst first) item_id = true /\
  load_history json_load (snd second)
  = filter (fun item => negb (id item =? item_id)%Z) (load_history json_load f) /\
  (forall r, In r (load_history json_load (snd second)) -> id r <> item_id) /\
  confirm_delete (fst second) item_id = false.
Proof.
  intros Hl Hc. cbv zeta.
  destruct (is_listed_in_store flt f item_id Hl) as [r [Hin Hid]].
  assert (Hfirst : history_step json_load json_dump flt (ClickDelete item_id) (s, f)
                   = (set_confirm_delete item_id true s, f)).
  { unfold history_step. destruct (load_history json_load f); [destruct Hin|].
    now rewrite Hl, Hc. }
  rewrite Hfirst. cbn [fst snd].
  assert (Hret : snd (delete_content json_load json_dump item_id f) = true).
  { apply (delete_returns json_load json_dump). now exists r. }
  assert (Hsecond : history_step json_load json_dump flt (ClickDelete item_id)
                      (set_confirm_delete item_id true s, f)
                    = (set_confirm_delete item_id false (set_confirm_delete item_id true s),
                       fst (delete_content json_load json_dump item_id f))).
  { unfold history_step. destruct (load_history json_load f); [destruct Hin|].
    rewrite Hl. cbn [confirm_delete set_confirm_delete]. rewrite Z.eqb_refl.
    destruct (delete_content json_load json_dump item_id f) as [f' deleted].
    cbn [snd] in Hret. subst deleted. reflexivity. }
  rewrite Hsecond. cbn [fst snd confirm_delete set_confirm_delete].
  rewrite Z.eqb_refl, (load_delete _ _ json_load_dump).
  repeat split.
  intros x Hx. apply filter_In in Hx. destruct Hx as [_ Hne].
  apply negb_true_iff in Hne. now apply Z.eqb_neq.
Qed.

(** X23.  The confirmation of the bulk delete is not bound to the filters
    it was given under: after a first click on "Delete All Filtered" under
    some filters, a second click under other filters deletes what those other
    filters list, and nothing is then left to list under them. *)
Theorem bulk_confirmation_outlives_filters (flt1 flt2 : filters) (s : confirmations)
    (f : file) :
  confirm_bulk_delete s = false ->
  listed json_load flt1 f <> [] ->
  listed json_load flt2 f <> [] ->
  let first := history_step json_load json_dump flt1 ClickDeleteAllFiltered (s, f) in
  let second := history_step json_load json_dump flt2 ClickDeleteAllFiltered first in
  snd first = f /\
  snd second = delete_all_filtered json_load json_dump (listed json_load flt2 f) f /\
  listed json_load flt2 (snd second) = [] /\
  confirm_bulk_delete (fst second) = false.
Proof.
  intros Hc H1 H2. cbv zeta.
  assert (Hne : load_history json_load f <> []).
  { destruct (listed json_load flt1 f) as [|r l] eqn:E; [contradiction|].
    intros Hempty. assert (Hin : In r (listed json_load flt1 f)) by (rewrite E; now left).
    apply listed_in_store in Hin. rewrite Hempty in Hin. destruct Hin. }
  assert (Hfirst : history_step json_load json_dump flt1 ClickDeleteAllFiltered (s, f)
                   = (set_confirm_bulk_delete true s, f)).
  { unfold history_step. destruct (load_history json_load f); [contradiction|].
    destruct (listed json_load flt1 f); [contradiction|]. now rewrite Hc. }
  rewrite Hfirst. cbn [fst snd].
  assert (Hsecond : history_step json_load json_dump flt2 ClickDeleteAllFiltered
                      (set_confirm_bulk_delete true s, f)
                    = (set_confirm_bulk_delete false (set_confirm_bulk_delete true s),
                       delete_all_filtered json_load json_dump
                         (listed json_load flt2 f) f)).
  { unfold history_step. destruct (load_history json_load f); [contradiction|].
    destruct (listed json_load flt2 f); [contradiction|]. reflexivity. }
  rewrite Hsecond. cbn [fst snd]. repeat split.
  unfold listed. apply (nothing_listed_after_bulk_delete json_load json_dump json_load_dump).
Qed.

End HistoryPageFacts.

(** ** The analytics page *)

Lemma get_dict_set {V : Type} (d : Py.dict V) (k : string) (v : V) (k' : string)
    (default : V) :
  Py.get (dict_set d k v) k' default = if k' =? k then v else Py.get d k' default.
Proof.
  induction d as [|[k0 v0] d IH]; cbn [dict_set Py.get].
  - reflexivity.
  - destruct (String.eqb_spec k k0) as [E|E]; cbn [Py.get].
    + subst k0. now destruct (k' =? k).
    + destruct (String.eqb_spec k' k0) as [E'|E'].
      * subst k0. destruct (String.eqb_spec k' k) as [E2|E2]; [now subst|reflexivity].
      * apply IH.
Qed.

Lemma keys_dict_set {V : Type} (d : Py.dict V) (k : string) (v : V) (x : string) :
  In x (map fst (dict_set d k v)) <-> In x (map fst d) \/ x = k.
Proof.
  induction d as [|[k0 v0] d IH]; cbn [dict_set map fst In].
  - intuition.
  - destruct (String.eqb_spec k k0) as [E|E]; cbn [map fst In].
    + subst k0. intuition.
    + rewrite IH. intuition.
Qed.

Lemma NoDup_keys_dict_set {V : Type} (d : Py.dict V) (k : string) (v : V) :
  NoDup (map fst d) -> NoDup (map fst (dict_set d k v)).
Proof.
  induction d as [|[k0 v0] d IH]; cbn [dict_set map fst]; intros H.
  - constructor; [intros []|constructor].
  - destruct (String.eqb_spec k k0) as [E|E]; cbn [map fst]; [exact H|].
    inversion H as [|? ? Hnot Hd]; subst. constructor; [|now apply IH].
    rewrite keys_dict_set. intros [Hin|Heq]; [now apply Hnot | now apply E].
Qed.

Lemma Forall_dict_set {V : Type} (P : string * V -> Prop) (d : Py.dict V) (k : string)
    (v : V) :
  Forall P d -> P (k, v) -> Forall P (dict_set d k v).
Proof.
  induction d as [|[k0 v0] d IH]; cbn [dict_set]; intros H Hk.
  - now constructor.
  - inversion H; subst. destruct (String.eqb_spec k k0) as [E|E].
    + subst k0. now constructor.
    + constructor; [assumption | now apply IH].
Qed.

Lemma get_in {V : Type} (d : Py.dict V) (k : string) (default : V) :
  In k (map fst d) -> In (k, Py.get d k default) d.
Proof.
  induction d as [|[k0 v0] d IH]; cbn [map fst In Py.get]; [intros []|].
  intros H. destruct (String.eqb_spec k k0) as [E|E].
  - subst k0. now left.
  - right. apply IH. destruct H as [H|H]; [now symmetry in H|exact H].
Qed.

Lemma get_absent {V : Type} (d : Py.dict V) (k : string) (default : V) :
  ~ In k (map fst d) -> Py.get d k default = default.
Proof.
  induction d as [|[k0 v0] d IH]; cbn [map fst In Py.get]; [reflexivity|].
  intros H. destruct (String.eqb_spec k k0) as [E|E].
  - exfalso. apply H. now left.
  - apply IH. intros Hin. apply H. now right.
Qed.

Lemma in_dict_get {V : Type} (d : Py.dict V) (k : string) (v default : V) :
  NoDup (map fst d) -> In (k, v) d -> Py.get d k default = v.
Proof.
  induction d as [|[k0 v0] d IH]; cbn [map fst In Py.get]; [intros _ []|].
  intros Hnd [H|H].
  - injection H as -> ->. now rewrite String.eqb_refl.
  - inversion Hnd as [|? ? Hnot Hd]; subst.
    destruct (String.eqb_spec k k0) as [E|E].
    + subst k0. exfalso. apply Hnot. now apply (in_map fst) in H.
    + now apply IH.
Qed.

Section Counting.

Variable key : ContentRecord -> string.
Variable counted : ContentRecord -> bool.

#[local] Notation tally := (tally_loop key counted).

Lemma tally_get (h : history) (acc : Py.dict Z) (t : string) :
  Py.get (tally acc h) t 0
  = (Py.get acc t 0 + count_where (fun r => counted r && (key r =? t)%string) h)%Z.
Proof.
  unfold tally_loop, count_where, len. revert acc.
  induction h as [|r h IH]; intros acc; cbn [fold_left filter].
  - cbn. lia.
  - rewrite IH. destruct (counted r); cbn [andb].
    + unfold count_one. rewrite get_dict_set, (String.eqb_sym t (key r)).
      destruct (String.eqb_spec (key r) t) as [E|E].
      * subst t. cbn [List.length]. lia.
      * lia.
    + reflexivity.
Qed.

Lemma tally_keys (h : history) (acc : Py.dict Z) (t : string) :
  In t (map fst (tally acc h))
  <-> In t (map fst acc) \/ exists r, In r h /\ counted r = true /\ key r = t.
Proof.
  unfold tally_loop. revert acc.
  induction h as [|r h IH]; intros acc; cbn [fold_left].
  - split; [now left | intros [H|[r [[] _]]]; exact H].
  - rewrite IH. destruct (counted r) eqn:Ec.
    + unfold count_one. rewrite keys_dict_set. split.
      * intros [[H|H]|[x [Hx H]]]; [now left | right; exists r | right; exists x].
        -- repeat split; [now left | assumption | now symmetry].
        -- destruct H. repeat split; [now right | assumption | assumption].
      * intros [H|[x [[Hx|Hx] [H1 H2]]]]; [now left; left | subst x; left; right; now symmetry|].
        right. now exists x.
    + split.
      * intros [H|[x [Hx H]]]; [now left | right; exists x].
        destruct H. repeat split; [now right | assumption | assumption].
      * intros [H|[x [[Hx|Hx] [H1 H2]]]]; [now left | subst x; congruence |].
        right. now exists x.
Qed.

Lemma tally_NoDup (h : history) (acc : Py.dict Z) :
  NoDup (map fst acc) -> NoDup (map fst (tally acc h)).
Proof.
  unfold tally_loop. revert acc.
  induction h as [|r h IH]; intros acc H; cbn [fold_left]; [exact H|].
  apply IH. destruct (counted r); [|exact H]. now apply NoDup_keys_dict_set.
Qed.

Lemma tally_nodup_keys (h : history) :
  (forall r, In r h -> counted r = true) ->
  len (tally [] h) = len_set (map key h).
Proof.
  intros Hall. unfold len_set, len. f_equal.
  rewrite <- (length_map fst (tally [] h)).
  apply Permutation_length, NoDup_Permutation.
  - apply tally_NoDup. constructor.
  - apply NoDup_nodup.
  - intros t. rewrite tally_keys, nodup_In, (in_map_iff key). split.
    + intros [H|[r [Hr [_ Hk]]]]; [destruct H | now exists r].
    + intros [r [Hk Hr]]. right. exists r. repeat split; [assumption | now apply Hall | assumption].
Qed.

End Counting.

(** X24.  The two bar charts of the analytics page are histograms of the
    store: the bar of a content type (of a language) is as high as the number
    of records of that type (language), a type has a bar exactly when some
    record has it, no bar is drawn twice, and the number of bars is the
    "Content Types" ("Languages Used") metric. *)
Theorem counts_are_histograms (h : history) (t : string) :
  Py.get (type_counts h) t 0 = count_where (fun r => content_type r =? t) h /\
  Py.get (lang_counts h) t 0 = count_where (fun r => language r =? t) h /\
  (In t (map fst (type_counts h)) <-> exists r, In r h /\ content_type r = t) /\
  (In t (map fst (lang_counts h)) <-> exists r, In r h /\ language r = t) /\
  NoDup (map fst (type_counts h)) /\ NoDup (map fst (lang_counts h)) /\
  len (type_counts h) = types_metric h /\ len (lang_counts h) = languages_metric h.
Proof.
  unfold type_counts, lang_counts, types_metric, languages_metric.
  pose proof (tally_get content_type (fun _ => true) h [] t) as T1.
  pose proof (tally_get language (fun _ => true) h [] t) as T2.
  pose proof (tally_keys content_type (fun _ => true) h [] t) as K1.
  pose proof (tally_keys language (fun _ => true) h [] t) as K2.
  pose proof (tally_NoDup content_type (fun _ => true) h [] (NoDup_nil _)) as N1.
  pose proof (tally_NoDup language (fun _ => true) h [] (NoDup_nil _)) as N2.
  pose proof (tally_nodup_keys content_type (fun _ => true) h (fun _ _ => eq_refl)) as L1.
  pose proof (tally_nodup_keys language (fun _ => true) h (fun _ _ => eq_refl)) as L2.
  unfold tally_loop in *. cbn beta iota in *. cbn [Py.get andb map In] in *.
  assert (keys_iff : forall (key : ContentRecord -> string) (P : Prop),
             (P <-> False \/ exists r, In r h /\ true = true /\ key r = t) ->
             (P <-> exists r, In r h /\ key r = t)).
  { intros key P K. rewrite K. split.
    - intros [[]|[r [Hr [_ E]]]]. now exists r.
    - intros [r [Hr E]]. right. now exists r. }
  repeat apply conj; try assumption; now apply keys_iff.
Qed.

Lemma lower_char_idempotent (c : ascii) : Py.lower_char (Py.lower_char c) = Py.lower_char c.
Proof. destruct c as [[] [] [] [] [] [] [] []]; reflexivity. Qed.

Lemma lower_idempotent (s : string) : Py.lower (Py.lower s) = Py.lower s.
Proof.
  induction s as [|c s IH]; [reflexivity|].
  cbn [Py.lower]. now rewrite lower_char_idempotent, IH.
Qed.

Lemma lower_nonempty (s : string) : Py.lower s = EmptyString <-> s = EmptyString.
Proof. destruct s; cbn [Py.lower]; split; congruence. Qed.

(** The keyword counts in the terms of the code: keys are lowered
    keywords. *)
Lemma keyword_counts_by_lower (h : history) :
  (forall kw : string, kw <> EmptyString ->
     Py.get (keyword_counts h) (Py.lower kw) 0
     = count_where (fun r => Py.lower (keyword r) =? Py.lower kw) h) /\
  (forall (k : string) (n : Z), In (k, n) (keyword_counts h) ->
     k <> EmptyString /\ Py.lower k = k /\ (1 <= n)%Z /\
     n = count_where (fun r => Py.lower (keyword r) =? k) h) /\
  NoDup (map fst (keyword_counts h)) /\
  Py.get (keyword_counts h) EmptyString 0 = 0%Z.
Proof.
  set (key := fun r : ContentRecord => Py.lower (keyword r)).
  set (counted := fun r : ContentRecord => Py.truthy (key r)).
  change (keyword_counts h) with (tally_loop key counted [] h).
  assert (Hget : forall t, t <> EmptyString ->
            Py.get (tally_loop key counted [] h) t 0
            = count_where (fun r => key r =? t) h).
  { intros t Ht. rewrite (tally_get key counted h [] t). cbn [Py.get].
    rewrite Z.add_0_l. unfold count_where. f_equal. apply filter_ext. intros r.
    unfold counted. destruct (String.eqb_spec (key r) t) as [E|E].
    - rewrite E. now rewrite (proj2 (truthy_nonempty t) Ht).
    - apply andb_false_r. }
  assert (Hnd : NoDup (map fst (tally_loop key counted [] h))).
  { apply (tally_NoDup key counted h []). constructor. }
  assert (Hkeys : forall t, In t (map fst (tally_loop key counted [] h))
                    -> exists r, In r h /\ counted r = true /\ key r = t).
  { intros t Hin. apply (tally_keys key counted h [] t) in Hin.
    destruct Hin as [[]|Hin]. exact Hin. }
  repeat apply conj.
  - intros kw Hkw. apply Hget. now rewrite lower_nonempty.
  - intros k n Hin.
    destruct (Hkeys k (in_map fst _ _ Hin)) as [r [Hr [Hc Hk]]].
    assert (Hne : k <> EmptyString).
    { rewrite <- Hk. now apply truthy_nonempty. }
    assert (Hn : n = count_where (fun r => key r =? k) h).
    { rewrite <- (Hget k Hne). symmetry. now apply in_dict_get. }
    repeat apply conj; try assumption.
    + rewrite <- Hk. apply lower_idempotent.
    + rewrite Hn. unfold count_where, len.
      assert (Hin' : In r (filter (fun r => key r =? k) h)).
      { apply filter_In. split; [assumption|]. now apply String.eqb_eq. }
      destruct (filter (fun r => key r =? k) h); [destruct Hin'|]. cbn [List.length]. lia.
  - exact Hnd.
  - apply get_absent. intros Hin. destruct (Hkeys _ Hin) as [r [_ [Hc Hk]]].
    unfold counted in Hc. rewrite Hk in Hc. discriminate.
Qed.

Lemma keyword_counts_key (h : history) (r : ContentRecord) :
  In r h -> keyword r <> EmptyString ->
  In (Py.lower (keyword r)) (map fst (keyword_counts h)).
Proof.
  intros Hr Hne.
  change (keyword_counts h)
    with (tally_loop (fun r => Py.lower (keyword r))
            (fun r => Py.truthy (Py.lower (keyword r))) [] h).
  apply tally_keys. right. exists r. split; [assumption|]. split; [|reflexivity].
  apply truthy_nonempty. now rewrite lower_nonempty.
Qed.

Lemma eqb_ignore_case_iff (s t : string) :
  eqb_ignore_case s t = true <-> eq_ignore_case s t.
Proof.
  split.
  - revert t. induction s as [|a s IH]; intros [|b t] H; cbn [eqb_ignore_case] in H;
      try discriminate; [constructor|].
    apply andb_true_iff in H. destruct H as [Hab H]. constructor; [exact Hab | now apply IH].
  - induction 1 as [|a b s t Hab _ IH]; cbn [eqb_ignore_case]; [reflexivity|].
    apply andb_true_iff. split; assumption.
Qed.

Lemma eqb_ignore_case_lower (s t : string) :
  eqb_ignore_case s t = (Py.lower s =? Py.lower t).
Proof.
  apply eq_true_iff_eq. rewrite eqb_ignore_case_iff, eq_ignore_case_iff.
  symmetry. apply String.eqb_eq.
Qed.

(** X25.  The keyword counts of the analytics page ignore case, on ASCII
    keywords: every key of the dictionary is not empty and is counted as
    often as there are records whose keyword equals it up to the case of the
    letters A to Z, which is at least once; every record with a keyword is
    counted under a key that equals its keyword up to case; and no two keys
    are equal up to case.  Records with an empty keyword are counted
    nowhere. *)
Theorem keyword_counts_ignore_case (h : history) :
  forallb (fun r => ascii_only (keyword r)) h = true ->
  (forall (k : string) (n : Z), In (k, n) (keyword_counts h) ->
     k <> EmptyString /\ (1 <= n)%Z /\
     n = count_where (fun r => eqb_ignore_case (keyword r) k) h) /\
  (forall r, In r h -> keyword r <> EmptyString ->
     exists k n, In (k, n) (keyword_counts h) /\ eq_ignore_case (keyword r) k) /\
  (forall k1 n1 k2 n2,
     In (k1, n1) (keyword_counts h) -> In (k2, n2) (keyword_counts h) ->
     eq_ignore_case k1 k2 -> k1 = k2 /\ n1 = n2) /\
  Py.get (keyword_counts h) EmptyString 0 = 0%Z.
Proof.
  intros _. destruct (keyword_counts_by_lower h) as [_ [Hkeys [Hnd Hempty]]].
  repeat apply conj.
  - intros k n Hin. destruct (Hkeys k n Hin) as [Hne [Hlow [Hn Hcount]]].
    repeat apply conj; try assumption.
    rewrite Hcount. unfold count_where. f_equal. apply filter_ext. intros r.
    now rewrite eqb_ignore_case_lower, Hlow.
  - intros r Hr Hne. exists (Py.lower (keyword r)), (Py.get (keyword_counts h)
                                                     (Py.lower (keyword r)) 0%Z).
    split.
    + apply get_in. now apply keyword_counts_key.
    + apply eq_ignore_case_iff. symmetry. apply lower_idempotent.
  - intros k1 n1 k2 n2 H1 H2 Heq.
    destruct (Hkeys k1 n1 H1) as [_ [L1 _]]. destruct (Hkeys k2 n2 H2) as [_ [L2 _]].
    apply eq_ignore_case_iff in Heq. rewrite L1, L2 in Heq. subst k2.
    split; [reflexivity|].
    rewrite <- (in_dict_get _ _ _ 0%Z Hnd H1). now apply in_dict_get.
  - exact Hempty.
Qed.

(** *** The two sorted lists *)

Section SortedReverse.

Context {A : Type}.
Variable lt : A -> A -> bool.

Lemma insert_reverse_perm (x : A) (l : list A) :
  Permutation (insert_reverse lt x l) (x :: l).
Proof.
  induction l as [|y l IH]; cbn [insert_reverse]; [reflexivity|].
  destruct (lt x y); [|reflexivity].
  etransitivity; [apply perm_skip, IH | apply perm_swap].
Qed.

Lemma sorted_reverse_perm (l : list A) : Permutation (sorted_reverse lt l) l.
Proof.
  unfold sorted_reverse. induction l as [|x l IH]; cbn [fold_right]; [constructor|].
  etransitivity; [apply insert_reverse_perm | now apply perm_skip].
Qed.

(** Equal keys keep their order: the part of the list a key-closed test
    selects is the same before and after sorting. *)
Lemma insert_reverse_filter (p : A -> bool) (x : A) (l : list A) :
  (forall y, p x = true -> lt x y = true -> p y = false) ->
  filter p (insert_reverse lt x l) = filter p (x :: l).
Proof.
  intros Hp. induction l as [|y l IH]; cbn [insert_reverse]; [reflexivity|].
  destruct (lt x y) eqn:E; [|reflexivity].
  cbn [filter] in *. rewrite IH. destruct (p x) eqn:Ex; [|reflexivity].
  now rewrite (Hp y eq_refl E).
Qed.

Lemma sorted_reverse_filter (p : A -> bool) (l : list A) :
  (forall x y, p x = true -> lt x y = true -> p y = false) ->
  filter p (sorted_reverse lt l) = filter p l.
Proof.
  intros Hp. unfold sorted_reverse. induction l as [|x l IH]; cbn [fold_right]; [reflexivity|].
  rewrite insert_reverse_filter by (apply Hp). cbn [filter]. now rewrite IH.
Qed.

Hypothesis lt_asym : forall x y, lt x y = true -> lt y x = false.
Hypothesis not_lt_trans : forall x y z, lt x y = false -> lt y z = false -> lt x z = false.

Lemma insert_reverse_sorted (x : A) (l : list A) :
  StronglySorted (fun a b => lt a b = false) l ->
  StronglySorted (fun a b => lt a b = false) (insert_reverse lt x l).
Proof.
  induction l as [|y l IH]; cbn [insert_reverse]; intros H.
  - repeat constructor.
  - apply StronglySorted_inv in H. destruct H as [Hl Hy].
    destruct (lt x y) eqn:E.
    + constructor; [now apply IH|].
      apply (Permutation_Forall (Permutation_sym (insert_reverse_perm x l))).
      constructor; [now apply lt_asym | assumption].
    + constructor; [now constructor|]. constructor; [assumption|].
      apply Forall_forall. intros z Hz. rewrite Forall_forall in Hy.
      apply (not_lt_trans x y z E). now apply Hy.
Qed.

Lemma sorted_reverse_sorted (l : list A) :
  StronglySorted (fun a b => lt a b = false) (sorted_reverse lt l).
Proof.
  unfold sorted_reverse. induction l as [|x l IH]; cbn [fold_right]; [constructor|].
  now apply insert_reverse_sorted.
Qed.

End SortedReverse.

Lemma firstn_sorted {A : Type} (R : A -> A -> Prop) (n : nat) (l : list A) :
  StronglySorted R l ->
  StronglySorted R (firstn n l) /\
  forall x y, In x (firstn n l) -> In y (skipn n l) -> R x y.
Proof.
  revert l. induction n as [|n IH]; intros l H.
  - split; [constructor | intros x y []].
  - destruct l as [|a l]; [split; [constructor | intros x y []]|].
    apply StronglySorted_inv in H. destruct H as [Hl Ha].
    destruct (IH l Hl) as [Hs Hcut]. cbn [firstn skipn]. split.
    + constructor; [assumption|]. rewrite Forall_forall in *. intros z Hz.
      apply Ha. rewrite <- (firstn_skipn n l). apply in_or_app. now left.
    + intros x y [Hx|Hx] Hy.
      * subst x. rewrite Forall_forall in Ha. apply Ha.
        rewrite <- (firstn_skipn n l). apply in_or_app. now right.
      * now apply Hcut.
Qed.

Lemma ltb_irrefl (s : string) : String.ltb s s = false.
Proof.
  unfold String.ltb.
  pose proof (proj2 (OrderedTypeEx.String_as_OT.cmp_eq s s) eq_refl) as H.
  change (String.compare s s = Eq) in H. now rewrite H.
Qed.

Lemma ltb_asym (x y : string) : String.ltb x y = true -> String.ltb y x = false.
Proof.
  unfold String.ltb. rewrite (String.compare_antisym y x).
  now destruct (String.compare x y).
Qed.

Lemma ltb_lt (x y : string) :
  String.ltb x y = true <-> OrderedTypeEx.String_as_OT.lt x y.
Proof.
  rewrite <- OrderedTypeEx.String_as_OT.cmp_lt. unfold String.ltb.
  change (OrderedTypeEx.String_as_OT.cmp x y) with (String.compare x y).
  destruct (String.compare x y); split; congruence.
Qed.

Lemma not_ltb_total (x y : string) :
  String.ltb x y = false -> x = y \/ String.ltb y x = true.
Proof.
  unfold String.ltb. rewrite (String.compare_antisym y x).
  destruct (String.compare x y) eqn:E; cbn [CompOpp]; intros H.
  - left. now apply String.compare_eq_iff.
  - discriminate.
  - now right.
Qed.

Lemma not_ltb_trans (x y z : string) :
  String.ltb x y = false -> String.ltb y z = false -> String.ltb x z = false.
Proof.
  intros Hxy Hyz. destruct (String.ltb x z) eqn:Hxz; [exfalso|reflexivity].
  destruct (not_ltb_total x y Hxy) as [->|Hyx]; [congruence|].
  destruct (not_ltb_total y z Hyz) as [->|Hzy].
  - apply ltb_asym in Hxz. congruence.
  - apply ltb_lt in Hyx, Hzy, Hxz.
    pose proof (OrderedTypeEx.String_as_OT.lt_trans _ _ _ Hzy
                  (OrderedTypeEx.String_as_OT.lt_trans _ _ _ Hyx Hxz)) as Hzz.
    exact (OrderedTypeEx.String_as_OT.lt_not_eq _ _ Hzz eq_refl).
Qed.

(** X26.  "Recent Activity" shows the newest records: at most five, all of
    them stored records, from the latest timestamp down; no record left out
    has a later timestamp than one that is shown; and records with the same
    timestamp appear in store order. *)
Theorem recent_items_newest_first (h : history) :
  List.length (recent_items h) = Nat.min 5 (List.length h) /\
  StronglySorted (fun x y => older x y = false) (recent_items h) /\
  (exists rest,
      Permutation (recent_items h ++ rest)%list h /\
      forall x y, In x (recent_items h) -> In y rest -> older x y = false) /\
  forall t : string,
    filter (fun r => timestamp r =? t) (sorted_reverse older h)
    = filter (fun r => timestamp r =? t) h.
Proof.
  unfold recent_items.
  assert (Hsorted : StronglySorted (fun x y => older x y = false) (sorted_reverse older h)).
  { apply sorted_reverse_sorted.
    - intros x y. apply ltb_asym.
    - intros x y z. apply not_ltb_trans. }
  destruct (firstn_sorted _ 5 _ Hsorted) as [Hfirst Hcut].
  repeat apply conj.
  - rewrite length_firstn. f_equal. apply Permutation_length, sorted_reverse_perm.
  - exact Hfirst.
  - exists (skipn 5 (sorted_reverse older h)). split; [|exact Hcut].
    rewrite firstn_skipn. apply sorted_reverse_perm.
  - intros t. apply sorted_reverse_filter. intros x y Hx Hlt.
    apply String.eqb_eq in Hx. unfold older in Hlt. rewrite Hx in Hlt.
    destruct (String.eqb_spec (timestamp y) t) as [E|E]; [|reflexivity].
    rewrite E, ltb_irrefl in Hlt. discriminate.
Qed.

(** X27.  "Popular Keywords" lists at most ten keywords, each with its
    count, from the highest count down; a keyword left out is used no more
    often than a listed one; keywords used equally often stay in the order of
    their first use. *)
Theorem sorted_keywords_most_used (h : history) :
  (List.length (sorted_keywords h) <= 10)%nat /\
  StronglySorted (fun x y => (snd y <= snd x)%Z) (sorted_keywords h) /\
  (exists rest,
      Permutation (sorted_keywords h ++ rest)%list (keyword_counts h) /\
      forall x y, In x (sorted_keywords h) -> In y rest -> (snd y <= snd x)%Z) /\
  forall n : Z,
    filter (fun kv => (snd kv =? n)%Z) (sorted_reverse fewer (keyword_counts h))
    = filter (fun kv => (snd kv =? n)%Z) (keyword_counts h).
Proof.
  unfold sorted_keywords.
  assert (Hsorted : StronglySorted (fun x y => (snd y <= snd x)%Z)
                      (sorted_reverse fewer (keyword_counts h))).
  { eapply StronglySorted_ind with (R := fun x y => fewer x y = false)
      (P := StronglySorted (fun x y => (snd y <= snd x)%Z)).
    - constructor.
    - intros a l _ IH Ha. constructor; [assumption|].
      eapply Forall_impl; [|exact Ha]. unfold fewer. intros b Hb.
      now apply Z.ltb_ge.
    - apply sorted_reverse_sorted; unfold fewer.
      + intros x y Hxy. apply Z.ltb_lt in Hxy. apply Z.ltb_ge. lia.
      + intros x y z Hxy Hyz. apply Z.ltb_ge in Hxy, Hyz. apply Z.ltb_ge. lia. }
  destruct (firstn_sorted _ 10 _ Hsorted) as [Hfirst Hcut].
  repeat apply conj.
  - apply firstn_le_length.
  - exact Hfirst.
  - exists (skipn 10 (sorted_reverse fewer (keyword_counts h))). split; [|exact Hcut].
    rewrite firstn_skipn. apply sorted_reverse_perm.
  - intros n. apply sorted_reverse_filter. intros x y Hx Hlt.
    apply Z.eqb_eq in Hx. unfold fewer in Hlt. apply Z.ltb_lt in Hlt.
    apply Z.eqb_neq. lia.
Qed.

(** X28.  The "Favorites" metric follows the favorite button: where the
    store holds a record with the given id, one toggle moves the number of
    favorites by exactly one, up when the first such record was not a
    favorite and down when it was; where it holds none, the number stays. *)
Theorem favorites_metric_toggle (item_id : Z) (h : history) :
  favorites_metric (toggle_first item_id h)
  = match find (fun item => (id item =? item_id)%Z) h with
    | Some item => if favorite item then (favorites_metric h - 1)%Z
                   else (favorites_metric h + 1)%Z
    | None => favorites_metric h
    end.
Proof.
  unfold favorites_metric, len.
  induction h as [|r h IH]; [reflexivity|].
  cbn [toggle_first find]. destruct (id r =? item_id)%Z.
  - cbn [filter]. change (favorite (set_favorite (negb (favorite r)) r))
      with (negb (favorite r)).
    destruct (favorite r); cbn [negb List.length]; lia.
  - cbn [filter]. destruct (favorite r); cbn [List.length].
    + destruct (find (fun item => (id item =? item_id)%Z) h) as [x|].
      * destruct (favorite x); lia.
      * lia.
    + exact IH.
Qed.

(** ** The properties on concrete inputs *)

Lemma delete_content_twice_witness :
  (forall h, sample_load (sample_dump h) = Some h) /\
  let once := delete_content sample_load sample_dump 2 sample_store in
  let twice := delete_content sample_load sample_dump 2 (fst once) in
  load_history sample_load (fst twice) = load_history sample_load (fst once) /\
  snd once = true /\ snd twice = false.
Proof.
  split; [reflexivity|]. intros once twice.
  destruct (delete_content_twice sample_load sample_dump sample_load_dump 2 sample_store)
    as [_ [H1 H2]].
  split; [exact H1|]. split; [reflexivity | exact H2].
Defined.

Lemma unique_ids_kept_witness :
  (forall h, sample_load (sample_dump h) = Some h) /\
  unique_ids (load_history sample_load sample_store) /\
  unique_ids (load_history sample_load
                (apply_op sample_load sample_dump sample_store (Delete 1))).
Proof.
  assert (Hu : unique_ids (load_history sample_load sample_store)).
  { repeat constructor; cbn; intuition discriminate. }
  split; [reflexivity|]. split; [exact Hu|].
  apply (unique_ids_kept sample_load sample_dump sample_load_dump (Delete 1) sample_store).
  - intros now record. discriminate.
  - exact Hu.
Defined.

Lemma unreadable_file_replaced_witness :
  sample_load (Garbage "{ not json") = None /\
  toggle_favorite sample_load sample_dump 1 (Some (Garbage "{ not json"))
  = Some (Dumped []) /\
  ids (load_history sample_load
         (save_to_history sample_load sample_dump sample_now
            (sample_record "love" "Love wins.") (Some (Garbage "{ not json")))) = [1] /\
  history_step sample_load sample_dump (mkFilters EmptyString "All" false) ClickClearAll
    (set_confirm_clear_all true no_confirmations, Some (Garbage "{ not json"))
  = (set_confirm_clear_all true no_confirmations, Some (Garbage "{ not json")).
Proof.
  split; [reflexivity|].
  destruct (unreadable_file_replaced sample_load sample_dump sample_load_dump
              (Garbage "{ not json") sample_now (sample_record "love" "Love wins.") 1
              (mkFilters EmptyString "All" false) ClickClearAll
              (set_confirm_clear_all true no_confirmations) eq_refl)
    as [_ [H2 [_ [H4 H5]]]].
  split; [rewrite H2; reflexivity|]. split; [exact H4 | exact H5].
Defined.

Lemma toggle_delete_commute_witness :
  (forall h, sample_load (sample_dump h) = Some h) /\
  load_history sample_load
    (toggle_favorite sample_load sample_dump 1
       (fst (delete_content sample_load sample_dump 2 sample_store)))
  = load_history sample_load
      (fst (delete_content sample_load sample_dump 2
              (toggle_favorite sample_load sample_dump 1 sample_store))).
Proof.
  split; [reflexivity|].
  exact (proj2 (proj2 (toggle_delete_commute sample_load sample_dump sample_load_dump
                         1 2 sample_store))).
Defined.

Lemma filtered_history_is_search_witness :
  search_history sample_load EmptyString (Some "All") false sample_store
  = load_history sample_load sample_store.
Proof.
  exact (proj2 (filtered_history_is_search sample_load EmptyString "All" false sample_store)
           eq_refl eq_refl eq_refl).
Defined.

Lemma delete_all_filtered_leaves_none_witness :
  (forall h, sample_load (sample_dump h) = Some h) /\
  let shown := filtered_history sample_load "LOVE" "All" false sample_store in
  let after := delete_all_filtered sample_load sample_dump shown sample_store in
  ids shown = [1] /\
  filtered_history sample_load "LOVE" "All" false after = [] /\
  ids (load_history sample_load after) = [2].
Proof.
  split; [reflexivity|]. intros shown after.
  split; [reflexivity|]. split; [|reflexivity].
  exact (proj1 (delete_all_filtered_leaves_none sample_load sample_dump sample_load_dump
                  "LOVE" "All" false sample_store)).
Defined.

Lemma clear_all_restarts_ids_witness :
  (forall h, sample_load (sample_dump h) = Some h) /\
  let ops := [Append sample_now (sample_record "love" "Love wins.");
              ToggleFavorite 1;
              Append sample_now (sample_record "hope" "Hope stays.")] in
  let f := Some (Dumped [set_id 7 (sample_record "old" "Old lines.")]) in
  Forall (fun op => removes_records op = false) ops /\
  numbered (load_history sample_load (run_ops sample_load sample_dump (ClearAll :: ops) f)) /\
  unique_ids (load_history sample_load (run_ops sample_load sample_dump (ClearAll :: ops) f)).
Proof.
  split; [reflexivity|]. intros ops f.
  assert (Hops : Forall (fun op => removes_records op = false) ops)
    by (repeat constructor).
  split; [exact Hops|].
  exact (clear_all_restarts_ids sample_load sample_dump sample_load_dump ops f Hops).
Defined.

Lemma build_prompt_style_clauses_witness :
  In "Write in French language" style_clauses /\
  Py.contains "Write in French language"
    (build_prompt "love" "Quote" "French" "Funny" "Kids" "Free Verse" 12) = true /\
  Py.contains "Write in French language"
    (build_prompt "love" "Quote" "English" "Funny" "Kids" "Free Verse" 12) = false.
Proof.
  assert (Hin : In "Write in French language" style_clauses).
  { do 3 right. left. reflexivity. }
  split; [exact Hin|]. split.
  - rewrite (build_prompt_style_clauses "love" "Quote" "French" "Funny" "Kids" "Free Verse" 12
               "Write in French language" Hin).
    reflexivity.
  - rewrite (build_prompt_style_clauses "love" "Quote" "English" "Funny" "Kids" "Free Verse"
               12 "Write in French language" Hin).
    reflexivity.
Defined.

Lemma build_prompt_ignores_poem_options_witness :
  "Quote" <> "Poem" /\
  build_prompt "love" "Quote" "English" "Funny" "Kids" "ABAB" 12
  = build_prompt "love" "Quote" "English" "Funny" "Kids" "Free Verse" 150.
Proof.
  split; [discriminate|].
  apply (build_prompt_ignores_poem_options "love" "Quote" "English" "Funny" "Kids"
           "ABAB" "Free Verse" 12 150).
  discriminate.
Defined.

Lemma gemini_failures_are_runtime_errors_witness :
  let e := mkExn RuntimeError
             "Gemini generation failed: Gemini API error (429): {'error': 'quota'}" in
  selected_provider sample_config None = "gemini" /\
  generate_text tt post_429 sample_py_str None chat_no_choice sample_config
    "Write a quote" None no_kwargs = Raise e /\
  exn_class_of e = RuntimeError /\
  (exn_str e = "GEMINI_API_KEY not found in environment. Set it in .env."
   \/ prefix "Gemini generation failed: " (exn_str e) = true).
Proof.
  intros e. split; [reflexivity|]. split; [reflexivity|].
  apply (gemini_failures_are_runtime_errors tt post_429 sample_py_str None chat_no_choice
           sample_config "Write a quote" None no_kwargs e); reflexivity.
Defined.

Lemma blank_key_is_missing_witness :
  all_space "   " = true /\
  generate_text tt (post_ok body_with_text) sample_py_str None chat_no_choice
    (read_config blank_key_env) "Write a quote" None no_kwargs
  = Raise (mkExn RuntimeError "GEMINI_API_KEY not found in environment. Set it in .env.").
Proof.
  split; [reflexivity|].
  apply (blank_key_is_missing tt (post_ok body_with_text) sample_py_str None chat_no_choice
           blank_key_env "   " "Write a quote" no_kwargs); reflexivity.
Defined.

Lemma quoted_key_unwrapped_witness :
  normalize_key (Some (double_quote ++ "k-123" ++ double_quote)) = Some "k-123" /\
  normalize_key (Some ("'" ++ "k-123" ++ "'")) = Some "k-123".
Proof.
  apply (quoted_key_unwrapped "k-123"); reflexivity.
Defined.

Lemma stored_records_are_filled_witness :
  (forall h, sample_load (sample_dump h) = Some h) /\
  let clicks := [OnGenerator (ClickGenerate always_answers sample_form);
                 OnGenerator (ClickSave sample_now);
                 OnHistory (mkFilters EmptyString "All" false) (ClickFavorite 1)] in
  Forall ascii_click clicks /\
  map keyword (load_history sample_load
                 (store (app_run sample_load sample_dump clicks initial_state)))
  = ["love"] /\
  Forall filled
    (load_history sample_load
       (store (app_run sample_load sample_dump clicks initial_state))).
Proof.
  split; [reflexivity|]. intros clicks.
  assert (Hascii : Forall ascii_click clicks).
  { repeat constructor. }
  split; [exact Hascii|]. split; [reflexivity|].
  exact (proj1 (stored_records_are_filled sample_load sample_dump sample_load_dump clicks
                  Hascii)).
Defined.

Lemma empty_answer_is_silent_witness :
  well_formed body_without_text = true /\
  first_parts body_without_text = [JDict []] /\
  candidate_text body_without_text = None /\
  generate_button
    (page_generate tt (post_ok body_without_text) sample_py_str None chat_no_choice
       sample_config)
    sample_form None
  = (None, []).
Proof.
  split; [reflexivity|]. split; [reflexivity|]. split; [reflexivity|].
  apply (empty_answer_is_silent tt (post_ok body_without_text) sample_py_str None
           chat_no_choice sample_config sample_form None "k-123"
           (mkResponse true 200 (Return body_without_text) EmptyString)
           body_without_text);
    first [reflexivity | discriminate | exact I].
Defined.

Lemma single_click_never_deletes_witness :
  (forall h, sample_load (sample_dump h) = Some h) /\
  nothing_confirmed no_confirmations /\
  ids (load_history sample_load
         (snd (history_step sample_load sample_dump (mkFilters EmptyString "All" false)
                 (ClickDelete 1) (no_confirmations, sample_store))))
  = ids (load_history sample_load sample_store).
Proof.
  assert (Hn : nothing_confirmed no_confirmations) by (repeat split).
  split; [reflexivity|]. split; [exact Hn|].
  exact (single_click_never_deletes sample_load sample_dump sample_load_dump
           (mkFilters EmptyString "All" false) (ClickDelete 1) no_confirmations
           sample_store Hn).
Defined.

Lemma delete_takes_two_clicks_witness :
  (forall h, sample_load (sample_dump h) = Some h) /\
  let flt := mkFilters "love" "All" false in
  let first := history_step sample_load sample_dump flt (ClickDelete 1)
                 (no_confirmations, sample_store) in
  let second := history_step sample_load sample_dump flt (ClickDelete 1) first in
  is_listed sample_load flt sample_store 1 = true /\
  snd first = sample_store /\
  confirm_delete (fst first) 1 = true /\
  ids (load_history sample_load (snd second)) = [2] /\
  confirm_delete (fst second) 1 = false.
Proof.
  split; [reflexivity|]. intros flt first second.
  destruct (delete_takes_two_clicks sample_load sample_dump sample_load_dump flt 1
              no_confirmations sample_store eq_refl eq_refl) as [H1 [H2 [H3 [_ H4]]]].
  split; [reflexivity|]. split; [exact H1|]. split; [exact H2|]. split; [|exact H4].
  fold first in H3. fold second in H3. rewrite H3. reflexivity.
Defined.

Lemma bulk_confirmation_outlives_filters_witness :
  (forall h, sample_load (sample_dump h) = Some h) /\
  let flt1 := mkFilters "love" "All" false in
  let flt2 := mkFilters "hope" "All" false in
  let first := history_step sample_load sample_dump flt1 ClickDeleteAllFiltered
                 (no_confirmations, sample_store) in
  let second := history_step sample_load sample_dump flt2 ClickDeleteAllFiltered first in
  ids (listed sample_load flt1 sample_store) = [1] /\
  ids (listed sample_load flt2 sample_store) = [2] /\
  snd first = sample_store /\
  ids (load_history sample_load (snd second)) = [1] /\
  listed sample_load flt2 (snd second) = [].
Proof.
  split; [reflexivity|]. intros flt1 flt2 first second.
  destruct (bulk_confirmation_outlives_filters sample_load sample_dump sample_load_dump
              flt1 flt2 no_confirmations sample_store) as [H1 [H2 [H3 _]]].
  - reflexivity.
  - vm_compute. discriminate.
  - vm_compute. discriminate.
  - split; [reflexivity|]. split; [reflexivity|]. split; [exact H1|].
    split; [|exact H3]. fold first in H2. fold second in H2. rewrite H2. reflexivity.
Defined.

Lemma keyword_counts_ignore_case_witness :
  let h := [sample_record "Love" "Love wins."; sample_record "hope" "Hope stays.";
            sample_record "LOVE" "Love stays."; sample_record EmptyString "No keyword."] in
  forallb (fun r => ascii_only (keyword r)) h = true /\
  keyword_counts h = [("love", 2%Z); ("hope", 1%Z)] /\
  2%Z = count_where (fun r => eqb_ignore_case (keyword r) "love") h.
Proof.
  intros h. split; [reflexivity|]. split; [reflexivity|].
  apply (proj1 (keyword_counts_ignore_case h eq_refl) "love" 2%Z). left. reflexivity.
Defined.

Lemma search_history_filters_witness :
  let r1 := set_id 1 (sample_record "love" "Love wins.") in
  ascii_only "WINS" = true /\
  forallb ascii_record (load_history sample_load sample_store) = true /\
  record_mentions "WINS" r1 /\
  In r1 (search_history sample_load "WINS" (Some "Quote") false sample_store) /\
  search_history sample_load "WINS" (Some "Poem") false sample_store = [].
Proof.
  intros r1.
  assert (Hm : record_mentions "WINS" r1).
  { right. left. exists "Love ", "wins", ".". split; [reflexivity|]. repeat constructor. }
  split; [reflexivity|]. split; [reflexivity|]. split; [exact Hm|]. split.
  - apply (proj1 (proj2 (search_history_filters sample_load "WINS" (Some "Quote") false
                           sample_store eq_refl eq_refl)) r1).
    split; [left; reflexivity|]. split; [discriminate|]. split; [|exact Hm].
    intros t Ht _ _. injection Ht as <-. reflexivity.
  - rewrite (proj1 (search_history_filters sample_load "WINS" (Some "Poem") false
                      sample_store eq_refl eq_refl)).
    reflexivity.
Defined.

(** ** The save and the failure of the dump *)

Section HistoryWriteFacts.

Context {text : Type}.
Variable json_load : text -> option history.
Variable json_dump : history -> dumped text.

(** What [json.dump] wrote in full reads back as the history written; what
    it left unfinished, a list without its closing bracket, does not
    parse. *)
Hypothesis json_load_written :
  forall h contents, json_dump h = Written contents -> json_load contents = Some h.
Hypothesis json_load_broken :
  forall h partial e, json_dump h = Broken partial e -> json_load partial = None.

(** C10.  The frame property of [save_to_history] holds where the dump
    succeeds and fails where it raises.  The file is emptied when it is opened
    for writing, before [json.dump] runs: where the dump succeeds, loading
    afterwards gives the records stored before followed by the one new
    record, which carries the nine user-supplied fields of the input; where
    the dump raises, the call raises and the file holds an unfinished text,
    so loading afterwards gives no record at all: every record stored before
    is lost and nothing is appended. *)
Theorem save_to_history_loses_history (now : string) (record : ContentRecord) (f : file) :
  let before := load_history json_load f in
  let stored := stamped now record before in
  let saved := save_to_history_or_raise json_load json_dump now record f in
  (forall contents,
      json_dump (before ++ [stored])%list = Written contents ->
      saved = (Some contents, Return tt) /\
      load_history json_load (fst saved) = (before ++ [stored])%list /\
      keyword stored = keyword record /\ content_type stored = content_type record /\
      language stored = language record /\ tone stored = tone record /\
      audience stored = audience record /\ rhyme_scheme stored = rhyme_scheme record /\
      length_words stored = length_words record /\ tags stored = tags record /\
      output stored = output record) /\
  (forall partial e,
      json_dump (before ++ [stored])%list = Broken partial e ->
      saved = (Some partial, Raise e) /\
      load_history json_load (fst saved) = [] /\
      forall appended, load_history json_load (fst saved) <> (before ++ [appended])%list).
Proof.
  cbv zeta. unfold save_to_history_or_raise, write_history, stamped. cbv zeta. split.
  - intros contents H. rewrite H. cbn [fst load_history].
    rewrite (json_load_written _ _ H). repeat split.
  - intros partial e H. rewrite H. cbn [fst load_history].
    rewrite (json_load_broken _ _ _ H). repeat split.
    intros appended Heq. symmetry in Heq. apply app_eq_nil in Heq.
    destruct Heq as [_ Heq]. discriminate.
Qed.

(** X9.  The export of a store with no record is the two header lines, and
    a save whose dump succeeds extends the export by exactly one block, that
    of the saved record, after all the others. *)
Theorem export_after_save (now : string) (record : ContentRecord) (f : file)
    (contents : text) :
  json_dump (load_history json_load f
             ++ [stamped now record (load_history json_load f)])%list
  = Written contents ->
  (load_history json_load f = [] ->
   export_history_as_text json_load f = export_header) /\
  export_history_as_text json_load
    (fst (save_to_history_or_raise json_load json_dump now record f))
  = export_history_as_text json_load f
    ++ export_section (stamped now record (load_history json_load f)).
Proof.
  intros H. split.
  - intros Hempty. rewrite export_is_header_and_sections, Hempty. apply append_empty_r.
  - rewrite !export_is_header_and_sections.
    unfold save_to_history_or_raise, write_history. cbv zeta.
    unfold stamped in H. rewrite H. cbn [fst load_history].
    rewrite (json_load_written _ _ H), export_sections_app, append_assoc.
    unfold stamped. cbn [export_sections fold_right]. now rewrite append_empty_r.
Qed.


End HistoryWriteFacts.

Lemma sample_load_written (h : history) (contents : sample_text) :
  sample_dump_or_raise h = Written contents -> sample_load contents = Some h.
Proof.
  unfold sample_dump_or_raise. destruct (existsb _ h); [discriminate|].
  intros H. injection H as <-. reflexivity.
Qed.

Lemma sample_load_broken (h : history) (partial : sample_text) (e : exn) :
  sample_dump_or_raise h = Broken partial e -> sample_load partial = None.
Proof.
  unfold sample_dump_or_raise. destruct (existsb _ h); [|discriminate].
  intros H. injection H as <- _. reflexivity.
Qed.

Lemma save_to_history_loses_history_witness :
  let record := sample_record "joy" ("Joy " ++ lone_surrogate) in
  let saved := save_to_history_or_raise sample_load sample_dump_or_raise sample_now record
                 sample_store in
  List.length (load_history sample_load sample_store) = 2%nat /\
  snd saved = Raise (mkExn (OtherError "UnicodeEncodeError")
                "'utf-8' codec can't encode character '\ud83d': surrogates not allowed") /\
  load_history sample_load (fst saved) = [].
Proof.
  intros record saved. split; [reflexivity|].
  destruct (proj2 (save_to_history_loses_history sample_load sample_dump_or_raise
                     sample_load_written sample_load_broken sample_now record sample_store)
              (Garbage "[")
              (mkExn (OtherError "UnicodeEncodeError")
                 "'utf-8' codec can't encode character '\ud83d': surrogates not allowed")
              eq_refl) as [H1 [H2 _]].
  fold saved in H1, H2. split; [now rewrite H1 | exact H2].
Defined.

Lemma export_after_save_witness :
  export_history_as_text sample_load (@None sample_text) = export_header /\
  export_history_as_text sample_load
    (fst (save_to_history_or_raise sample_load sample_dump_or_raise sample_now
            (sample_record "faith" "Faith holds.") sample_store))
  = export_history_as_text sample_load sample_store
    ++ export_section (stamped sample_now (sample_record "faith" "Faith holds.")
                         (load_history sample_load sample_store)).
Proof.
  split.
  - exact (proj1 (export_after_save sample_load sample_dump_or_raise sample_load_written
                    sample_now (sample_record "empty" "Nothing yet.") None
                    (Dumped [stamped sample_now (sample_record "empty" "Nothing yet.") []])
                    eq_refl) eq_refl).
  - exact (proj2 (export_after_save sample_load sample_dump_or_raise sample_load_written
                    sample_now (sample_record "faith" "Faith holds.") sample_store
                    (Dumped (load_history sample_load sample_store
                             ++ [stamped sample_now (sample_record "faith" "Faith holds.")
                                   (load_history sample_load sample_store)])%list)
                    eq_refl)).
Defined.

Lemma preview_bounded_witness :
  let item := sample_record "echo" (Py.repeat_str "la " 67) in
  ascii_only (output item) = true /\
  String.length (output item) = 201%nat /\
  preview item = take 200 (output item) ++ "..." /\
  String.length (preview item) = 203%nat.
Proof.
  intros item. split; [reflexivity|]. split; [reflexivity|].
  apply (proj2 (proj2 (proj2 (preview_bounded item eq_refl)))).
  vm_compute. lia.
Defined.


(** X13.  A text of ASCII characters that [generate_text] returns has no
    blank at its first nor at its last place, on the Gemini path and on the
    OpenAI path, for every response. *)
Theorem generate_text_stripped {float : Type} (float_0_7 : float)
    (requests_post : @request float -> result response) (py_str : json -> string)
    (import_openai : option exn)
    (chat_completion_create : @chat_request float -> result (list (option string)))
    (cfg : config) (prompt : string) (provider : option string) (kw : kwargs)
    (answer : string) :
  generate_text float_0_7 requests_post py_str import_openai chat_completion_create cfg
    prompt provider kw = Return answer ->
  ascii_only answer = true ->
  no_blank_ends answer.
Proof.
  intros H _. apply strip_fixed_no_blank_ends.
  exact (generate_text_strip_fixed float_0_7 requests_post py_str import_openai
           chat_completion_create cfg prompt provider kw answer H).
Qed.

Lemma generate_text_stripped_witness :
  generate_text tt (post_ok body_with_text) sample_py_str None chat_no_choice sample_config
    "Write a quote" None no_kwargs = Return "Love wins." /\
  ascii_only "Love wins." = true /\
  no_blank_ends "Love wins.".
Proof.
  split; [reflexivity|]. split; [reflexivity|].
  apply (generate_text_stripped tt (post_ok body_with_text) sample_py_str None
           chat_no_choice sample_config "Write a quote" None no_kwargs "Love wins.");
    reflexivity.
Defined.
